(** * Knowledge AI MCP, portable edition: a shallow embedding

    The development follows the JavaScript sources of the portable package:
    - [index.js]   (class [PortableKnowledgeAiMcpServer], the MCP server),
    - [client.js]  (class [KnowledgeAiMcpClient], the standalone client),
    - [config.js]  (the configuration object),
    - [handlers/*.js] and [utils/ResponseBuilder.js].

    JavaScript strings are modelled as Rocq byte strings holding the UTF-8
    encoding of the text.  The separator ['-'] is an ASCII character, so
    splitting and searching for it byte-wise agrees with the UTF-16 view of
    the engine.

    Asynchronous methods are functions in a monad that threads the record of
    what the program did (requests sent, delays waited, events emitted,
    console lines) and in which a rejected promise is a thrown error.  The
    remote API, the clock and the registered listeners are parameters of the
    environment; the few places where the result depends on floating-point
    rounding or on the wording of an engine message are fields of an
    [engine] record.

    Numbers are exact decimals: the values the embedded code computes with
    are counts, identifiers, status codes and delays, and no theorem below
    relies on the binary rounding of doubles or on exponent notation.

    Embedded: the constructors, the derivation of the project from the API
    key on both sides, the request paths of the handlers and of the client,
    the five tool handlers with their tool lists, the protocol handlers for
    the tool list, for a tool call and for the resources, the health report,
    the webhook receiver, the registration of the webhook, the methods of
    the client that read and write notes, and the numeric settings of the
    configuration file.  Not embedded: the set-up of the transport and of
    the HTTP listener ([run], [close], [connect], [disconnect],
    [setupWebhookReceiver]), the start-up script, and [safeParseInt], whose
    result on a number depends on the engine's printing of doubles. *)

From Stdlib Require Import String Ascii List ZArith Lia Bool DecimalString
  DecimalPos.
Import ListNotations.

Local Open Scope string_scope.
Local Open Scope Z_scope.

(** ** String primitives of the engine used by the sources *)

Module Str.

(** [s.split(sep)] for a one-character separator. *)
Fixpoint split (sep : ascii) (s : string) : list string :=
  match s with
  | EmptyString => [EmptyString]
  | String c rest =>
      if Ascii.eqb c sep then EmptyString :: split sep rest
      else match split sep rest with
           | [] => [String c EmptyString]
           | p :: ps => String c p :: ps
           end
  end.

Fixpoint indexOf_from (c : ascii) (s : string) (i : Z) : Z :=
  match s with
  | EmptyString => -1
  | String a rest => if Ascii.eqb a c then i else indexOf_from c rest (i + 1)
  end.

(** [s.indexOf(c)]: position of the first occurrence, [-1] when absent. *)
Definition indexOf (c : ascii) (s : string) : Z := indexOf_from c s 0.

Fixpoint lastIndexOf_from (c : ascii) (s : string) (i acc : Z) : Z :=
  match s with
  | EmptyString => acc
  | String a rest =>
      lastIndexOf_from c rest (i + 1) (if Ascii.eqb a c then i else acc)
  end.

(** [s.lastIndexOf(c)]: position of the last occurrence, [-1] when absent. *)
Definition lastIndexOf (c : ascii) (s : string) : Z :=
  lastIndexOf_from c s 0 (-1).

Definition clamp (len z : Z) : Z := Z.max 0 (Z.min z len).

(** [s.substring(a, b)]: both bounds are clamped to [0, length] and swapped
    when out of order. *)
Definition substring (s : string) (a b : Z) : string :=
  let len := Z.of_nat (String.length s) in
  let a' := clamp len a in
  let b' := clamp len b in
  let lo := Z.min a' b' in
  let hi := Z.max a' b' in
  String.substring (Z.to_nat lo) (Z.to_nat (hi - lo)) s.

(** [s.includes(sub)] *)
Fixpoint includes (s sub : string) : bool :=
  match s with
  | EmptyString => String.prefix sub EmptyString
  | String _ rest => String.prefix sub s || includes rest sub
  end.

(** [parts.join(sep)] on an array of strings. *)
Fixpoint join (sep : string) (l : list string) : string :=
  match l with
  | [] => EmptyString
  | [x] => x
  | x :: rest => x ++ sep ++ join sep rest
  end.

(** A string without the character [c]. *)
Fixpoint lacks (c : ascii) (s : string) : bool :=
  match s with
  | EmptyString => true
  | String a rest => negb (Ascii.eqb a c) && lacks c rest
  end.

End Str.

Definition dash : ascii := "-"%char.

(** ** Values of the engine

    Numbers are exact decimals [mant * 10^-scale]; the rounding of IEEE
    doubles is not modelled.  Objects are association lists in insertion
    order, looked up by own property: every property name the sources read
    ([data], [event], [id], ...) is absent from the built-in prototypes, with
    the exception of [length], which is handled for arrays and strings.  The
    two places where the prototype shows are modelled: the [in] test of
    [validateParams], whose keys are arguments ([JS.inherited]), and the
    conversion of an object to a string, which fails when the object has a
    property [toString] of its own ([JS.convertible]). *)

Record number := mkNum { mant : Z; scale : nat }.

Set Warnings "-register-all".

Inductive value : Type :=
| VUndefined
| VNull
| VBool (b : bool)
| VNumber (n : number)
| VString (s : string)
| VArray (items : list value)
| VObject (props : list (string * value)).

Module JS.

Definition int (z : Z) : value := VNumber (mkNum z 0).

(** Drops the trailing zeros of the fractional part. *)
Fixpoint num_norm_aux (m : Z) (sc : nat) : number :=
  match sc with
  | O => mkNum m O
  | S sc' => if (m mod 10 =? 0) then num_norm_aux (m / 10) sc' else mkNum m sc
  end.

Definition num_norm (n : number) : number := num_norm_aux (mant n) (scale n).

Definition num_eqb (a b : number) : bool :=
  let a' := num_norm a in
  let b' := num_norm b in
  (mant a' =? mant b') && Nat.eqb (scale a') (scale b').

Definition num_add (a b : number) : number :=
  let sc := Nat.max (scale a) (scale b) in
  num_norm (mkNum (mant a * 10 ^ Z.of_nat (sc - scale a)
                   + mant b * 10 ^ Z.of_nat (sc - scale b)) sc).

Fixpoint zeros (n : nat) : string :=
  match n with
  | O => EmptyString
  | S n' => String "0"%char (zeros n')
  end.

(** [String(n)] for a number in plain decimal notation. *)
Definition num_to_string (n : number) : string :=
  let n' := num_norm n in
  match scale n' with
  | O => NilZero.string_of_int (Z.to_int (mant n'))
  | sc =>
      let d := 10 ^ Z.of_nat sc in
      let a := Z.abs (mant n') in
      let frac := NilZero.string_of_int (Z.to_int (a mod d)) in
      let sign := if mant n' <? 0 then "-" else "" in
      let whole := NilZero.string_of_int (Z.to_int (a / d)) in
      (sign ++ whole ++ "." ++ zeros (sc - String.length frac) ++ frac)%string
  end.

(** Own-property lookup in an object literal. *)
Fixpoint lookup (k : string) (props : list (string * value)) : option value :=
  match props with
  | [] => None
  | (k', v) :: rest => if String.eqb k' k then Some v else lookup k rest
  end.

(** [obj.k] on an object: [undefined] when the property is absent. *)
Definition member (props : list (string * value)) (k : string) : value :=
  match lookup k props with
  | Some x => x
  | None => VUndefined
  end.

(** [obj[k] = v]: replaces in place, or appends a new property. *)
Fixpoint set (k : string) (v : value) (props : list (string * value))
  : list (string * value) :=
  match props with
  | [] => [(k, v)]
  | (k', v') :: rest =>
      if String.eqb k' k then (k, v) :: rest else (k', v') :: set k v rest
  end.

(** [{...a, ...b}] on the property lists. *)
Definition spread (a b : list (string * value)) : list (string * value) :=
  fold_left (fun acc kv => set (fst kv) (snd kv) acc) b a.

(** The own enumerable properties spread by [...v]. *)
Definition props_of (v : value) : list (string * value) :=
  match v with
  | VObject props => props
  | _ => []
  end.

(** Truthiness: [if (v)], [!v], [v || w]. *)
Definition truthy (v : value) : bool :=
  match v with
  | VUndefined | VNull => false
  | VBool b => b
  | VNumber n => negb (mant n =? 0)
  | VString s => negb (String.eqb s EmptyString)
  | VArray _ | VObject _ => true
  end.

(** [a || b] *)
Definition or (a b : value) : value := if truthy a then a else b.

Definition is_undefined (v : value) : bool :=
  match v with VUndefined => true | _ => false end.

(** [v === "s"] *)
Definition is_string (v : value) (s : string) : bool :=
  match v with VString s' => String.eqb s' s | _ => false end.

(** [v === true], [v === false] *)
Definition is_bool (v : value) (b : bool) : bool :=
  match v with VBool b' => Bool.eqb b' b | _ => false end.

(** [v === n] for a number literal [n] *)
Definition is_number (v : value) (n : number) : bool :=
  match v with VNumber n' => num_eqb n' n | _ => false end.

(** Number of UTF-16 code units of a string given by its UTF-8 bytes: one per
    code point, two for the code points encoded on four bytes. *)
Fixpoint utf16_length (s : string) : Z :=
  match s with
  | EmptyString => 0
  | String c rest =>
      let b := Z.of_nat (nat_of_ascii c) in
      (if (b <? 128) then 1
       else if (b <? 192) then 0
       else if (b <? 240) then 1
       else 2) + utf16_length rest
  end.

(** The text of [String(v)], as template literals, [encodeURIComponent] and
    [URLSearchParams] use it; [convertible] below tells when the conversion
    returns, and [text] is the conversion with its failure. *)
Fixpoint to_string (v : value) : string :=
  match v with
  | VUndefined => "undefined"
  | VNull => "null"
  | VBool true => "true"
  | VBool false => "false"
  | VNumber n => num_to_string n
  | VString s => s
  | VArray items =>
      (fix go (l : list value) : string :=
         match l with
         | [] => EmptyString
         | x :: rest =>
             let sx := match x with
                       | VUndefined | VNull => EmptyString
                       | _ => to_string x
                       end in
             match rest with
             | [] => sx
             | _ => (sx ++ "," ++ go rest)%string
             end
         end) items
  | VObject _ => "[object Object]"
  end.

(** [a + b]: concatenation when an operand is (or converts to) a string,
    addition on numbers, booleans and [null].  [undefined + n] is [NaN],
    which the sources never produce: their operands are [x || 0]. *)
Definition add (a b : value) : value :=
  let numeric v :=
    match v with
    | VNumber n => Some n
    | VBool true => Some (mkNum 1 0)
    | VBool false => Some (mkNum 0 0)
    | VNull => Some (mkNum 0 0)
    | _ => None
    end in
  match numeric a, numeric b with
  | Some x, Some y => VNumber (num_add x y)
  | _, _ => VString (to_string a ++ to_string b)
  end.

Definition hex_digit (n : Z) : ascii :=
  ascii_of_nat (Z.to_nat (if n <? 10 then 48 + n else 55 + n)).

Definition percent_byte (c : ascii) : string :=
  let b := Z.of_nat (nat_of_ascii c) in
  String "%"%char (String (hex_digit (b / 16)) (String (hex_digit (b mod 16)) EmptyString)).

Definition is_alnum (c : ascii) : bool :=
  let b := Z.of_nat (nat_of_ascii c) in
  ((48 <=? b) && (b <=? 57)) || ((65 <=? b) && (b <=? 90))
  || ((97 <=? b) && (b <=? 122)).

Definition one_of (chars : string) (c : ascii) : bool :=
  existsb (Ascii.eqb c) (list_ascii_of_string chars).

(** [encodeURIComponent(s)] on the UTF-8 bytes of [s]. *)
Fixpoint encodeURIComponent_str (s : string) : string :=
  match s with
  | EmptyString => EmptyString
  | String c rest =>
      ((if is_alnum c || one_of "-_.!~*'()" c
        then String c EmptyString else percent_byte c)
       ++ encodeURIComponent_str rest)%string
  end.

(** The text [encodeURIComponent(v)] gives when it returns.  The call, which
    throws on a value that cannot be converted and on a lone surrogate, is
    [encodeURIComponent] among the operations of the engine below. *)
Definition encodeURIComponent (v : value) : string :=
  encodeURIComponent_str (to_string v).

(** The [application/x-www-form-urlencoded] serializer behind
    [URLSearchParams.prototype.toString]. *)
Fixpoint form_encode (s : string) : string :=
  match s with
  | EmptyString => EmptyString
  | String c rest =>
      ((if is_alnum c || one_of "*-._" c then String c EmptyString
        else if Ascii.eqb c " "%char then "+"
        else percent_byte c)
       ++ form_encode rest)%string
  end.

(** The value of a byte. *)
Definition byte (c : ascii) : Z := Z.of_nat (nat_of_ascii c).

(** The white space and line terminator code points that come on three
    bytes: U+1680, U+2000 to U+200A, U+2028, U+2029, U+202F, U+205F, U+3000
    and U+FEFF. *)
Definition is_space3 (b1 b2 b3 : Z) : bool :=
  ((b1 =? 225) && (b2 =? 154) && (b3 =? 128))
  || ((b1 =? 226) && (b2 =? 128)
      && (((128 <=? b3) && (b3 <=? 138)) || (b3 =? 168) || (b3 =? 169) || (b3 =? 175)))
  || ((b1 =? 226) && (b2 =? 129) && (b3 =? 159))
  || ((b1 =? 227) && (b2 =? 128) && (b3 =? 128))
  || ((b1 =? 239) && (b2 =? 187) && (b3 =? 191)).

(** Tab, line feed, vertical tab, form feed, carriage return and space. *)
Definition is_space1 (b : Z) : bool :=
  ((9 <=? b) && (b <=? 13)) || (b =? 32).

(** Removal of the leading white space, as [parseInt] does it. *)
Fixpoint trimStart (s : string) : string :=
  match s with
  | EmptyString => s
  | String c1 rest1 =>
      if is_space1 (byte c1) then trimStart rest1
      else
        match rest1 with
        | EmptyString => s
        | String c2 rest2 =>
            if (byte c1 =? 194) && (byte c2 =? 160) then trimStart rest2
            else
              match rest2 with
              | EmptyString => s
              | String c3 rest3 =>
                  if is_space3 (byte c1) (byte c2) (byte c3) then trimStart rest3
                  else s
              end
        end
  end.

(** The value of a digit in a radix up to 36. *)
Definition digit_value (c : ascii) : option Z :=
  let b := byte c in
  if (48 <=? b) && (b <=? 57) then Some (b - 48)
  else if (97 <=? b) && (b <=? 122) then Some (b - 87)
  else if (65 <=? b) && (b <=? 90) then Some (b - 55)
  else None.

(** The longest prefix of digits of the radix: its value and its length. *)
Fixpoint leading_digits (radix : Z) (s : string) (acc : Z) (n : nat) : Z * nat :=
  match s with
  | EmptyString => (acc, n)
  | String c rest =>
      match digit_value c with
      | Some d =>
          if d <? radix then leading_digits radix rest (acc * radix + d) (S n)
          else (acc, n)
      | None => (acc, n)
      end
  end.

(** [parseInt(s, radix)] on a string; [radix] is [0] when the argument is
    omitted, and [None] is [NaN].  The result is the integer the digits
    denote; the engine returns the double nearest to it, which is the same
    number below [2^53]. *)
Definition parseInt (s : string) (radix : Z) : option Z :=
  let s := trimStart s in
  let negative := match s with String "-" _ => true | _ => false end in
  let s := match s with
           | String "-" rest => rest
           | String "+" rest => rest
           | _ => s
           end in
  if negb (radix =? 0) && ((radix <? 2) || (36 <? radix)) then None
  else
    let stripPrefix := (radix =? 0) || (radix =? 16) in
    let r := if radix =? 0 then 10 else radix in
    let hex := match s with
               | String "0" (String x _) =>
                   stripPrefix && (Ascii.eqb x "x" || Ascii.eqb x "X")
               | _ => false
               end in
    let r := if hex then 16 else r in
    let s := if hex then match s with
                         | String _ (String _ rest) => rest
                         | _ => s
                         end
             else s in
    match leading_digits r s 0 0 with
    | (_, O) => None
    | (v, _) => Some (if negative then - v else v)
    end.

(** [s.toLowerCase()].  Only the letters [A] to [Z] are changed: among the
    other code points none has a lower case made of ASCII letters but the
    Kelvin sign, so that a comparison of the result with a word written with
    other letters than [k] is not affected. *)
Definition lower (c : ascii) : ascii :=
  let b := byte c in
  if (65 <=? b) && (b <=? 90) then ascii_of_nat (Z.to_nat (b + 32)) else c.

Fixpoint toLowerCase (s : string) : string :=
  match s with
  | EmptyString => EmptyString
  | String c rest => String (lower c) (toLowerCase rest)
  end.

(** The members every object inherits from [Object.prototype]: the [in]
    operator finds them, and their value is a function (an object for
    [__proto__]). *)
Definition inherited (k : string) : bool :=
  existsb (String.eqb k)
    ["constructor"; "hasOwnProperty"; "isPrototypeOf"; "propertyIsEnumerable";
     "toLocaleString"; "toString"; "valueOf"; "__proto__";
     "__defineGetter__"; "__defineSetter__"; "__lookupGetter__"; "__lookupSetter__"].

(** Whether [String(v)] returns.  The values at hand are data: a property
    [toString] of an object of its own is never a function and hides the
    inherited one, and the engine then finds no way to a primitive value.
    An array is joined from the texts of its elements, [null] and
    [undefined] giving the empty text. *)
Fixpoint convertible (v : value) : bool :=
  match v with
  | VObject props =>
      match lookup "toString" props with
      | Some _ => false
      | None => true
      end
  | VArray items =>
      (fix go (l : list value) : bool :=
         match l with
         | [] => true
         | x :: rest => convertible x && go rest
         end) items
  | _ => true
  end.

(** A surrogate that is not part of a pair is held on the three bytes
    [ED A0..BF 80..BF]; a pair is one code point, on four bytes. *)
Definition lone_surrogate (c1 c2 : ascii) : bool :=
  (byte c1 =? 237) && (160 <=? byte c2) && (byte c2 <=? 191).

(** [s.isWellFormed()]: no lone surrogate. *)
Fixpoint well_formed (s : string) : bool :=
  match s with
  | EmptyString => true
  | String c1 rest1 =>
      match rest1 with
      | String c2 (String _ _) => negb (lone_surrogate c1 c2) && well_formed rest1
      | _ => well_formed rest1
      end
  end.

(** [s.toWellFormed()]: every lone surrogate becomes U+FFFD. *)
Fixpoint toWellFormed (s : string) : string :=
  match s with
  | EmptyString => EmptyString
  | String c1 rest1 =>
      match rest1 with
      | String c2 (String _ rest3) =>
          if lone_surrogate c1 c2
          then String (ascii_of_nat 239) (String (ascii_of_nat 191)
                 (String (ascii_of_nat 189) (toWellFormed rest3)))
          else String c1 (toWellFormed rest1)
      | _ => String c1 (toWellFormed rest1)
      end
  end.

(** Whether [encodeURIComponent(v)] returns: [v] converts to a string, and
    the string is well formed. *)
Definition encodable (v : value) : bool :=
  convertible v && well_formed (to_string v).

End JS.

(** [URLSearchParams]: the list of name/value pairs, in order. *)
Module URLSearchParams.

Definition t := list (string * string).

Definition empty : t := [].

(** [new URLSearchParams(obj)] *)
Definition of_object (props : list (string * value)) : t :=
  map (fun kv => (fst kv, JS.toWellFormed (JS.to_string (snd kv)))) props.

(** [params.append(name, value)]: the value is converted to a well-formed
    string. *)
Definition append (name : string) (v : value) (q : t) : t :=
  (q ++ [(name, JS.toWellFormed (JS.to_string v))])%list.

(** [params.toString()], also the result of [`${params}`] *)
Definition toString (q : t) : string :=
  Str.join "&"
    (map (fun kv => (JS.form_encode (fst kv) ++ "=" ++ JS.form_encode (snd kv))%string) q).

End URLSearchParams.

(** ** [JSON.parse] and [JSON.stringify] *)

Module JSON.

Definition dquote : ascii := ascii_of_nat 34.
Definition backslash : ascii := ascii_of_nat 92.
Definition newline : string := String (ascii_of_nat 10) EmptyString.

Definition code (c : ascii) : Z := Z.of_nat (nat_of_ascii c).
Definition char (n : Z) : ascii := ascii_of_nat (Z.to_nat n).

Definition is_ws (c : ascii) : bool :=
  let b := code c in (b =? 32) || (b =? 9) || (b =? 10) || (b =? 13).

Fixpoint skip_ws (s : string) : string :=
  match s with
  | String c rest => if is_ws c then skip_ws rest else s
  | EmptyString => s
  end.

Definition digit_val (c : ascii) : option Z :=
  let b := code c in
  if (48 <=? b) && (b <=? 57) then Some (b - 48) else None.

Definition hex_val (c : ascii) : option Z :=
  let b := code c in
  if (48 <=? b) && (b <=? 57) then Some (b - 48)
  else if (65 <=? b) && (b <=? 70) then Some (b - 55)
  else if (97 <=? b) && (b <=? 102) then Some (b - 87)
  else None.

(** Reads a run of decimal digits: accumulated value, number of digits read,
    remaining input. *)
Fixpoint digits (s : string) (acc : Z) (n : nat) : Z * nat * string :=
  match s with
  | String c rest =>
      match digit_val c with
      | Some d => digits rest (acc * 10 + d) (S n)
      | None => (acc, n, s)
      end
  | EmptyString => (acc, n, s)
  end.

(** The optional minus sign of a number literal. *)
Definition parse_sign (s : string) : bool * string :=
  match s with
  | String c r => if Ascii.eqb c "-"%char then (true, r) else (false, s)
  | EmptyString => (false, s)
  end.

(** The integer part: [0], or a digit other than [0] followed by digits. *)
Definition parse_int (s : string) : option (Z * string) :=
  match s with
  | EmptyString => None
  | String c r =>
      match digit_val c with
      | None => None
      | Some d =>
          if d =? 0 then Some (0, r)
          else let '(ip, _, s2) := digits r d 1 in Some (ip, s2)
      end
  end.

(** The optional fraction [. digits]: the digits are appended to those of the
    integer part [ip], and counted. *)
Definition parse_frac (ip : Z) (s : string) : option (Z * nat * string) :=
  match s with
  | String c r =>
      if Ascii.eqb c "."%char then
        let '(m, n, s3) := digits r ip 0 in
        if Nat.eqb n 0 then None else Some (m, n, s3)
      else Some (ip, 0%nat, s)
  | EmptyString => Some (ip, 0%nat, s)
  end.

(** The optional exponent [e|E (+|-)? digits]. *)
Definition parse_exp (s : string) : option (Z * string) :=
  match s with
  | String c r =>
      if Ascii.eqb c "e"%char || Ascii.eqb c "E"%char then
        let '(eneg, r') :=
          match r with
          | String c' r' =>
              if Ascii.eqb c' "-"%char then (true, r')
              else if Ascii.eqb c' "+"%char then (false, r')
              else (false, r)
          | EmptyString => (false, r)
          end in
        let '(e, n, s') := digits r' 0 0 in
        if Nat.eqb n 0 then None
        else Some (if eneg : bool then - e else e, s')
      else Some (0, s)
  | EmptyString => Some (0, s)
  end.

(** A number literal: [-? int frac? exp?]. *)
Definition parse_number (s : string) : option (number * string) :=
  let '(neg, s1) := parse_sign s in
  match parse_int s1 with
  | None => None
  | Some (ip, s2) =>
      match parse_frac ip s2 with
      | None => None
      | Some (m, fl, s3) =>
          match parse_exp s3 with
          | None => None
          | Some (e, s4) =>
              let m' := if neg : bool then - m else m in
              let net := e - Z.of_nat fl in
              Some (if 0 <=? net then mkNum (m' * 10 ^ net) 0
                    else JS.num_norm (mkNum m' (Z.to_nat (- net))), s4)
          end
      end
  end.

(** Four hexadecimal digits of a [\u] escape. *)
Definition hex4 (s : string) : option (Z * string) :=
  match s with
  | String a (String b (String c (String d rest))) =>
      match hex_val a, hex_val b, hex_val c, hex_val d with
      | Some x, Some y, Some z, Some w =>
          Some (((x * 16 + y) * 16 + z) * 16 + w, rest)
      | _, _, _, _ => None
      end
  | _ => None
  end.

(** UTF-8 bytes of a code point (a lone surrogate is encoded like any other
    three-byte code point). *)
Definition utf8 (cp : Z) : string :=
  if cp <? 128 then String (char cp) EmptyString
  else if cp <? 2048 then
    String (char (192 + cp / 64)) (String (char (128 + cp mod 64)) EmptyString)
  else if cp <? 65536 then
    String (char (224 + cp / 4096))
      (String (char (128 + (cp / 64) mod 64))
         (String (char (128 + cp mod 64)) EmptyString))
  else
    String (char (240 + cp / 262144))
      (String (char (128 + (cp / 4096) mod 64))
         (String (char (128 + (cp / 64) mod 64))
            (String (char (128 + cp mod 64)) EmptyString))).

Definition simple_escape (e : ascii) : option ascii :=
  if Ascii.eqb e dquote then Some dquote
  else if Ascii.eqb e backslash then Some backslash
  else if Ascii.eqb e "/"%char then Some "/"%char
  else if Ascii.eqb e "b"%char then Some (char 8)
  else if Ascii.eqb e "f"%char then Some (char 12)
  else if Ascii.eqb e "n"%char then Some (char 10)
  else if Ascii.eqb e "r"%char then Some (char 13)
  else if Ascii.eqb e "t"%char then Some (char 9)
  else None.

Definition prepend (p : string) (r : option (string * string))
  : option (string * string) :=
  match r with
  | Some (str, rest) => Some ((p ++ str)%string, rest)
  | None => None
  end.

(** The code point of a [\u] escape, read after the [u]: four hexadecimal
    digits, joined with a following [\u] escape when the two form a surrogate
    pair. *)
Definition unicode_escape (s : string) : option (Z * string) :=
  match hex4 s with
  | None => None
  | Some (u, r1) =>
      let pair :=
        if (55296 <=? u) && (u <=? 56319) then
          match r1 with
          | String b1 (String b2 r2) =>
              if Ascii.eqb b1 backslash && Ascii.eqb b2 "u"%char then
                match hex4 r2 with
                | Some (lo, r3) =>
                    if (56320 <=? lo) && (lo <=? 57343)
                    then Some (65536 + (u - 55296) * 1024 + (lo - 56320), r3)
                    else None
                | None => None
                end
              else None
          | _ => None
          end
        else None in
      match pair with
      | Some x => Some x
      | None => Some (u, r1)
      end
  end.

(** The characters of a string literal after its opening quote, up to and
    including the closing quote.  Every step consumes input, so the length of
    the input is enough fuel ([parse_chars_fuel] below). *)
Fixpoint parse_chars (fuel : nat) (s : string) : option (string * string) :=
  match fuel with
  | O => None
  | S fuel' =>
      match s with
      | EmptyString => None
      | String c rest =>
          if Ascii.eqb c dquote then Some (EmptyString, rest)
          else if Ascii.eqb c backslash then
            match rest with
            | EmptyString => None
            | String e rest' =>
                if Ascii.eqb e "u"%char then
                  match unicode_escape rest' with
                  | None => None
                  | Some (cp, r) => prepend (utf8 cp) (parse_chars fuel' r)
                  end
                else
                  match simple_escape e with
                  | Some ch => prepend (String ch EmptyString) (parse_chars fuel' rest')
                  | None => None
                  end
            end
          else if code c <? 32 then None
          else prepend (String c EmptyString) (parse_chars fuel' rest)
      end
  end.

(** What follows the literal [p] at the start of [s], if [s] starts with it. *)
Fixpoint strip_prefix (p s : string) : option string :=
  match p with
  | EmptyString => Some s
  | String a p' =>
      match s with
      | String b s' => if Ascii.eqb a b then strip_prefix p' s' else None
      | EmptyString => None
      end
  end.

Definition parse_string (s : string) : option (string * string) :=
  parse_chars (String.length s) s.

(** Recursive descent over values, array elements and object members.  Each
    call consumes at least one character of input before the next one, so
    the fuel given by [parse] below is never exhausted ([parse_value_fuel]
    below). *)
Fixpoint parse_value (fuel : nat) (s : string) {struct fuel}
  : option (value * string) :=
  match fuel with
  | O => None
  | S fuel' =>
      match skip_ws s with
      | EmptyString => None
      | String c rest as s' =>
          if Ascii.eqb c "{"%char then
            match skip_ws rest with
            | String c' r' as r =>
                if Ascii.eqb c' "}"%char then Some (VObject [], r')
                else parse_members fuel' r []
            | EmptyString => None
            end
          else if Ascii.eqb c "["%char then
            match skip_ws rest with
            | String c' r' as r =>
                if Ascii.eqb c' "]"%char then Some (VArray [], r')
                else parse_elements fuel' r []
            | EmptyString => None
            end
          else if Ascii.eqb c dquote then
            match parse_string rest with
            | Some (str, r) => Some (VString str, r)
            | None => None
            end
          else
            match strip_prefix "true" s' with
            | Some r => Some (VBool true, r)
            | None =>
                match strip_prefix "false" s' with
                | Some r => Some (VBool false, r)
                | None =>
                    match strip_prefix "null" s' with
                    | Some r => Some (VNull, r)
                    | None =>
                        match parse_number s' with
                        | Some (n, r) => Some (VNumber n, r)
                        | None => None
                        end
                    end
                end
            end
      end
  end
with parse_elements (fuel : nat) (s : string) (acc : list value) {struct fuel}
  : option (value * string) :=
  match fuel with
  | O => None
  | S fuel' =>
      match parse_value fuel' s with
      | None => None
      | Some (v, r) =>
          match skip_ws r with
          | String c r' =>
              if Ascii.eqb c ","%char then parse_elements fuel' r' (acc ++ [v])%list
              else if Ascii.eqb c "]"%char then Some (VArray (acc ++ [v])%list, r')
              else None
          | EmptyString => None
          end
      end
  end
with parse_members (fuel : nat) (s : string) (acc : list (string * value))
       {struct fuel} : option (value * string) :=
  match fuel with
  | O => None
  | S fuel' =>
      match skip_ws s with
      | String c r =>
          if Ascii.eqb c dquote then
            match parse_string r with
            | Some (k, r1) =>
                match skip_ws r1 with
                | String c2 r2 =>
                    if Ascii.eqb c2 ":"%char then
                      match parse_value fuel' r2 with
                      | Some (v, r3) =>
                          match skip_ws r3 with
                          | String c4 r4 =>
                              if Ascii.eqb c4 ","%char
                              then parse_members fuel' r4 (JS.set k v acc)
                              else if Ascii.eqb c4 "}"%char
                              then Some (VObject (JS.set k v acc), r4)
                              else None
                          | EmptyString => None
                          end
                      | None => None
                      end
                    else None
                | EmptyString => None
                end
            | None => None
            end
          else None
      | EmptyString => None
      end
  end.

(** [JSON.parse(text)]; [None] stands for the [SyntaxError]. *)
Definition parse (text : string) : option value :=
  match parse_value (S (2 * String.length text)) text with
  | Some (v, rest) =>
      match skip_ws rest with
      | EmptyString => Some v
      | String _ _ => None
      end
  | None => None
  end.

Definition hex_lower (n : Z) : ascii :=
  char (if n <? 10 then 48 + n else 87 + n).

Fixpoint escape (s : string) : string :=
  match s with
  | EmptyString => EmptyString
  | String c rest =>
      let b := code c in
      let first :=
        if Ascii.eqb c dquote then String backslash (String dquote EmptyString)
        else if Ascii.eqb c backslash then String backslash (String backslash EmptyString)
        else if b =? 8 then String backslash "b"
        else if b =? 12 then String backslash "f"
        else if b =? 10 then String backslash "n"
        else if b =? 13 then String backslash "r"
        else if b =? 9 then String backslash "t"
        else if b <? 32 then
          String backslash
            (String "u"%char
               (String "0"%char
                  (String "0"%char
                     (String (hex_lower (b / 16))
                        (String (hex_lower (b mod 16)) EmptyString)))))
        else String c EmptyString in
      (first ++ escape rest)%string
  end.

Definition quote (s : string) : string :=
  (String dquote (escape s) ++ String dquote EmptyString)%string.

Fixpoint spaces (n : nat) : string :=
  match n with
  | O => EmptyString
  | S n' => String " "%char (spaces n')
  end.

(** Lays out the serialized members of an array or object: on one line
    without a gap, one member per line with it. *)
Definition wrap (opening closing : string) (gap level : nat)
    (parts : list string) : string :=
  match parts with
  | [] => (opening ++ closing)%string
  | _ =>
      match gap with
      | O => (opening ++ Str.join "," parts ++ closing)%string
      | _ =>
          let inner := (newline ++ spaces ((level + 1) * gap))%string in
          (opening ++ inner ++ Str.join ("," ++ inner) parts
           ++ newline ++ spaces (level * gap) ++ closing)%string
      end
  end.

(** [JSON.stringify(v, null, gap)] at nesting depth [level]; [None] is the
    [undefined] result.  Inside an array [undefined] becomes [null], inside
    an object the property is left out. *)
Fixpoint stringify_at (gap level : nat) (v : value) {struct v} : option string :=
  match v with
  | VUndefined => None
  | VNull => Some "null"
  | VBool true => Some "true"
  | VBool false => Some "false"
  | VNumber n => Some (JS.num_to_string n)
  | VString s => Some (quote s)
  | VArray items =>
      let parts :=
        (fix go (l : list value) : list string :=
           match l with
           | [] => []
           | x :: r =>
               match stringify_at gap (S level) x with
               | Some t => t
               | None => "null"
               end :: go r
           end) items in
      Some (wrap "[" "]" gap level parts)
  | VObject props =>
      let parts :=
        (fix go (l : list (string * value)) : list string :=
           match l with
           | [] => []
           | (k, x) :: r =>
               match stringify_at gap (S level) x with
               | Some t =>
                   (quote k ++ (match gap with O => ":" | _ => ": " end) ++ t)%string
                   :: go r
               | None => go r
               end
           end) props in
      Some (wrap "{" "}" gap level parts)
  end.

(** [JSON.stringify(v)] *)
Definition stringify (v : value) : option string := stringify_at 0 0 v.

(** [JSON.stringify(v, null, 2)] *)
Definition stringify_pretty (v : value) : option string := stringify_at 2 0 v.

(** Writes a JSON text with ['] in place of the double quote, for readable
    literals in examples. *)
Fixpoint text (s : string) : string :=
  match s with
  | EmptyString => EmptyString
  | String c rest =>
      String (if Ascii.eqb c "'"%char then dquote else c) (text rest)
  end.

End JSON.

(** ** Configuration ([config.js])

    [projectId] and [apiKey] come from the environment: a string or
    [undefined].  The [http] block holds the retry settings. *)

Record HttpConfig := mkHttp {
  timeout : Z;
  retries : Z;
  retryDelay : Z
}.

Record WebhookConfig := mkWebhook {
  wh_enabled : bool;
  wh_port : Z;
  wh_path : string;
  wh_secret : option string
}.

Record Config := mkConfig {
  apiUrl : string;
  apiKey : option string;
  projectId : option string;
  webhook : WebhookConfig;
  http : HttpConfig;
  logging_enabled : bool
}.

(** Truthiness of a value that is a string or [undefined]. *)
Definition truthy_str (o : option string) : bool :=
  match o with
  | Some s => negb (String.eqb s EmptyString)
  | None => false
  end.

(** ** [config.js]: the settings read from the environment

    [getenv] is [process.env]: a variable is a string or is not set.  The
    [http] block and the [logging.enabled] flag are the parts of the object
    whose values are computed. *)

Module ConfigFile.

(** [parseInt(process.env.NAME) || fallback]: [parseInt(undefined)] reads the
    text [undefined]. *)
Definition int_setting (getenv : string -> option string) (name : string)
    (fallback : Z) : Z :=
  let text := match getenv name with
              | Some s => s
              | None => "undefined"
              end in
  match JS.parseInt text 0 with
  | Some n => if n =? 0 then fallback else n
  | None => fallback
  end.

(** The [http] block. *)
Definition http (getenv : string -> option string) : HttpConfig :=
  mkHttp (int_setting getenv "TIMEOUT" 5000)
         (int_setting getenv "RETRIES" 3)
         (int_setting getenv "RETRY_DELAY" 1000).

(** [process.env.LOG_ENABLED !== 'false'] *)
Definition logging_enabled (getenv : string -> option string) : bool :=
  match getenv "LOG_ENABLED" with
  | Some s => negb (String.eqb s "false")
  | None => true
  end.

(** [a || b || fallback] on two variables *)
Definition first_set (getenv : string -> option string) (a b : string) : option string :=
  if truthy_str (getenv a) then getenv a else getenv b.

(** [apiUrl], [apiKey] and [projectId] *)
Definition apiUrl (getenv : string -> option string) : string :=
  match first_set getenv "API_URL" "KNOWLEDGE_AI_URL" with
  | Some s => if truthy_str (Some s) then s else "http://localhost:3000"
  | None => "http://localhost:3000"
  end.

Definition apiKey (getenv : string -> option string) : option string :=
  first_set getenv "API_KEY" "KNOWLEDGE_AI_API_KEY".

Definition projectId (getenv : string -> option string) : option string :=
  first_set getenv "PROJECT_ID" "KNOWLEDGE_AI_PROJECT".

End ConfigFile.

(** Errors thrown by the program: [name] and [message] of the JS object. *)
Record error := mkError { err_name : string; err_message : string }.

Definition Error (msg : string) : error := mkError "Error" msg.
Definition TypeError (msg : string) : error := mkError "TypeError" msg.
Definition SyntaxError (msg : string) : error := mkError "SyntaxError" msg.
Definition URIError (msg : string) : error := mkError "URIError" msg.

(** Outcome of a call that may throw. *)
Inductive outcome (A : Type) : Type :=
| Returned (a : A)
| Thrown (e : error).
Arguments Returned {A} a.
Arguments Thrown {A} e.

(** ** The world around the program

    A [fetch] either resolves with a response or rejects.  The remote API is
    a function of the number of requests made so far, so that an endpoint may
    fail on some attempts and succeed on others. *)

Record response := mkResponse {
  status : Z;
  statusText : string;
  contentType : option string;   (* [response.headers.get('content-type')] *)
  bodyText : string
}.

(** [response.ok] *)
Definition ok (r : response) : bool := (200 <=? status r) && (status r <=? 299).

Inductive fetch_outcome :=
| Resolves (r : response)
| Rejects (e : error).

(** What the program does to the outside, in order. *)
Inductive event :=
| EvFetch (url : string) (options : value)
| EvSleep (ms : Z)
| EvEmit (name : string) (payload : value)
| EvConsole (stream : string) (text : string).

(** Behaviour of the engine that depends on floating-point arithmetic or on
    the wording of its messages; it is left open. *)
Record engine := mkEngine {
  syntax_error_message : string -> string;   (* message of [JSON.parse]'s error *)
  string_greater_than_zero : string -> bool; (* [Number(s) > 0] *)
  round_percent : value -> string;           (* [`${Math.round(v*100)}`] *)
  round_percent_rest : value -> string       (* [`${Math.round((1-v)*100)}`] *)
}.

Record env := mkEnv {
  remote : nat -> string -> value -> fetch_outcome;
  clock : nat -> string;                     (* [new Date().toISOString()] *)
  listeners : string -> list (value -> option error);
  eng : engine
}.

Record state := mkState {
  fetched : nat;
  ticks : nat;
  trace : list event
}.

Definition initial : state := mkState 0 0 [].

(** Computations: they read the environment, update the state, and return or
    throw. *)
Definition M (A : Type) : Type := env -> state -> outcome A * state.

Definition ret {A} (a : A) : M A := fun _ s => (Returned a, s).

Definition throw {A} (e : error) : M A := fun _ s => (Thrown e, s).

Definition bind {A B} (m : M A) (k : A -> M B) : M B :=
  fun e s =>
    match m e s with
    | (Returned a, s') => k a e s'
    | (Thrown err, s') => (Thrown err, s')
    end.

Notation "x <- m ;; k" := (bind m (fun x => k))
  (at level 61, m at next level, right associativity).
Notation "m ;;; k" := (bind m (fun _ => k))
  (at level 61, right associativity).

(** [try { m } catch (error) { h error }] *)
Definition try_catch {A} (m : M A) (h : error -> M A) : M A :=
  fun e s =>
    match m e s with
    | (Returned a, s') => (Returned a, s')
    | (Thrown err, s') => h err e s'
    end.

Definition lift {A} (o : outcome A) : M A := fun _ s => (o, s).

Definition ask : M env := fun e s => (Returned e, s).

Definition record (ev : event) : M unit :=
  fun _ s => (Returned tt, mkState (fetched s) (ticks s) (trace s ++ [ev])%list).

(** [await fetch(url, options)] *)
Definition fetch (url : string) (options : value) : M response :=
  fun e s =>
    let s' := mkState (S (fetched s)) (ticks s)
                (trace s ++ [EvFetch url options])%list in
    match remote e (fetched s) url options with
    | Resolves r => (Returned r, s')
    | Rejects err => (Thrown err, s')
    end.

(** The state after one more request, and after one more pause. *)
Definition after_fetch (url : string) (options : value) (s : state) : state :=
  mkState (S (fetched s)) (ticks s) (trace s ++ [EvFetch url options])%list.

Definition after_sleep (ms : Z) (s : state) : state :=
  mkState (fetched s) (ticks s) (trace s ++ [EvSleep ms])%list.

(** The state after an event was emitted, and after a line was written to
    the console. *)
Definition after_emit (name : string) (payload : value) (s : state) : state :=
  mkState (fetched s) (ticks s) (trace s ++ [EvEmit name payload])%list.

Definition after_console (stream text : string) (s : state) : state :=
  mkState (fetched s) (ticks s) (trace s ++ [EvConsole stream text])%list.

(** The state after one more reading of the clock. *)
Definition after_tick (s : state) : state :=
  mkState (fetched s) (S (ticks s)) (trace s).

(** [await new Promise(resolve => setTimeout(resolve, ms))] *)
Definition sleep (ms : Z) : M unit := record (EvSleep ms).

(** [new Date().toISOString()] *)
Definition now_iso : M string :=
  fun e s => (Returned (clock e (ticks s)),
              mkState (fetched s) (S (ticks s)) (trace s)).

Definition console (stream text : string) : M unit :=
  record (EvConsole stream text).

Fixpoint run_listeners (ls : list (value -> option error)) (payload : value)
  : M unit :=
  match ls with
  | [] => ret tt
  | l :: rest =>
      match l payload with
      | Some err => throw err
      | None => run_listeners rest payload
      end
  end.

(** [this.emit(name, payload)]: the listeners run synchronously, in order of
    registration; one that throws makes [emit] throw. *)
Definition emit (name : string) (payload : value) : M unit :=
  record (EvEmit name payload) ;;;
  e <- ask ;;
  run_listeners (listeners e name) payload.

(** [await response.json()] *)
Definition response_json (r : response) : M value :=
  match JSON.parse (bodyText r) with
  | Some v => ret v
  | None =>
      e <- ask ;;
      throw (SyntaxError (syntax_error_message (eng e) (bodyText r)))
  end.

(** Property access [v.k], with the engine's [TypeError] on [undefined] and
    [null]. *)
Definition get (v : value) (k : string) : M value :=
  match v with
  | VUndefined =>
      throw (TypeError ("Cannot read properties of undefined (reading '" ++ k ++ "')"))
  | VNull =>
      throw (TypeError ("Cannot read properties of null (reading '" ++ k ++ "')"))
  | VObject props => ret (JS.member props k)
  | VArray items =>
      ret (if String.eqb k "length" then JS.int (Z.of_nat (List.length items))
           else VUndefined)
  | VString str =>
      ret (if String.eqb k "length" then JS.int (JS.utf16_length str)
           else VUndefined)
  | VBool _ | VNumber _ => ret VUndefined
  end.

(** Optional chaining [v?.k] *)
Definition get_opt (v : value) (k : string) : M value :=
  match v with
  | VUndefined | VNull => ret VUndefined
  | _ => get v k
  end.

(** [const { k } = v]; [what] is the source text of [v]. *)
Definition destructure (v : value) (what k : string) : M value :=
  match v with
  | VUndefined =>
      throw (TypeError ("Cannot destructure property '" ++ k ++ "' of '" ++ what
                        ++ "' as it is undefined."))
  | VNull =>
      throw (TypeError ("Cannot destructure property '" ++ k ++ "' of '" ++ what
                        ++ "' as it is null."))
  | _ => get v k
  end.

(** [String(v)] and [`${v}`]: the conversion throws on an object that has
    no way to a primitive value. *)
Definition text (v : value) : M string :=
  if JS.convertible v then ret (JS.to_string v)
  else throw (TypeError "Cannot convert object to primitive value").

(** [encodeURIComponent(v)]: the argument is converted to a string, and a
    lone surrogate in it is a [URIError]. *)
Definition encodeURIComponent (v : value) : M string :=
  s <- text v ;;
  if JS.well_formed s then ret (JS.encodeURIComponent_str s)
  else throw (URIError "URI malformed").

(** [queryParams.append(name, v)] *)
Definition query_append (name : string) (v : value) (q : URLSearchParams.t)
  : M URLSearchParams.t :=
  text v ;;;
  ret (URLSearchParams.append name v q).

(** [new URLSearchParams(obj)]: the values are converted in the order of the
    properties. *)
Fixpoint all_text (vs : list value) : M unit :=
  match vs with
  | [] => ret tt
  | v :: rest => text v ;;; all_text rest
  end.

Definition query_of_object (props : list (string * value)) : M URLSearchParams.t :=
  all_text (map snd props) ;;;
  ret (URLSearchParams.of_object props).

(** [a + b]: both operands are first brought to primitive values. *)
Definition addition (a b : value) : M value :=
  text a ;;;
  text b ;;;
  ret (JS.add a b).

(** [v > 0]: an object or a string is first converted to a number by the
    engine. *)
Definition greater_than_zero (v : value) : M bool :=
  match v with
  | VNumber n => ret (0 <? mant n)
  | VBool b => ret b
  | VUndefined | VNull => ret false
  | _ =>
      s <- text v ;;
      e <- ask ;;
      ret (string_greater_than_zero (eng e) s)
  end.

(** [if (c) m] *)
Definition when (c : bool) (m : M unit) : M unit := if c then m else ret tt.

(** The value of an [error.message || error] expression: an [Error] object
    has no enumerable property of its own. *)
Definition message_or_error (e : error) : value :=
  if String.eqb (err_message e) EmptyString then VObject []
  else VString (err_message e).

(** The session context handed to every tool. *)
Record Context := mkContext { currentProject : string }.

(** A tool descriptor.  Descriptions and property schemas are static data
    and left out; [required] is the schema's [required] array, empty when
    the schema has none. *)
Record Tool := mkTool { name : string; required : list string }.

(** ** [utils/ResponseBuilder.js] *)

Module ResponseBuilder.

Definition success (data message : value) : value :=
  VObject [("success", VBool true);
           ("message", if JS.is_undefined message then VString "Success" else message);
           ("data", data)].

Definition error (message details : value) : value :=
  VObject [("success", VBool false);
           ("message", message);
           ("details", if JS.is_undefined details then VNull else details)].

Definition textResponse (text : value) : value :=
  VObject [("content", VArray [VObject [("type", VString "text"); ("text", text)]])].

(** The class has the three methods above and no other.  A call
    [receiver.buildResponse(args)] finds [undefined] where a function is
    expected: after the arguments are evaluated the engine throws. *)
Definition buildResponse (receiver : string) (args : list value) : M value :=
  throw (TypeError (receiver ++ ".buildResponse is not a function")).

End ResponseBuilder.

(** ** [handlers/BaseHandler.js]

    A handler is constructed from the configuration and keeps
    [this.apiUrl = config.apiUrl] and [this.apiKey = config.apiKey]. *)

Module BaseHandler.

(** [typeof v === 'object'] for a truthy [v] *)
Definition is_object (v : value) : bool :=
  match v with
  | VObject _ | VArray _ => true
  | _ => false
  end.

(** The [headers] object of [apiRequest]:
    [{'Content-Type': 'application/json', ...options.headers}], then
    [headers['X-API-Key'] = this.apiKey] when there is a key. *)
Definition requestHeaders (cfg : Config) (option_headers : value)
  : list (string * value) :=
  let headers :=
    JS.spread [("Content-Type", VString "application/json")]
              (JS.props_of option_headers) in
  match apiKey cfg with
  | Some key =>
      if truthy_str (Some key) then JS.set "X-API-Key" (VString key) headers
      else headers
  | None => headers
  end.

(** The [fetchOptions] object: [{method: 'GET', headers, ...options}], with
    an object body replaced by its JSON text. *)
Definition fetchOptions (cfg : Config) (options : value) (headers : list (string * value))
    (body : value) : list (string * value) :=
  let fetchOptions :=
    JS.spread [("method", VString "GET"); ("headers", VObject headers)]
              (JS.props_of options) in
  if JS.truthy body && is_object body then
    JS.set "body"
      (match JSON.stringify body with Some t => VString t | None => VUndefined end)
      fetchOptions
  else fetchOptions.

(** The rest of the [try] block, once [fetch] has resolved. *)
Definition readResponse (response : response) : M value :=
  if negb (ok response) then
    throw (Error ("API request failed ("
                  ++ JS.num_to_string (mkNum (status response) 0) ++ "): "
                  ++ bodyText response))
  else
    match contentType response with
    | Some ct =>
        if negb (String.eqb ct EmptyString) && Str.includes ct "application/json"
        then response_json response
        else ret (VString (bodyText response))
    | None => ret (VString (bodyText response))
    end.

(** The [catch] block. *)
Definition onFailure (cfg : Config) (error : error) : M value :=
  if String.eqb (err_name error) "TypeError"
     && Str.includes (err_message error) "fetch"
  then throw (Error ("Failed to connect to API at " ++ apiUrl cfg
                     ++ ". Please ensure the server is running."))
  else throw error.

(** [apiRequest(endpoint, options = {})]; the tools pass [method] and [body]
    in [options], or nothing. *)
Definition apiRequest (cfg : Config) (endpoint : string) (options : value)
  : M value :=
  let options := if JS.is_undefined options then VObject [] else options in
  let url := (apiUrl cfg ++ endpoint)%string in
  option_headers <- get options "headers" ;;
  let headers := requestHeaders cfg option_headers in
  body <- get options "body" ;;
  let fetchOptions := fetchOptions cfg options headers body in
  try_catch
    (response <- fetch url (VObject fetchOptions) ;;
     readResponse response)
    (onFailure cfg).

(** The callback of the filter: [!(key in params) || params[key] === undefined].
    [key in params] holds of a property of [params] itself and of a member
    inherited from [Object.prototype]; an inherited member is never
    [undefined]. *)
Definition lacks (props : list (string * value)) (key : string) : bool :=
  match JS.lookup key props with
  | Some v => JS.is_undefined v
  | None => negb (JS.inherited key)
  end.

(** [required.filter(key => ...)].  The [in] operator throws on a primitive.
    An array is given the members of [Object.prototype] only: its indices,
    its [length] and the methods of [Array.prototype] are not among the keys
    the tools require. *)
Definition missing (params : value) (required : list string) : M (list string) :=
  match required with
  | [] => ret []
  | key :: _ =>
      match params with
      | VObject _ | VArray _ => ret (filter (lacks (JS.props_of params)) required)
      | _ =>
          throw (TypeError ("Cannot use 'in' operator to search for '" ++ key
                            ++ "' in " ++ JS.to_string params))
      end
  end.

(** [validateParams(params, required = [])] *)
Definition validateParams (params : value) (required : list string) : M unit :=
  missing <- missing params required ;;
  if (0 <? Z.of_nat (List.length missing))
  then throw (Error ("Missing required parameters: " ++ Str.join ", " missing))
  else ret tt.

(** [formatSuccess(data, message = null)] *)
Definition formatSuccess (data message : value) : M value :=
  t <- now_iso ;;
  ret (VObject [("success", VBool true);
                ("data", data);
                ("message", if JS.is_undefined message then VNull else message);
                ("timestamp", VString t)]).

(** [formatError(error, tool = null)] *)
Definition formatError (error : error) (tool : value) : M value :=
  t <- now_iso ;;
  ret (VObject [("success", VBool false);
                ("error", message_or_error error);
                ("tool", if JS.is_undefined tool then VNull else tool);
                ("timestamp", VString t)]).

(** The text [getProjectEndpoint(projectId, path = '')] returns. *)
Definition getProjectEndpoint (projectId : value) (path : string) : string :=
  ("/api/projects/" ++ JS.encodeURIComponent projectId ++ path)%string.

(** The call [this.getProjectEndpoint(projectId, path)]: it throws where
    [encodeURIComponent(projectId)] does. *)
Definition projectEndpoint (projectId : value) (path : string) : M string :=
  segment <- encodeURIComponent projectId ;;
  ret ("/api/projects/" ++ segment ++ path)%string.

(** The defaults a subclass overrides. *)
Definition canHandleTool (toolName : string) : bool := false.

Definition handleTool (toolName : string) (params : value) (context : Context)
  : M value :=
  throw (Error ("Tool " ++ toolName ++ " not implemented")).

Definition getTools : list Tool := [].

(** [safeParseBool(value, defaultValue = false)] *)
Definition safeParseBool (val defaultValue : value) : value :=
  let defaultValue :=
    if JS.is_undefined defaultValue then VBool false else defaultValue in
  match val with
  | VNull | VUndefined => defaultValue
  | VBool _ => val
  | VString s => VBool (String.eqb (JS.toLowerCase s) "true")
  | _ => defaultValue
  end.

End BaseHandler.

(** ** [handlers/NoteHandler.js] *)

Module NoteHandler.

Definition tools : list string :=
  ["list_notes"; "get_note"; "create_note"; "update_note"; "delete_note";
   "generate_contexts"; "get_context_stats";
   "inspect_content"; "preview_update"; "validate_update"; "suggest_patterns"].

Definition canHandleTool (toolName : string) : bool :=
  existsb (String.eqb toolName) tools.

Definition getTools : list Tool :=
  [mkTool "list_notes" [];
   mkTool "get_note" ["id"];
   mkTool "create_note" ["title"; "content"];
   mkTool "update_note" ["id"];
   mkTool "delete_note" ["id"];
   mkTool "generate_contexts" [];
   mkTool "get_context_stats" [];
   mkTool "inspect_content" ["id"];
   mkTool "preview_update" ["id"; "old_str"; "new_str"];
   mkTool "validate_update" ["id"; "old_str"; "new_str"];
   mkTool "suggest_patterns" ["id"; "pattern"]].

Definition responseBuilder : string := "this.responseBuilder".

(** [if (params.k) queryParams.append(k, params.k)] *)
Definition append_if_truthy (params : value) (k : string)
    (q : URLSearchParams.t) : M URLSearchParams.t :=
  v <- get params k ;;
  if JS.truthy v then query_append k v q else ret q.

(** [if (params.k !== undefined) queryParams.append(k, params.k)] *)
Definition append_if_defined (params : value) (k : string)
    (q : URLSearchParams.t) : M URLSearchParams.t :=
  v <- get params k ;;
  if negb (JS.is_undefined v) then query_append k v q else ret q.

(** [items.forEach(item => queryParams.append(name, item))] *)
Fixpoint append_each (name : string) (items : list value) (q : URLSearchParams.t)
  : M URLSearchParams.t :=
  match items with
  | [] => ret q
  | item :: rest =>
      q <- query_append name item q ;;
      append_each name rest q
  end.

(** [if (params.tags && params.tags.length > 0)
       params.tags.forEach(tag => queryParams.append('tags', tag))] *)
Definition append_tags (params : value) (q : URLSearchParams.t)
  : M URLSearchParams.t :=
  tags <- get params "tags" ;;
  if JS.truthy tags then
    len <- get tags "length" ;;
    positive <- greater_than_zero len ;;
    if positive : bool then
      match tags with
      | VArray items => append_each "tags" items q
      | _ => throw (TypeError "params.tags.forEach is not a function")
      end
    else ret q
  else ret q.

Definition listNotes (cfg : Config) (projectId params : value) : M value :=
  let q := URLSearchParams.empty in
  q <- append_if_truthy params "limit" q ;;
  q <- append_if_truthy params "offset" q ;;
  q <- append_if_truthy params "virtual_folder" q ;;
  q <- append_if_truthy params "created_by" q ;;
  q <- append_tags params q ;;
  endpoint <-
    BaseHandler.projectEndpoint projectId ("/notes?" ++ URLSearchParams.toString q) ;;
  result <- BaseHandler.apiRequest cfg endpoint VUndefined ;;
  data <- get result "data" ;;
  data_notes <- get_opt data "notes" ;;
  let is_array v := match v with VArray _ => true | _ => false end in
  if is_array data_notes || is_array data then
    let notes := JS.or data_notes data in
    offset <- get params "offset" ;;
    limit <- get params "limit" ;;
    streamlinedResponse <-
      ResponseBuilder.buildResponse responseBuilder
        [notes; VString "list_notes";
         VObject [("offset", offset); ("limit", limit)]] ;;
    len <- get notes "length" ;;
    count <- text len ;;
    t <- now_iso ;;
    ret (VObject [("success", VBool true);
                  ("data", streamlinedResponse);
                  ("message", VString ("Retrieved " ++ count ++ " notes"));
                  ("timestamp", VString t)])
  else BaseHandler.formatSuccess data (VString "Retrieved notes").

Definition getNote (cfg : Config) (projectId params : value) : M value :=
  BaseHandler.validateParams params ["id"] ;;;
  id <- get params "id" ;;
  note <- encodeURIComponent id ;;
  endpoint <- BaseHandler.projectEndpoint projectId ("/notes/" ++ note) ;;
  result <- BaseHandler.apiRequest cfg endpoint VUndefined ;;
  data <- get result "data" ;;
  streamlinedResponse <-
    ResponseBuilder.buildResponse responseBuilder [data; VString "get_note"] ;;
  sdata <- get streamlinedResponse "data" ;;
  smessage <- get streamlinedResponse "message" ;;
  t <- now_iso ;;
  ret (VObject [("success", VBool true);
                ("data", sdata);
                ("message", smessage);
                ("timestamp", VString t)]).

Definition createNote (cfg : Config) (projectId params : value) : M value :=
  BaseHandler.validateParams params ["title"; "content"] ;;;
  title <- get params "title" ;;
  content <- get params "content" ;;
  tags <- get params "tags" ;;
  virtual_folder <- get params "virtual_folder" ;;
  created_by <- get params "created_by" ;;
  let noteData :=
    VObject [("title", title);
             ("content", content);
             ("tags", JS.or tags (VArray []));
             ("virtual_folder", JS.or virtual_folder (VString ""));
             ("project_id", projectId);
             ("created_by", JS.or created_by (VString "mcp"))] in
  q <- append_if_defined params "generate_embedding" URLSearchParams.empty ;;
  endpoint <-
    BaseHandler.projectEndpoint projectId ("/notes?" ++ URLSearchParams.toString q) ;;
  result <- BaseHandler.apiRequest cfg endpoint
              (VObject [("method", VString "POST"); ("body", noteData)]) ;;
  data <- get result "data" ;;
  streamlinedResponse <-
    ResponseBuilder.buildResponse responseBuilder [data; VString "create_note"] ;;
  sdata <- get streamlinedResponse "data" ;;
  smessage <- get streamlinedResponse "message" ;;
  t <- now_iso ;;
  ret (VObject [("success", VBool true);
                ("data", sdata);
                ("message", smessage);
                ("timestamp", VString t)]).

(** [if (params.k !== undefined) updateData.k = params.k] *)
Definition copy_if_defined (params : value) (k : string)
    (updateData : list (string * value)) : M (list (string * value)) :=
  v <- get params k ;;
  ret (if negb (JS.is_undefined v) then JS.set k v updateData else updateData).

Definition updateNote (cfg : Config) (projectId params : value) : M value :=
  BaseHandler.validateParams params ["id"] ;;;
  noteId <- get params "id" ;;
  let updateData : list (string * value) := [] in
  let q := URLSearchParams.empty in
  old_str <- get params "old_str" ;;
  new_str <- get params "new_str" ;;
  if negb (JS.is_undefined old_str) && negb (JS.is_undefined new_str) then
    let updateData := JS.set "old_str" old_str updateData in
    let updateData := JS.set "new_str" new_str updateData in
    changed_by <- get params "changed_by" ;;
    let updateData := JS.set "changed_by" (JS.or changed_by (VString "mcp")) updateData in
    updateData <- copy_if_defined params "fuzzy_match" updateData ;;
    updateData <- copy_if_defined params "fuzzy_threshold" updateData ;;
    q <- append_if_defined params "preview" q ;;
    q <- append_if_defined params "update_embedding" q ;;
    note <- encodeURIComponent noteId ;;
    endpoint <-
      BaseHandler.projectEndpoint projectId
        ("/notes/" ++ note ++ "?" ++ URLSearchParams.toString q) ;;
    result <- BaseHandler.apiRequest cfg endpoint
                (VObject [("method", VString "PATCH"); ("body", VObject updateData)]) ;;
    preview <- get params "preview" ;;
    if JS.truthy preview then
      data <- get result "data" ;;
      message <- get result "message" ;;
      t <- now_iso ;;
      ret (VObject [("success", VBool true);
                    ("data", data);
                    ("message", JS.or message (VString "Update preview generated successfully"));
                    ("preview", VBool true);
                    ("timestamp", VString t)])
    else
      data <- get result "data" ;;
      streamlinedResponse <-
        ResponseBuilder.buildResponse responseBuilder [data; VString "update_note"] ;;
      sdata <- get streamlinedResponse "data" ;;
      smessage <- get streamlinedResponse "message" ;;
      fuzzyMatch <- get result "fuzzyMatch" ;;
      exactMatch <- get result "exactMatch" ;;
      t <- now_iso ;;
      ret (VObject [("success", VBool true);
                    ("data", sdata);
                    ("message", smessage);
                    ("fuzzyMatch", JS.or fuzzyMatch VNull);
                    ("exactMatch", VBool (negb (JS.is_bool exactMatch false)));
                    ("timestamp", VString t)])
  else
    updateData <- copy_if_defined params "title" updateData ;;
    updateData <- copy_if_defined params "tags" updateData ;;
    updateData <- copy_if_defined params "virtual_folder" updateData ;;
    if (Z.of_nat (List.length updateData) =? 0) then
      throw (Error "No updates specified. Provide old_str/new_str for content updates or title/tags/virtual_folder for metadata updates.")
    else
      changed_by <- get params "changed_by" ;;
      let updateData := JS.set "changed_by" (JS.or changed_by (VString "mcp")) updateData in
      q <- append_if_defined params "update_embedding" q ;;
      note <- encodeURIComponent noteId ;;
      endpoint <-
        BaseHandler.projectEndpoint projectId
          ("/notes/" ++ note ++ "?" ++ URLSearchParams.toString q) ;;
      result <- BaseHandler.apiRequest cfg endpoint
                  (VObject [("method", VString "PUT"); ("body", VObject updateData)]) ;;
      data <- get result "data" ;;
      streamlinedResponse <-
        ResponseBuilder.buildResponse responseBuilder [data; VString "update_note"] ;;
      sdata <- get streamlinedResponse "data" ;;
      smessage <- get streamlinedResponse "message" ;;
      t <- now_iso ;;
      ret (VObject [("success", VBool true);
                    ("data", sdata);
                    ("message", smessage);
                    ("timestamp", VString t)]).

Definition deleteNote (cfg : Config) (projectId params : value) : M value :=
  BaseHandler.validateParams params ["id"] ;;;
  deleted_by <- get params "deleted_by" ;;
  let deleteData := VObject [("deleted_by", JS.or deleted_by (VString "mcp"))] in
  id <- get params "id" ;;
  note <- encodeURIComponent id ;;
  endpoint <- BaseHandler.projectEndpoint projectId ("/notes/" ++ note) ;;
  result <- BaseHandler.apiRequest cfg endpoint
              (VObject [("method", VString "DELETE"); ("body", deleteData)]) ;;
  id_text <- text id ;;
  BaseHandler.formatSuccess result
    (VString ("Deleted note (ID: " ++ id_text ++ ")")).

Definition generateContexts (cfg : Config) (projectId params : value) : M value :=
  batch_size <- get params "batch_size" ;;
  force_regenerate <- get params "force_regenerate" ;;
  let requestData :=
    VObject [("batch_size", JS.or batch_size (JS.int 10));
             ("force_regenerate", JS.or force_regenerate (VBool false))] in
  endpoint <- BaseHandler.projectEndpoint projectId "/notes/contexts/generate" ;;
  result <- BaseHandler.apiRequest cfg endpoint
              (VObject [("method", VString "POST"); ("body", requestData)]) ;;
  data <- get result "data" ;;
  processed <- destructure data "result.data" "processed" ;;
  successful <- get data "successful" ;;
  failed <- get data "failed" ;;
  successful <- text successful ;;
  processed <- text processed ;;
  failed <- text failed ;;
  BaseHandler.formatSuccess result
    (VString ("Generated AI contexts: " ++ successful ++ "/"
              ++ processed ++ " successful, " ++ failed ++ " failed")).

Definition getContextStats (cfg : Config) (projectId params : value) : M value :=
  endpoint <- BaseHandler.projectEndpoint projectId "/notes/contexts/stats" ;;
  result <- BaseHandler.apiRequest cfg endpoint VUndefined ;;
  project <- text projectId ;;
  BaseHandler.formatSuccess result
    (VString ("Retrieved AI context statistics for project: " ++ project)).

Definition inspectContent (cfg : Config) (projectId params : value) : M value :=
  BaseHandler.validateParams params ["id"] ;;;
  id <- get params "id" ;;
  note <- encodeURIComponent id ;;
  endpoint <-
    BaseHandler.projectEndpoint projectId ("/notes/" ++ note ++ "/content/inspect") ;;
  result <- BaseHandler.apiRequest cfg endpoint VUndefined ;;
  data <- get result "data" ;;
  t <- now_iso ;;
  ret (VObject [("success", VBool true);
                ("data", data);
                ("message", VString "Content inspection completed");
                ("timestamp", VString t)]).

(** The request shared by [previewUpdate] and [validateUpdate]:
    a POST of [{old_str, new_str}] below the note's [content] path. *)
Definition post_old_new (cfg : Config) (projectId params : value)
    (leaf : string) : M value :=
  id <- get params "id" ;;
  note <- encodeURIComponent id ;;
  endpoint <-
    BaseHandler.projectEndpoint projectId ("/notes/" ++ note ++ "/content/" ++ leaf) ;;
  old_str <- get params "old_str" ;;
  new_str <- get params "new_str" ;;
  BaseHandler.apiRequest cfg endpoint
    (VObject [("method", VString "POST");
              ("body", VObject [("old_str", old_str); ("new_str", new_str)])]).

Definition previewUpdate (cfg : Config) (projectId params : value) : M value :=
  BaseHandler.validateParams params ["id"; "old_str"; "new_str"] ;;;
  result <- post_old_new cfg projectId params "preview" ;;
  data <- get result "data" ;;
  message <- get result "message" ;;
  wouldSucceed <- get data "wouldSucceed" ;;
  t <- now_iso ;;
  ret (VObject [("success", VBool true);
                ("data", data);
                ("message", JS.or message (VString "Update preview generated"));
                ("wouldSucceed", wouldSucceed);
                ("timestamp", VString t)]).

Definition validateUpdate (cfg : Config) (projectId params : value) : M value :=
  BaseHandler.validateParams params ["id"; "old_str"; "new_str"] ;;;
  result <- post_old_new cfg projectId params "validate" ;;
  data <- get result "data" ;;
  message <- get result "message" ;;
  isValid <- get data "isValid" ;;
  t <- now_iso ;;
  ret (VObject [("success", VBool true);
                ("data", data);
                ("message", JS.or message (VString "Update validation completed"));
                ("isValid", isValid);
                ("timestamp", VString t)]).

Definition suggestPatterns (cfg : Config) (projectId params : value) : M value :=
  BaseHandler.validateParams params ["id"; "pattern"] ;;;
  id <- get params "id" ;;
  note <- encodeURIComponent id ;;
  endpoint <-
    BaseHandler.projectEndpoint projectId ("/notes/" ++ note ++ "/content/suggest") ;;
  pattern <- get params "pattern" ;;
  threshold <- get params "threshold" ;;
  result <- BaseHandler.apiRequest cfg endpoint
              (VObject [("method", VString "POST");
                        ("body", VObject [("pattern", pattern);
                                          ("threshold", JS.or threshold (VNumber (mkNum 6 1)))])]) ;;
  data <- get result "data" ;;
  count <- get data "count" ;;
  count <- text count ;;
  suggestions <- get data "suggestions" ;;
  t <- now_iso ;;
  ret (VObject [("success", VBool true);
                ("data", data);
                ("message", VString ("Found " ++ count ++ " similar patterns"));
                ("suggestions", suggestions);
                ("timestamp", VString t)]).

Definition handleTool (cfg : Config) (toolName : string) (params : value)
    (context : Context) : M value :=
  params_projectId <- get params "projectId" ;;
  let projectId := JS.or params_projectId (VString (currentProject context)) in
  try_catch
    (if String.eqb toolName "list_notes" then listNotes cfg projectId params
     else if String.eqb toolName "get_note" then getNote cfg projectId params
     else if String.eqb toolName "create_note" then createNote cfg projectId params
     else if String.eqb toolName "update_note" then updateNote cfg projectId params
     else if String.eqb toolName "delete_note" then deleteNote cfg projectId params
     else if String.eqb toolName "generate_contexts" then generateContexts cfg projectId params
     else if String.eqb toolName "get_context_stats" then getContextStats cfg projectId params
     else if String.eqb toolName "inspect_content" then inspectContent cfg projectId params
     else if String.eqb toolName "preview_update" then previewUpdate cfg projectId params
     else if String.eqb toolName "validate_update" then validateUpdate cfg projectId params
     else if String.eqb toolName "suggest_patterns" then suggestPatterns cfg projectId params
     else throw (Error ("Unknown tool: " ++ toolName)))
    (fun error => BaseHandler.formatError error (VString toolName)).

End NoteHandler.

(** ** [handlers/CrossReferenceHandler.js] *)

Module CrossReferenceHandler.

Definition tools : list string :=
  ["add_wikilink"; "remove_wikilink"; "get_note_connections";
   "suggest_connections"; "validate_note_links"; "get_knowledge_base_health"].

Definition canHandleTool (toolName : string) : bool :=
  existsb (String.eqb toolName) tools.

Definition getTools : list Tool :=
  [mkTool "add_wikilink" ["noteId"; "targetNoteId"];
   mkTool "remove_wikilink" ["noteId"; "targetNoteId"];
   mkTool "get_note_connections" ["noteId"];
   mkTool "suggest_connections" ["noteId"];
   mkTool "validate_note_links" ["noteId"];
   mkTool "get_knowledge_base_health" []].

Definition addWikilink (cfg : Config) (projectId params : value) : M value :=
  BaseHandler.validateParams params ["noteId"; "targetNoteId"] ;;;
  targetNoteId <- get params "targetNoteId" ;;
  bidirectional <- get params "bidirectional" ;;
  let requestData :=
    [("target_note_id", targetNoteId);
     ("bidirectional", VBool (negb (JS.is_bool bidirectional false)))] in
  linkText <- get params "linkText" ;;
  let requestData :=
    if JS.truthy linkText then JS.set "link_text" linkText requestData
    else requestData in
  noteId <- get params "noteId" ;;
  note <- encodeURIComponent noteId ;;
  endpoint <- BaseHandler.projectEndpoint projectId ("/notes/" ++ note ++ "/links") ;;
  result <- BaseHandler.apiRequest cfg endpoint
              (VObject [("method", VString "POST"); ("body", VObject requestData)]) ;;
  let connectionType :=
    if negb (JS.is_bool bidirectional false) then "bidirectional" else "unidirectional" in
  data <- get result "data" ;;
  source <- text noteId ;;
  target <- text targetNoteId ;;
  BaseHandler.formatSuccess data
    (VString ("Created " ++ connectionType ++ " wikilink between notes "
              ++ source ++ " and " ++ target)).

Definition removeWikilink (cfg : Config) (projectId params : value) : M value :=
  BaseHandler.validateParams params ["noteId"; "targetNoteId"] ;;;
  noteId <- get params "noteId" ;;
  targetNoteId <- get params "targetNoteId" ;;
  note <- encodeURIComponent noteId ;;
  linked <- encodeURIComponent targetNoteId ;;
  endpoint <-
    BaseHandler.projectEndpoint projectId ("/notes/" ++ note ++ "/links/" ++ linked) ;;
  result <- BaseHandler.apiRequest cfg endpoint
              (VObject [("method", VString "DELETE")]) ;;
  data <- get result "data" ;;
  source <- text noteId ;;
  target <- text targetNoteId ;;
  BaseHandler.formatSuccess data
    (VString ("Removed wikilink between notes " ++ source ++ " and " ++ target)).

(** [x?.length || 0] *)
Definition length_or_zero (x : value) : M value :=
  len <- get_opt x "length" ;;
  ret (JS.or len (JS.int 0)).

Definition getNoteConnections (cfg : Config) (projectId params : value) : M value :=
  BaseHandler.validateParams params ["noteId"] ;;;
  q <- NoteHandler.append_if_truthy params "includeContent" URLSearchParams.empty ;;
  q <- NoteHandler.append_if_truthy params "maxConnections" q ;;
  noteId <- get params "noteId" ;;
  note <- encodeURIComponent noteId ;;
  let qs := URLSearchParams.toString q in
  endpoint <-
    BaseHandler.projectEndpoint projectId
      ("/notes/" ++ note ++ "/connections"
       ++ (if negb (String.eqb qs EmptyString) then "?" ++ qs else "")) ;;
  result <- BaseHandler.apiRequest cfg endpoint VUndefined ;;
  data <- get result "data" ;;
  forwardLinks <- get data "forwardLinks" ;;
  n1 <- length_or_zero forwardLinks ;;
  backlinks <- get data "backlinks" ;;
  n2 <- length_or_zero backlinks ;;
  n12 <- addition n1 n2 ;;
  relatedNotes <- get data "relatedNotes" ;;
  n3 <- length_or_zero relatedNotes ;;
  totalConnections <- addition n12 n3 ;;
  total <- text totalConnections ;;
  source <- text noteId ;;
  BaseHandler.formatSuccess data
    (VString ("Found " ++ total ++ " connections for note " ++ source)).

Definition suggestConnections (cfg : Config) (projectId params : value) : M value :=
  BaseHandler.validateParams params ["noteId"] ;;;
  maxSuggestions <- get params "maxSuggestions" ;;
  includeReasons <- get params "includeReasons" ;;
  let requestData :=
    VObject [("max_suggestions", JS.or maxSuggestions (JS.int 10));
             ("include_reasons", VBool (negb (JS.is_bool includeReasons false)))] in
  noteId <- get params "noteId" ;;
  note <- encodeURIComponent noteId ;;
  endpoint <-
    BaseHandler.projectEndpoint projectId ("/notes/" ++ note ++ "/connections/suggest") ;;
  result <- BaseHandler.apiRequest cfg endpoint
              (VObject [("method", VString "POST"); ("body", requestData)]) ;;
  data <- get result "data" ;;
  suggestions <- get data "suggestions" ;;
  suggestionCount <- length_or_zero suggestions ;;
  count <- text suggestionCount ;;
  source <- text noteId ;;
  BaseHandler.formatSuccess data
    (VString ("Found " ++ count ++ " connection suggestions for note " ++ source)).

Definition validateNoteLinks (cfg : Config) (projectId params : value) : M value :=
  BaseHandler.validateParams params ["noteId"] ;;;
  noteId <- get params "noteId" ;;
  note <- encodeURIComponent noteId ;;
  endpoint <-
    BaseHandler.projectEndpoint projectId ("/notes/" ++ note ++ "/links/validate") ;;
  result <- BaseHandler.apiRequest cfg endpoint VUndefined ;;
  data <- get result "data" ;;
  validLinks <- destructure data "result.data" "validLinks" ;;
  brokenLinks <- get data "brokenLinks" ;;
  linkIntegrityScore <- get data "linkIntegrityScore" ;;
  valid <- text validLinks ;;
  broken <- text brokenLinks ;;
  score <- text linkIntegrityScore ;;
  BaseHandler.formatSuccess data
    (VString ("Note validation: " ++ valid ++ " valid, "
              ++ broken ++ " broken links (" ++ score ++ "% integrity)")).

Definition getKnowledgeBaseHealth (cfg : Config) (projectId params : value) : M value :=
  endpoint <- BaseHandler.projectEndpoint projectId "/health/links" ;;
  result <- BaseHandler.apiRequest cfg endpoint VUndefined ;;
  data <- get result "data" ;;
  overview <- destructure data "result.data" "overview" ;;
  healthStatus <- get data "healthStatus" ;;
  score <- get overview "linkIntegrityScore" ;;
  score <- text score ;;
  status <- text healthStatus ;;
  validLinks <- get overview "validLinks" ;;
  valid <- text validLinks ;;
  totalWikilinks <- get overview "totalWikilinks" ;;
  total <- text totalWikilinks ;;
  BaseHandler.formatSuccess data
    (VString ("Knowledge base health: " ++ score ++ "% integrity ("
              ++ status ++ ") - " ++ valid ++ "/" ++ total ++ " links valid")).

Definition handleTool (cfg : Config) (toolName : string) (params : value)
    (context : Context) : M value :=
  params_projectId <- get params "projectId" ;;
  let projectId := JS.or params_projectId (VString (currentProject context)) in
  try_catch
    (if String.eqb toolName "add_wikilink" then addWikilink cfg projectId params
     else if String.eqb toolName "remove_wikilink" then removeWikilink cfg projectId params
     else if String.eqb toolName "get_note_connections" then getNoteConnections cfg projectId params
     else if String.eqb toolName "suggest_connections" then suggestConnections cfg projectId params
     else if String.eqb toolName "validate_note_links" then validateNoteLinks cfg projectId params
     else if String.eqb toolName "get_knowledge_base_health" then getKnowledgeBaseHealth cfg projectId params
     else throw (Error ("Unknown tool: " ++ toolName)))
    (fun error => BaseHandler.formatError error (VString toolName)).

End CrossReferenceHandler.

(** ** [handlers/ProjectHandler.js] *)

Module ProjectHandler.

Definition tools : list string :=
  ["list_projects"; "get_project_info"; "get_current_context"].

Definition canHandleTool (toolName : string) : bool :=
  existsb (String.eqb toolName) tools.

Definition getTools : list Tool :=
  [mkTool "list_projects" [];
   mkTool "get_project_info" [];
   mkTool "get_current_context" []].

Definition listProjects (params : value) : M value :=
  t <- now_iso ;;
  let result :=
    VObject [("message", VString "Project listing not available - no projects endpoint implemented");
             ("available", VBool false);
             ("currentProject", VString "Use get_current_context to see active project");
             ("timestamp", VString t)] in
  BaseHandler.formatSuccess result (VString "Project listing unavailable").

Definition getProjectInfo (cfg : Config) (params : value) (context : Context)
  : M value :=
  params_projectId <- get params "projectId" ;;
  let projectId := JS.or params_projectId (VString (currentProject context)) in
  try_catch
    (endpoint <- BaseHandler.projectEndpoint projectId "/stats" ;;
     result <- BaseHandler.apiRequest cfg endpoint VUndefined ;;
     project <- text projectId ;;
     BaseHandler.formatSuccess result
       (VString ("Retrieved info for project: " ++ project)))
    (fun error =>
       if Str.includes (err_message error) "404" then
         t <- now_iso ;;
         let result :=
           VObject [("projectId", projectId);
                    ("available", VBool false);
                    ("message", VString "Project information not available");
                    ("timestamp", VString t)] in
         project <- text projectId ;;
         BaseHandler.formatSuccess result
           (VString ("Project " ++ project ++ " not accessible"))
       else throw error).

Definition getCurrentContext (cfg : Config) (context : Context) : M value :=
  try_catch
    (projectInfo <-
       getProjectInfo cfg
         (VObject [("projectId", VString (currentProject context));
                   ("include_stats", VBool true)]) context ;;
     t <- now_iso ;;
     info_data <- get projectInfo "data" ;;
     let contextInfo :=
       VObject [("currentProject", VString (currentProject context));
                ("apiUrl", VString (apiUrl cfg));
                ("hasApiKey", VBool (truthy_str (apiKey cfg)));
                ("timestamp", VString t);
                ("projectInfo", JS.or info_data projectInfo)] in
     BaseHandler.formatSuccess contextInfo
       (VString ("Current context: " ++ currentProject context)))
    (fun error =>
       t <- now_iso ;;
       let contextInfo :=
         VObject [("currentProject", VString (currentProject context));
                  ("apiUrl", VString (apiUrl cfg));
                  ("hasApiKey", VBool (truthy_str (apiKey cfg)));
                  ("timestamp", VString t);
                  ("projectInfo", VNull);
                  ("warning", VString ("Could not retrieve project info: "
                                       ++ err_message error))] in
       BaseHandler.formatSuccess contextInfo
         (VString ("Current context: " ++ currentProject context ++ " (limited info)"))).

Definition handleTool (cfg : Config) (toolName : string) (params : value)
    (context : Context) : M value :=
  try_catch
    (if String.eqb toolName "list_projects" then listProjects params
     else if String.eqb toolName "get_project_info" then getProjectInfo cfg params context
     else if String.eqb toolName "get_current_context" then getCurrentContext cfg context
     else throw (Error ("Unknown tool: " ++ toolName)))
    (fun error => BaseHandler.formatError error (VString toolName)).

End ProjectHandler.

(** ** [handlers/StatsHandler.js] *)

Module StatsHandler.

Definition tools : list string :=
  ["get_project_stats"; "get_system_stats"; "get_usage_stats"; "get_folder_stats"].

Definition canHandleTool (toolName : string) : bool :=
  existsb (String.eqb toolName) tools.

Definition getTools : list Tool :=
  [mkTool "get_project_stats" [];
   mkTool "get_system_stats" [];
   mkTool "get_usage_stats" [];
   mkTool "get_folder_stats" ["folder"]].

(** [if (params.k !== false) queryParams.append(k, 'true')] *)
Definition append_unless_false (params : value) (k : string)
    (q : URLSearchParams.t) : M URLSearchParams.t :=
  v <- get params k ;;
  ret (if negb (JS.is_bool v false) then URLSearchParams.append k (VString "true") q
       else q).

Definition getProjectStats (cfg : Config) (params : value) (context : Context)
  : M value :=
  params_projectId <- get params "projectId" ;;
  let projectId := JS.or params_projectId (VString (currentProject context)) in
  q <- append_unless_false params "include_recent_activity" URLSearchParams.empty ;;
  q <- append_unless_false params "include_embedding_stats" q ;;
  endpoint <-
    BaseHandler.projectEndpoint projectId ("/stats?" ++ URLSearchParams.toString q) ;;
  result <- BaseHandler.apiRequest cfg endpoint VUndefined ;;
  project <- text projectId ;;
  BaseHandler.formatSuccess result
    (VString ("Retrieved statistics for project: " ++ project)).

Definition buildBasicSystemStats (cfg : Config) : M value :=
  try_catch
    (t <- now_iso ;;
     let systemStats :=
       VObject [("api", VObject [("url", VString (apiUrl cfg));
                                 ("accessible", VBool true)]);
                ("message", VString "System statistics not available - no system-wide stats endpoint");
                ("timestamp", VString t)] in
     BaseHandler.formatSuccess systemStats (VString "Basic system information"))
    (fun error =>
       throw (Error ("Failed to build system statistics: " ++ err_message error))).

Definition getSystemStats (cfg : Config) (params : value) : M value :=
  include_project_breakdown <- get params "include_project_breakdown" ;;
  let q :=
    if JS.truthy include_project_breakdown
    then URLSearchParams.append "include_project_breakdown" (VString "true")
           URLSearchParams.empty
    else URLSearchParams.empty in
  let endpoint := ("/api/stats?" ++ URLSearchParams.toString q)%string in
  try_catch
    (result <- BaseHandler.apiRequest cfg endpoint VUndefined ;;
     BaseHandler.formatSuccess result (VString "Retrieved system statistics"))
    (fun error =>
       if Str.includes (err_message error) "404" then buildBasicSystemStats cfg
       else throw error).

Definition getUsageStats (cfg : Config) (params : value) (context : Context)
  : M value :=
  params_projectId <- get params "projectId" ;;
  let projectId := JS.or params_projectId (VString (currentProject context)) in
  endpoint <- BaseHandler.projectEndpoint projectId "/usage/stats" ;;
  try_catch
    (result <- BaseHandler.apiRequest cfg endpoint VUndefined ;;
     project <- text projectId ;;
     BaseHandler.formatSuccess result
       (VString ("Retrieved usage statistics for project: " ++ project)))
    (fun error =>
       if Str.includes (err_message error) "404" then
         BaseHandler.formatSuccess
           (VObject [("available", VBool false);
                     ("projectId", projectId);
                     ("message", VString "Usage statistics not available")])
           (VString "Usage statistics unavailable")
       else throw error).

Definition getFolderStats (cfg : Config) (params : value) (context : Context)
  : M value :=
  BaseHandler.validateParams params ["folder"] ;;;
  params_projectId <- get params "projectId" ;;
  let projectId := JS.or params_projectId (VString (currentProject context)) in
  folder <- get params "folder" ;;
  segment <- encodeURIComponent folder ;;
  endpoint <-
    BaseHandler.projectEndpoint projectId ("/folders/" ++ segment ++ "/stats") ;;
  try_catch
    (result <- BaseHandler.apiRequest cfg endpoint VUndefined ;;
     name <- text folder ;;
     BaseHandler.formatSuccess result
       (VString ("Retrieved statistics for folder: " ++ name)))
    (fun error =>
       if Str.includes (err_message error) "404" then
         BaseHandler.formatSuccess
           (VObject [("available", VBool false);
                     ("projectId", projectId);
                     ("folder", folder);
                     ("message", VString "Folder statistics not available")])
           (VString "Folder statistics unavailable")
       else throw error).

Definition handleTool (cfg : Config) (toolName : string) (params : value)
    (context : Context) : M value :=
  try_catch
    (if String.eqb toolName "get_project_stats" then getProjectStats cfg params context
     else if String.eqb toolName "get_system_stats" then getSystemStats cfg params
     else if String.eqb toolName "get_usage_stats" then getUsageStats cfg params context
     else if String.eqb toolName "get_folder_stats" then getFolderStats cfg params context
     else throw (Error ("Unknown tool: " ++ toolName)))
    (fun error => BaseHandler.formatError error (VString toolName)).

End StatsHandler.

(** ** [handlers/SearchHandler.js] *)

Module SearchHandler.

Definition tools : list string := ["search"; "graph_search"].

Definition canHandleTool (toolName : string) : bool :=
  existsb (String.eqb toolName) tools.

Definition getTools : list Tool :=
  [mkTool "search" ["query"];
   mkTool "graph_search" ["query"]].

(** [if (params.k && params.k !== 'lit') queryParams.append(k, params.k)] *)
Definition append_if_truthy_not (params : value) (k lit : string)
    (q : URLSearchParams.t) : M URLSearchParams.t :=
  v <- get params k ;;
  if JS.truthy v && negb (JS.is_string v lit) then query_append k v q else ret q.

(** [if (params.k !== undefined && params.k !== b) queryParams.append(k, params.k)] *)
Definition append_if_defined_not (params : value) (k : string) (b : bool)
    (q : URLSearchParams.t) : M URLSearchParams.t :=
  v <- get params k ;;
  if negb (JS.is_undefined v) && negb (JS.is_bool v b) then query_append k v q
  else ret q.

Definition buildSearchParams (params : value) : M URLSearchParams.t :=
  query <- get params "query" ;;
  q <- query_of_object [("q", query)] ;;
  q <- append_if_truthy_not params "mode" "keyword" q ;;
  q <- NoteHandler.append_if_truthy params "limit" q ;;
  q <- NoteHandler.append_if_truthy params "semantic_weight" q ;;
  q <- NoteHandler.append_if_truthy params "threshold" q ;;
  q <- NoteHandler.append_if_truthy params "virtual_folder" q ;;
  q <- NoteHandler.append_if_truthy params "created_by" q ;;
  q <- NoteHandler.append_tags params q ;;
  q <- append_if_truthy_not params "context_depth" "snippet" q ;;
  q <- append_if_defined_not params "highlight_matches" true q ;;
  q <- append_if_defined_not params "include_connections" false q ;;
  q <- append_if_defined_not params "include_line_numbers" false q ;;
  max_connections <- get params "max_connections" ;;
  q <- (if JS.truthy max_connections && negb (JS.is_number max_connections (mkNum 5 0))
        then query_append "max_connections" max_connections q else ret q) ;;
  append_if_defined_not params "streamlined" true q.

(** The text ["${query}"], with its double quotes. *)
Definition quoted (query : value) : M string :=
  query <- text query ;;
  ret (String JSON.dquote query ++ String JSON.dquote EmptyString)%string.

Definition formatSearchMessage (params resultCount : value) : M string :=
  mode_raw <- get params "mode" ;;
  let mode := JS.or mode_raw (VString "keyword") in
  query <- get params "query" ;;
  if JS.is_string mode "semantic" then
    count <- text resultCount ;;
    query <- quoted query ;;
    ret ("Found " ++ count ++ " semantically similar notes for " ++ query)
  else if JS.is_string mode "hybrid" then
    semantic_weight <- get params "semantic_weight" ;;
    let semanticWeight := JS.or semantic_weight (VNumber (mkNum 7 1)) in
    count <- text resultCount ;;
    text semanticWeight ;;;
    e <- ask ;;
    query <- quoted query ;;
    ret ("Found " ++ count ++ " notes using hybrid search ("
         ++ round_percent_rest (eng e) semanticWeight ++ "% keyword, "
         ++ round_percent (eng e) semanticWeight ++ "% semantic) for "
         ++ query)
  else
    count <- text resultCount ;;
    query <- quoted query ;;
    ret ("Found " ++ count ++ " notes matching " ++ query).

(** [search(projectId, params)].  In hybrid mode a failure of the embedding
    service makes the method call itself once more with [mode: 'keyword'];
    that nested call cannot take the same branch again, so [depth] bounds the
    nesting and one level is all [search] below ever uses
    ([search_nesting_bounded]). *)
Fixpoint search_at (depth : nat) (cfg : Config) (projectId params : value)
  : M value :=
  BaseHandler.validateParams params ["query"] ;;;
  mode_raw <- get params "mode" ;;
  let mode := JS.or mode_raw (VString "keyword") in
  queryParams <- buildSearchParams params ;;
  endpoint <-
    BaseHandler.projectEndpoint projectId
      ("/notes/search?" ++ URLSearchParams.toString queryParams) ;;
  try_catch
    (result <- BaseHandler.apiRequest cfg endpoint VUndefined ;;
     data <- get result "data" ;;
     results <- get_opt data "results" ;;
     results_length <- get_opt results "length" ;;
     data_length <- get_opt data "length" ;;
     let resultCount := JS.or (JS.or results_length data_length) (JS.int 0) in
     message <- formatSearchMessage params resultCount ;;
     context_depth <- get params "context_depth" ;;
     message <-
       (if JS.truthy context_depth && negb (JS.is_string context_depth "snippet")
        then depth_text <- text context_depth ;;
             ret (message ++ " with " ++ depth_text ++ " context")%string
        else ret message) ;;
     include_connections <- get params "include_connections" ;;
     let message :=
       if JS.truthy include_connections then (message ++ " and relationships")%string
       else message in
     BaseHandler.formatSuccess data (VString message))
    (fun error =>
       if Str.includes (err_message error) "embedding"
          || Str.includes (err_message error) "ChromaDB" then
         if JS.is_string mode "semantic" then
           BaseHandler.formatSuccess
             (VObject [("results", VArray []); ("total", JS.int 0)])
             (VString "Semantic search unavailable - ChromaDB service not accessible. Consider using keyword search instead.")
         else if JS.is_string mode "hybrid" then
           console "warn" "Hybrid search falling back to keyword search due to ChromaDB unavailability" ;;;
           let fallbackParams :=
             VObject (JS.spread (JS.props_of params)
                        [("mode", VString "keyword");
                         ("semantic_weight", VUndefined);
                         ("threshold", VUndefined)]) in
           match depth with
           | S depth' => search_at depth' cfg projectId fallbackParams
           | O => throw error
           end
         else throw error
       else throw error).

Definition search (cfg : Config) (projectId params : value) : M value :=
  search_at 1 cfg projectId params.

Definition graphSearch (cfg : Config) (projectId params : value) : M value :=
  BaseHandler.validateParams params ["query"] ;;;
  query <- get params "query" ;;
  mode <- get params "mode" ;;
  includeGraph <- get params "includeGraph" ;;
  includeContext <- get params "includeContext" ;;
  q <- query_of_object
         [("q", query);
          ("mode", JS.or mode (VString "graph"));
          ("includeGraph", VBool (negb (JS.is_bool includeGraph false)));
          ("includeContext", VBool (negb (JS.is_bool includeContext false)))] ;;
  q <- NoteHandler.append_if_truthy params "maxResults" q ;;
  q <- NoteHandler.append_if_truthy params "graphWeight" q ;;
  endpoint <-
    BaseHandler.projectEndpoint projectId
      ("/search/graph?" ++ URLSearchParams.toString q) ;;
  try_catch
    (result <- BaseHandler.apiRequest cfg endpoint VUndefined ;;
     data <- get result "data" ;;
     data_length <- get_opt data "length" ;;
     let resultCount := JS.or data_length (JS.int 0) in
     relationship_map <- get result "relationship_map" ;;
     let graphInfo :=
       if JS.truthy relationship_map then "with relationship analysis" else "" in
     count <- text resultCount ;;
     query <- quoted query ;;
     BaseHandler.formatSuccess data
       (VString ("Found " ++ count ++ " graph-based results for "
                 ++ query ++ " " ++ graphInfo)))
    (fun error =>
       if Str.includes (err_message error) "graph"
          || Str.includes (err_message error) "relationship" then
         console "warn" "Graph search falling back to keyword search" ;;;
         search cfg projectId
           (VObject (JS.spread (JS.props_of params)
                       [("mode", VString "keyword");
                        ("includeGraph", VUndefined);
                        ("graphWeight", VUndefined)]))
       else throw error).

Definition handleTool (cfg : Config) (toolName : string) (params : value)
    (context : Context) : M value :=
  params_projectId <- get params "projectId" ;;
  let projectId := JS.or params_projectId (VString (currentProject context)) in
  try_catch
    (if String.eqb toolName "search" then search cfg projectId params
     else if String.eqb toolName "graph_search" then graphSearch cfg projectId params
     else throw (Error ("Unknown tool: " ++ toolName)))
    (fun error => BaseHandler.formatError error (VString toolName)).

End SearchHandler.

(** ** [index.js]: the MCP server *)

Module Server.

(** What the request handlers use of a handler object.  [getTools] and
    [canHandleTool] are looked up before they are called
    ([if (handler.getTools)], [handler.canHandleTool && ...]), so they may be
    absent. *)
Record Handler := mkHandler {
  getTools : option (M (list Tool));
  canHandleTool : option (string -> M bool);
  handleTool : string -> value -> Context -> M value
}.

Definition noteHandler (cfg : Config) : Handler :=
  mkHandler (Some (ret NoteHandler.getTools))
            (Some (fun n => ret (NoteHandler.canHandleTool n)))
            (NoteHandler.handleTool cfg).

Definition searchHandler (cfg : Config) : Handler :=
  mkHandler (Some (ret SearchHandler.getTools))
            (Some (fun n => ret (SearchHandler.canHandleTool n)))
            (SearchHandler.handleTool cfg).

Definition projectHandler (cfg : Config) : Handler :=
  mkHandler (Some (ret ProjectHandler.getTools))
            (Some (fun n => ret (ProjectHandler.canHandleTool n)))
            (ProjectHandler.handleTool cfg).

Definition statsHandler (cfg : Config) : Handler :=
  mkHandler (Some (ret StatsHandler.getTools))
            (Some (fun n => ret (StatsHandler.canHandleTool n)))
            (StatsHandler.handleTool cfg).

Definition crossReferenceHandler (cfg : Config) : Handler :=
  mkHandler (Some (ret CrossReferenceHandler.getTools))
            (Some (fun n => ret (CrossReferenceHandler.canHandleTool n)))
            (CrossReferenceHandler.handleTool cfg).

(** The server object: [this.config], [this.currentProject] and
    [Object.values(this.handlers)] in the order of the object literal. *)
Record t := mkServer {
  config : Config;
  project : string;
  handlers : list Handler
}.

(** [extractProjectFromApiKey()]; [None] is the [null] result. *)
Definition extractProjectFromApiKey (cfg : Config) : option string :=
  match apiKey cfg with
  | None => None
  | Some key =>
      if negb (truthy_str (Some key)) then None
      else
        let parts := Str.split dash key in
        if (3 <=? Z.of_nat (List.length parts))
        then nth_error parts 1
        else None
  end.

(** The constructor, on the merged configuration. *)
Definition construct (cfg : Config) : outcome t :=
  let currentProject :=
    if truthy_str (projectId cfg) then projectId cfg
    else extractProjectFromApiKey cfg in
  match currentProject with
  | Some p =>
      if negb (truthy_str (Some p))
      then Thrown (Error "No valid project found. Set PROJECT_ID or use API key format: role-project-secret")
      else Returned
             (mkServer cfg p
                [noteHandler cfg; searchHandler cfg; projectHandler cfg;
                 statsHandler cfg; crossReferenceHandler cfg])
  | None =>
      Thrown (Error "No valid project found. Set PROJECT_ID or use API key format: role-project-secret")
  end.

Definition upper (c : ascii) : ascii :=
  let b := JSON.code c in
  if (97 <=? b) && (b <=? 122) then JSON.char (b - 32) else c.

(** [level.toUpperCase()] on the ASCII level names *)
Fixpoint toUpperCase (s : string) : string :=
  match s with
  | EmptyString => EmptyString
  | String c rest => String (upper c) (toUpperCase rest)
  end.

(** [log(level, message)] *)
Definition log (srv : t) (level message : string) : M unit :=
  if logging_enabled (config srv) then
    timestamp <- now_iso ;;
    console "error" ("[" ++ timestamp ++ "] [" ++ toUpperCase level ++ "] " ++ message)
  else ret tt.

(** The loop of the [ListTools] handler:
    [if (handler.getTools) tools.push(...handler.getTools())]. *)
Fixpoint collectTools (hs : list Handler) (tools : list Tool) : M (list Tool) :=
  match hs with
  | [] => ret tools
  | handler :: rest =>
      match getTools handler with
      | Some get_tools =>
          more <- get_tools ;;
          collectTools rest (tools ++ more)%list
      | None => collectTools rest tools
      end
  end.

(** The [ListTools] request handler; the result is the [tools] array of the
    reply. *)
Definition ListTools (srv : t) : M (list Tool) :=
  collectTools (handlers srv) [].

(** The reply of [CallTool]: one text item, and the [isError] member, which
    the success reply does not have. *)
Record ContentItem := mkItem { type : string; text : option string }.

Record CallToolResult := mkResult {
  content : list ContentItem;
  isError : option bool
}.

(** The [for] loop inside the [try] of the [CallTool] handler, followed by
    the [throw] that ends the block. *)
Fixpoint findAndCall (srv : t) (hs : list Handler) (name : string)
    (args : value) : M CallToolResult :=
  match hs with
  | [] => throw (Error ("Unknown tool: " ++ name))
  | handler :: rest =>
      can <- match canHandleTool handler with
             | Some can_handle => can_handle name
             | None => ret false
             end ;;
      if can : bool then
        result <- handleTool handler name args (mkContext (project srv)) ;;
        ret (mkResult [mkItem "text" (JSON.stringify_pretty result)] None)
      else findAndCall srv rest name args
  end.

(** The [CallTool] request handler, on [request.params.name] and
    [request.params.arguments]. *)
Definition CallTool (srv : t) (name : string) (args : value) : M CallToolResult :=
  try_catch
    (findAndCall srv (handlers srv) name args)
    (fun error =>
       log srv "error" ("Tool execution failed: " ++ name ++ " - " ++ err_message error) ;;;
       timestamp <- now_iso ;;
       ret (mkResult
              [mkItem "text"
                 (JSON.stringify_pretty
                    (VObject [("error", VString (err_message error));
                              ("tool", VString name);
                              ("timestamp", VString timestamp)]))]
              (Some true))).

(** The [ListResources] request handler: three fixed descriptors. *)
Record Resource := mkResource {
  uri : string;
  resource_name : string;
  description : string;
  mimeType : string
}.

Definition ListResources : list Resource :=
  [mkResource "knowledge://project/current" "Current Project Context"
     "Information about the current active project" "application/json";
   mkResource "knowledge://system/health" "System Health"
     "Health status of the Knowledge AI system" "application/json";
   mkResource "knowledge://portable/info" "Portable Client Info"
     "Information about this portable MCP client" "application/json"].

(** The [headers] of the health probe; a property whose value is [undefined]
    stays in the object literal. *)
Definition healthHeaders (srv : t) : value :=
  VObject [("X-API-Key", match apiKey (config srv) with
                         | Some key => VString key
                         | None => VUndefined
                         end);
           ("User-Agent", VString "Knowledge-AI-MCP-Portable/1.0")].

(** [getSystemHealth()] *)
Definition getSystemHealth (srv : t) : M value :=
  try_catch
    (response <- fetch (apiUrl (config srv) ++ "/health")
                   (VObject [("headers", healthHeaders srv)]) ;;
     if negb (ok response) then
       throw (Error ("API returned " ++ JS.num_to_string (mkNum (status response) 0)))
     else
       timestamp <- now_iso ;;
       ret (VObject [("status", VString "healthy");
                     ("currentProject", VString (project srv));
                     ("api", VObject [("url", VString (apiUrl (config srv)));
                                      ("accessible", VBool true);
                                      ("response_time", VString "OK")]);
                     ("mode", VString "portable");
                     ("timestamp", VString timestamp)]))
    (fun error =>
       timestamp <- now_iso ;;
       ret (VObject [("status", VString "degraded");
                     ("currentProject", VString (project srv));
                     ("api", VObject [("url", VString (apiUrl (config srv)));
                                      ("accessible", VBool false);
                                      ("error", VString (err_message error))]);
                     ("mode", VString "portable");
                     ("timestamp", VString timestamp)])).

(** One element of the [contents] array of a [ReadResource] reply. *)
Record Contents := mkContents {
  contents_uri : string;
  contents_mimeType : string;
  contents_text : option string
}.

(** [Object.keys(this.handlers)], the keys of the object literal of the
    constructor. *)
Definition handlerKeys : list string :=
  ["note"; "search"; "project"; "stats"; "crossReference"].

(** The [ReadResource] request handler, on [request.params.uri]; [version]
    is [this.config.mcp.version].  The result is the [contents] array. *)
Definition ReadResource (version : value) (srv : t) (uri : string)
  : M (list Contents) :=
  try_catch
    (if String.eqb uri "knowledge://project/current" then
       timestamp <- now_iso ;;
       ret [mkContents uri "application/json"
              (JSON.stringify_pretty
                 (VObject [("currentProject", VString (project srv));
                           ("apiUrl", VString (apiUrl (config srv)));
                           ("timestamp", VString timestamp);
                           ("mode", VString "portable")]))]
     else if String.eqb uri "knowledge://system/health" then
       health <- getSystemHealth srv ;;
       ret [mkContents uri "application/json" (JSON.stringify_pretty health)]
     else if String.eqb uri "knowledge://portable/info" then
       ret [mkContents uri "application/json"
              (JSON.stringify_pretty
                 (VObject [("name", VString "Knowledge AI MCP Portable");
                           ("version", version);
                           ("project", VString (project srv));
                           ("apiUrl", VString (apiUrl (config srv)));
                           ("handlers", VArray (map VString handlerKeys));
                           ("capabilities",
                            VArray [VString "Full API access via copied MCP handlers";
                                    VString "Webhook notifications for database changes";
                                    VString "Project isolation and authentication";
                                    VString "All 20+ Knowledge AI MCP tools"])]))]
     else throw (Error ("Unknown resource: " ++ uri)))
    (fun error =>
       throw (Error ("Failed to read resource " ++ uri ++ ": " ++ err_message error))).

End Server.

(** ** [client.js]: the standalone client *)

Module Client.

(** The fields set by the constructor: [{...config, ...options}],
    [connected = false], [webhookServer = null], [webhookUrl = null]. *)
Record t := mkClient {
  config : Config;
  connected : bool;
  webhookUrl : option string
}.

(** The constructor reads nothing of the configuration and cannot throw. *)
Definition construct (cfg : Config) : outcome t :=
  Returned (mkClient cfg false None).

(** [getProjectFromApiKey()].  [parts[1]] is read only when [parts] has at
    least three elements. *)
Definition getProjectFromApiKey (cfg : Config) : outcome string :=
  let from_key :=
    match apiKey cfg with
    | None => Thrown (Error "No API key configured")
    | Some key =>
        if negb (truthy_str (Some key))
        then Thrown (Error "No API key configured")
        else
          let parts := Str.split dash key in
          if (3 <=? Z.of_nat (List.length parts)) then
            let firstDashIndex := Str.indexOf dash key in
            let lastDashIndex := Str.lastIndexOf dash key in
            if negb (firstDashIndex =? lastDashIndex) && (0 <=? firstDashIndex)
            then Returned (Str.substring key (firstDashIndex + 1) lastDashIndex)
            else Returned (nth 1 parts EmptyString)
          else Returned "default"
    end in
  match projectId cfg with
  | Some p => if truthy_str (Some p) then Returned p else from_key
  | None => from_key
  end.

(** The error with which a pass of the loop fails on a given answer of the
    remote, if it does: a rejected [fetch], or a response that is not [ok]. *)
Definition failure_of (answer : fetch_outcome) : option error :=
  match answer with
  | Rejects err => Some err
  | Resolves r =>
      if ok r then None
      else Some (Error ("HTTP " ++ JS.num_to_string (mkNum (status r) 0) ++ ": "
                        ++ statusText r))
  end.

(** The body of one pass of the [while] loop in [apiRequest]: the [try]
    block. *)
Definition attempt_once (url : string) (fetchOptions : value) : M response :=
  response <- fetch url fetchOptions ;;
  if negb (ok response) then
    throw (Error ("HTTP " ++ JS.num_to_string (mkNum (status response) 0) ++ ": "
                  ++ statusText response))
  else ret response.

(** [while (attempt <= retries) { try ... catch ... }].  [passes] bounds the
    number of passes; [apiRequest] starts the loop with as many passes as the
    condition allows, so that running out of passes is leaving the loop
    ([retry_loop_passes]).  [None] is the [undefined] a function returns by
    falling off its end. *)
Fixpoint retry_loop (passes : nat) (cfg : Config) (url : string)
    (fetchOptions : value) (attempt : Z) : M (option response) :=
  match passes with
  | O => ret None
  | S passes' =>
      if attempt <=? retries (http cfg) then
        try_catch
          (response <- attempt_once url fetchOptions ;; ret (Some response))
          (fun error =>
             let attempt := attempt + 1 in
             if attempt >? retries (http cfg) then throw error
             else
               sleep (retryDelay (http cfg) * attempt) ;;;
               retry_loop passes' cfg url fetchOptions attempt)
      else ret None
  end.

(** The [fetchOptions] object literal of [apiRequest]. *)
Definition fetchOptions (cfg : Config) (options : value) : value :=
  VObject
    (JS.spread
       [("method", VString "GET");
        ("headers",
         VObject [("Content-Type", VString "application/json");
                  ("X-API-Key", match apiKey cfg with
                                | Some key => VString key
                                | None => VUndefined
                                end);
                  ("User-Agent", VString "Knowledge-AI-MCP-Portable/1.0")]);
        ("timeout", JS.int (timeout (http cfg)))]
       (JS.props_of options)).

(** [apiRequest(endpoint, options = {})] *)
Definition apiRequest (cfg : Config) (endpoint : string) (options : value)
  : M (option response) :=
  let options := if JS.is_undefined options then VObject [] else options in
  let url := (apiUrl cfg ++ endpoint)%string in
  let fetchOptions := fetchOptions cfg options in
  retry_loop (Z.to_nat (retries (http cfg) + 1)) cfg url fetchOptions 0.

(** The reply written to [res]: [res.writeHead(code, headers)] and
    [res.end(body)]. *)
Record Reply := mkReply {
  code : Z;
  reply_headers : list (string * string);
  reply_body : string
}.

(** [handleWebhook(req, res)], run once the request body is complete.  The
    stack trace printed with the error is left out of the console text. *)
Definition handleWebhook (body : string) : M Reply :=
  try_catch
    (data <- match JSON.parse body with
             | Some v => ret v
             | None =>
                 e <- ask ;;
                 throw (SyntaxError (syntax_error_message (eng e) body))
             end ;;
     event <- get data "event" ;;
     (if JS.is_string event "created" then
        payload <- get data "data" ;; emit "noteCreated" payload
      else if JS.is_string event "updated" then
        payload <- get data "data" ;; emit "noteUpdated" payload
      else if JS.is_string event "deleted" then
        payload <- get data "data" ;; emit "noteDeleted" payload
      else ret tt) ;;;
     emit "webhookReceived" data ;;;
     ret (mkReply 200 [("Content-Type", "application/json")]
            (match JSON.stringify (VObject [("success", VBool true)]) with
             | Some t => t
             | None => EmptyString
             end)))
    (fun error =>
       console "error" ("Webhook parsing error: " ++ err_name error ++ ": "
                        ++ err_message error) ;;;
       ret (mkReply 400 [] EmptyString)).

(** The request listener installed by [setupWebhookReceiver]. *)
Definition onRequest (cfg : Config) (method url body : string) : M Reply :=
  if String.eqb method "POST" && String.eqb url (wh_path (webhook cfg))
  then handleWebhook body
  else ret (mkReply 404 [] EmptyString).

(** [await response.text()] followed by [JSON.parse]: [parseJsonResponse].
    The argument is what [apiRequest] returned. *)
Definition parseJsonResponse (response : option response) : M value :=
  match response with
  | None => throw (TypeError "Cannot read properties of undefined (reading 'text')")
  | Some r =>
      match JSON.parse (bodyText r) with
      | Some v => ret v
      | None => throw (Error ("Invalid JSON response: " ++ bodyText r))
      end
  end.

(** [testConnection()] *)
Definition testConnection (cfg : Config) : M unit :=
  response <- apiRequest cfg "/health" VUndefined ;;
  match response with
  | None => throw (TypeError "Cannot read properties of undefined (reading 'ok')")
  | Some r =>
      if negb (ok r) then
        throw (Error ("Knowledge AI API not accessible: "
                      ++ JS.num_to_string (mkNum (status r) 0)))
      else ret tt
  end.

(** [given || this.getProjectFromApiKey()] *)
Definition projectOr (cfg : Config) (given : value) : M value :=
  if JS.truthy given then ret given
  else p <- lift (getProjectFromApiKey cfg) ;; ret (VString p).

(** [JSON.stringify(v)] as a value: [undefined] when there is no text. *)
Definition stringified (v : value) : value :=
  match JSON.stringify v with
  | Some t => VString t
  | None => VUndefined
  end.

(** [createNote(noteData)] *)
Definition createNote (cfg : Config) (noteData : value) : M value :=
  given <- get noteData "projectId" ;;
  projectId <- projectOr cfg given ;;
  response <- apiRequest cfg ("/api/projects/" ++ JS.to_string projectId ++ "/notes")
                (VObject [("method", VString "POST");
                          ("body", stringified noteData)]) ;;
  result <- parseJsonResponse response ;;
  get result "data".

(** [getNote(id, projectId = null)] *)
Definition getNote (cfg : Config) (id projectId : value) : M value :=
  projectId <- projectOr cfg projectId ;;
  response <- apiRequest cfg ("/api/projects/" ++ JS.to_string projectId
                              ++ "/notes/" ++ JS.to_string id) VUndefined ;;
  result <- parseJsonResponse response ;;
  get result "data".

(** [updateNote(id, updateData, projectId = null)] *)
Definition updateNote (cfg : Config) (id updateData projectId : value) : M value :=
  projectId <- projectOr cfg projectId ;;
  response <- apiRequest cfg ("/api/projects/" ++ JS.to_string projectId
                              ++ "/notes/" ++ JS.to_string id)
                (VObject [("method", VString "PATCH");
                          ("body", stringified updateData)]) ;;
  result <- parseJsonResponse response ;;
  get result "data".

(** [deleteNote(id, projectId = null)] *)
Definition deleteNote (cfg : Config) (id projectId : value) : M value :=
  projectId <- projectOr cfg projectId ;;
  response <- apiRequest cfg ("/api/projects/" ++ JS.to_string projectId
                              ++ "/notes/" ++ JS.to_string id)
                (VObject [("method", VString "DELETE")]) ;;
  result <- parseJsonResponse response ;;
  get result "success".

(** [search(query, options = {})]; [options] is the list of properties of
    the options object. *)
Definition search (cfg : Config) (query : value) (options : list (string * value))
  : M value :=
  projectId <- projectOr cfg (JS.member options "projectId") ;;
  let params := URLSearchParams.of_object (JS.spread [("q", query)] options) in
  response <- apiRequest cfg ("/api/projects/" ++ JS.to_string projectId
                              ++ "/notes/search?" ++ URLSearchParams.toString params)
                VUndefined ;;
  result <- parseJsonResponse response ;;
  get result "data".

(** [listNotes(options = {})] *)
Definition listNotes (cfg : Config) (options : list (string * value)) : M value :=
  projectId <- projectOr cfg (JS.member options "projectId") ;;
  let params := URLSearchParams.of_object options in
  response <- apiRequest cfg ("/api/projects/" ++ JS.to_string projectId
                              ++ "/notes?" ++ URLSearchParams.toString params)
                VUndefined ;;
  result <- parseJsonResponse response ;;
  get result "data".

(** [getProjectStats(projectId = null)] *)
Definition getProjectStats (cfg : Config) (projectId : value) : M value :=
  projectId <- projectOr cfg projectId ;;
  response <- apiRequest cfg ("/api/projects/" ++ JS.to_string projectId ++ "/stats")
                VUndefined ;;
  result <- parseJsonResponse response ;;
  get result "data".

(** The body sent by [registerWebhook()]. *)
Definition registration (cfg : Config) (url : string) : value :=
  VObject [("url", VString url);
           ("events", VArray [VString "created"; VString "updated"; VString "deleted"]);
           ("config", VObject [("timeout", JS.int 5000);
                               ("secret", match wh_secret (webhook cfg) with
                                          | Some secret => VString secret
                                          | None => VUndefined
                                          end)])].

(** [registerWebhook()] *)
Definition registerWebhook (client : t) : M unit :=
  let cfg := config client in
  if negb (truthy_str (webhookUrl client)) then ret tt
  else
    let url := match webhookUrl client with Some u => u | None => EmptyString end in
    try_catch
      (console "log" ("🔍 Registering webhook to: " ++ apiUrl cfg ++ "/api/webhooks") ;;;
       apiRequest cfg "/api/webhooks"
         (VObject [("method", VString "POST");
                   ("body", stringified (registration cfg url))]) ;;;
       when (logging_enabled cfg) (console "log" ("📡 Webhook registered: " ++ url)))
      (fun error =>
         console "warn" ("Failed to register webhook: " ++ err_message error)).

(** [unregisterWebhook()] *)
Definition unregisterWebhook (client : t) : M unit :=
  let cfg := config client in
  if negb (truthy_str (webhookUrl client)) then ret tt
  else
    let url := match webhookUrl client with Some u => u | None => EmptyString end in
    try_catch
      (console "log" ("🔍 Unregistering webhook from: " ++ apiUrl cfg ++ "/api/webhooks") ;;;
       apiRequest cfg "/api/webhooks"
         (VObject [("method", VString "DELETE");
                   ("body", stringified (VObject [("url", VString url)]))]) ;;;
       ret tt)
      (fun error =>
         console "warn" ("Failed to unregister webhook: " ++ err_message error)).

End Client.

(** ** The specification's reading of a credential

    [role-project-secret]: the project is the text strictly between the first
    and the last dash, that is, the segments other than the first and the
    last, joined again by dashes.  This definition follows the wording of the
    specification and is compared below with what the two implementations
    compute. *)
Definition between_dashes (key : string) : string :=
  Str.join (String dash EmptyString) (removelast (tl (Str.split dash key))).

(** A configuration from which no tenant can be derived: no explicit project
    and a credential that is absent or has no dash. *)
Definition no_tenant (cfg : Config) : Prop :=
  truthy_str (projectId cfg) = false
  /\ (apiKey cfg = None
      \/ exists key, apiKey cfg = Some key /\ Str.lacks dash key = true).

(** The key used by the package's own [test-client.js]; its project name
    contains a dash. *)
Definition test_client_key : string := "hr-test-project-3saML26ipBq91vNz".

Definition local_webhook : WebhookConfig := mkWebhook true 0 "/webhook" None.

Definition default_http : HttpConfig := mkHttp 5000 3 1000.

(** The defaults of [config.js] with a credential and no explicit project. *)
Definition config_with_key (key : option string) : Config :=
  mkConfig "http://localhost:3000" key None local_webhook default_http true.

(** The pauses and the number of requests recorded in a trace. *)
Fixpoint sleeps (tr : list event) : list Z :=
  match tr with
  | [] => []
  | EvSleep ms :: rest => ms :: sleeps rest
  | _ :: rest => sleeps rest
  end.

Fixpoint requests (tr : list event) : nat :=
  match tr with
  | [] => 0%nat
  | EvFetch _ _ :: rest => S (requests rest)
  | _ :: rest => requests rest
  end.

(** The events emitted on the event channel, in order. *)
Fixpoint emitted (tr : list event) : list (string * value) :=
  match tr with
  | [] => []
  | EvEmit name payload :: rest => (name, payload) :: emitted rest
  | _ :: rest => emitted rest
  end.

(** A remote that answers every request of the client with status 500. *)
Definition always_failing : nat -> string -> value -> fetch_outcome :=
  fun _ _ _ => Resolves (mkResponse 500 "Internal Server Error" None EmptyString).

(** A remote that answers 500 twice and 200 from then on. *)
Definition failing_twice : nat -> string -> value -> fetch_outcome :=
  fun n _ _ =>
    if Nat.ltb n 2
    then Resolves (mkResponse 500 "Internal Server Error" None EmptyString)
    else Resolves (mkResponse 200 "OK" None "fine").

Definition plain_engine : engine :=
  mkEngine (fun _ => "Unexpected token") (fun _ => false)
           (fun _ => "0") (fun _ => "0").

(** An environment with the given remote, a fixed clock and no listener. *)
Definition env_with (r : nat -> string -> value -> fetch_outcome) : env :=
  mkEnv r (fun _ => "2024-01-01T00:00:00.000Z") (fun _ => []) plain_engine.

(** Every listener registered for [name] returns normally on [payload]. *)
Definition quiet (e : env) (name : string) (payload : value) : Prop :=
  Forall (fun listener => listener payload = None) (listeners e name).

(** The error with which [emit] fails on [payload]: that of the first
    listener that throws, if there is one. *)
Fixpoint first_error (ls : list (value -> option error)) (payload : value)
  : option error :=
  match ls with
  | [] => None
  | l :: rest =>
      match l payload with
      | Some err => Some err
      | None => first_error rest payload
      end
  end.

(** The [event] member read by the webhook handler from a parsed body that
    is not [null]: only an object can have one. *)
Definition event_field (data : value) : value :=
  match data with
  | VObject props => JS.member props "event"
  | _ => VUndefined
  end.

(** The event kinds the handler knows. *)
Definition recognized (event : value) : bool :=
  JS.is_string event "created" || JS.is_string event "updated"
  || JS.is_string event "deleted".

(** The reply to a webhook that was accepted. *)
Definition accepted : Client.Reply :=
  Client.mkReply 200 [("Content-Type", "application/json")]
    (JSON.text "{'success':true}").

Definition created_body : string :=
  JSON.text "{'event':'created','data':{'id':1}}".

Definition created_envelope : value :=
  VObject [("event", VString "created");
           ("data", VObject [("id", JS.int 1)])].

(** A well-formed webhook body of a kind the handler does not know. *)
Definition archived_body : string :=
  JSON.text "{'event':'archived','data':{'id':1}}".

Definition archived_envelope : value :=
  VObject [("event", VString "archived");
           ("data", VObject [("id", JS.int 1)])].

(** A provider whose catalog cannot be enumerated, and a router that has it
    registered after the note provider. *)
Definition broken_provider : Server.Handler :=
  Server.mkHandler (Some (throw (Error "catalog unavailable")))
                   (Some (fun _ => ret false))
                   BaseHandler.handleTool.

Definition router_with_broken_provider : Server.t :=
  Server.mkServer (config_with_key (Some "employee-myproject-secret123"))
    "myproject"
    [Server.noteHandler (config_with_key (Some "employee-myproject-secret123"));
     broken_provider].

(** The catalogs of the five providers of the package, in the order in which
    the constructor registers them. *)
Definition catalog : list Tool :=
  (NoteHandler.getTools ++ SearchHandler.getTools ++ ProjectHandler.getTools
   ++ StatsHandler.getTools ++ CrossReferenceHandler.getTools)%list.

(** A provider does not claim a tool name: it has no [canHandleTool], or its
    [canHandleTool] answers [false]. *)
Definition declines (name : string) (handler : Server.Handler) : Prop :=
  match Server.canHandleTool handler with
  | None => True
  | Some can_handle => forall e st, can_handle name e st = (Returned false, st)
  end.

(** The result a provider returns for a call that lacks required keys. *)
Definition validation_failure (tool : string) (missing : list string)
    (timestamp : string) : value :=
  VObject [("success", VBool false);
           ("error", VString ("Missing required parameters: "
                              ++ Str.join ", " missing));
           ("tool", VString tool);
           ("timestamp", VString timestamp)].

(** The text of the error reply of [CallTool]. *)
Definition error_text (message tool timestamp : string) : string :=
  ("{" ++ JSON.newline
   ++ "  " ++ JSON.quote "error" ++ ": " ++ JSON.quote message ++ ","
   ++ JSON.newline
   ++ "  " ++ JSON.quote "tool" ++ ": " ++ JSON.quote tool ++ ","
   ++ JSON.newline
   ++ "  " ++ JSON.quote "timestamp" ++ ": " ++ JSON.quote timestamp
   ++ JSON.newline ++ "}")%string.

(** The state after [log] has run for a failed call: when logging is
    enabled, the clock is read and a line written. *)
Definition after_log (srv : Server.t) (e : env) (line : string) (s : state)
  : state :=
  if logging_enabled (Server.config srv)
  then after_console "error"
         ("[" ++ clock e (ticks s) ++ "] [ERROR] " ++ line) (after_tick s)
  else s.

(** The session of the end-to-end scenario. *)
Definition session_key : string := "employee-myproject-secret123".

Definition note_response : response :=
  mkResponse 200 "OK" (Some "application/json")
    (JSON.text "{'data':{'id':5,'title':'x'}}").

Definition note_remote : nat -> string -> value -> fetch_outcome :=
  fun _ _ _ => Resolves note_response.

(** The server the constructor builds for the session's configuration. *)
Definition session_server : Server.t :=
  let cfg := config_with_key (Some session_key) in
  Server.mkServer cfg "myproject"
    [Server.noteHandler cfg; Server.searchHandler cfg; Server.projectHandler cfg;
     Server.statsHandler cfg; Server.crossReferenceHandler cfg].

(** The options object a handler passes to [fetch] for the options [props]
    of [apiRequest]. *)
Definition handler_request (cfg : Config) (props : list (string * value)) : value :=
  VObject (BaseHandler.fetchOptions cfg (VObject props)
             (BaseHandler.requestHeaders cfg (JS.member props "headers"))
             (JS.member props "body")).

(** The headers a handler sends of its own accord: the content type, and the
    key when there is one. *)
Definition default_headers (cfg : Config) : list (string * value) :=
  ("Content-Type", VString "application/json")
  :: match apiKey cfg with
     | Some key =>
         if String.eqb key EmptyString then [] else [("X-API-Key", VString key)]
     | None => []
     end.

(** The message of a failure to reach the API. *)
Definition connection_failure (cfg : Config) : error :=
  Error ("Failed to connect to API at " ++ apiUrl cfg
         ++ ". Please ensure the server is running.").

(** A result envelope of a tool: an object with a boolean [success]
    member. *)
Definition is_envelope (v : value) : bool :=
  match v with
  | VObject props =>
      match JS.lookup "success" props with
      | Some (VBool _) => true
      | _ => false
      end
  | _ => false
  end.

(** Whatever a computation returns satisfies [P]; it may also throw. *)
Definition returns_only {A : Type} (P : A -> Prop) (m : M A) : Prop :=
  forall (e : env) (st : state),
    match fst (m e st) with
    | Returned a => P a
    | Thrown _ => True
    end.

(** A computation never throws, and what it returns satisfies [P]. *)
Definition always_returns {A : Type} (P : A -> Prop) (m : M A) : Prop :=
  forall (e : env) (st : state),
    exists (a : A) (st' : state), m e st = (Returned a, st') /\ P a.

(** The [success] member of an envelope. *)
Definition success_of (v : value) : value := JS.member (JS.props_of v) "success".

(** [Array.isArray(v)] *)
Definition is_array (v : value) : bool :=
  match v with VArray _ => true | _ => false end.

(** The message of the call of a method the response builder does not
    have. *)
Definition missing_builder : string :=
  "this.responseBuilder.buildResponse is not a function".

(** The message of [update_note] when the arguments name nothing to
    change. *)
Definition no_updates : string :=
  "No updates specified. Provide old_str/new_str for content updates or title/tags/virtual_folder for metadata updates.".

(** A computation sends at most [n] requests, however it ends. *)
Definition sends_at_most {A : Type} (n : nat) (m : M A) : Prop :=
  forall (e : env) (st : state),
    (requests (trace (snd (m e st))) <= requests (trace st) + n)%nat.

(** * Theorems *)

(** * Facts about computations *)

Lemma bind_ret {A B : Type} (a : A) (k : A -> M B) (e : env) (st : state) :
  bind (ret a) k e st = k a e st.
Proof. reflexivity. Qed.

Lemma bind_ext {A B : Type} (m : M A) (k1 k2 : A -> M B) (e : env) (st : state) :
  (forall a e' st', k1 a e' st' = k2 a e' st') ->
  bind m k1 e st = bind m k2 e st.
Proof.
  intros H. unfold bind. destruct (m e st) as [[a|err] st1]; [apply H | reflexivity].
Qed.

Lemma try_catch_ext {A : Type} (m : M A) (h1 h2 : error -> M A) (e : env) (st : state) :
  (forall err e' st', h1 err e' st' = h2 err e' st') ->
  try_catch m h1 e st = try_catch m h2 e st.
Proof.
  intros H. unfold try_catch. destruct (m e st) as [[a|err] st1]; [reflexivity | apply H].
Qed.


(** * Facts about the string primitives *)

Section StringFacts.

Variable c : ascii.

Lemma append_assoc (x y z : string) : ((x ++ y) ++ z)%string = (x ++ y ++ z)%string.
Proof. induction x as [|a x IH]; simpl; [reflexivity | now rewrite IH]. Qed.

Lemma length_append (x y : string) :
  String.length (x ++ y) = (String.length x + String.length y)%nat.
Proof. induction x as [|a x IH]; simpl; [reflexivity | now rewrite IH]. Qed.

Lemma split_nonempty (s : string) : Str.split c s <> [].
Proof.
  destruct s as [|a s]; simpl; [discriminate|].
  destruct (Ascii.eqb a c); [discriminate|].
  destruct (Str.split c s); discriminate.
Qed.

(** Splitting distributes over a separator. *)
Lemma split_append (x y : string) :
  Str.split c (x ++ String c y) = (Str.split c x ++ Str.split c y)%list.
Proof.
  induction x as [|a x IH]; simpl.
  - now rewrite Ascii.eqb_refl.
  - destruct (Ascii.eqb a c); [now rewrite IH|].
    rewrite IH. destruct (Str.split c x) eqn:E; [now apply split_nonempty in E|].
    reflexivity.
Qed.

Lemma split_lacks (s : string) : Str.lacks c s = true -> Str.split c s = [s].
Proof.
  induction s as [|a s IH]; simpl; [reflexivity|].
  destruct (Ascii.eqb a c); simpl; [discriminate|].
  intros H. now rewrite IH.
Qed.

(** Every piece of a split is free of the separator. *)
Lemma split_pieces_lack (s : string) :
  Forall (fun p => Str.lacks c p = true) (Str.split c s).
Proof.
  induction s as [|a s IH]; simpl.
  - now constructor.
  - destruct (Ascii.eqb a c) eqn:E.
    + now constructor.
    + destruct (Str.split c s) as [|p ps].
      * repeat constructor. simpl. now rewrite E.
      * inversion IH as [|? ? Hp Hps]; subst.
        constructor; [simpl; rewrite E; exact Hp | exact Hps].
Qed.

(** Joining the pieces with the separator gives the string back. *)
Lemma join_split (s : string) :
  Str.join (String c EmptyString) (Str.split c s) = s.
Proof.
  induction s as [|a s IH]; simpl; [reflexivity|].
  destruct (Ascii.eqb_spec a c) as [->|_].
  - destruct (Str.split c s) eqn:E; [now apply split_nonempty in E|].
    simpl in *. now rewrite IH.
  - destruct (Str.split c s) as [|p ps] eqn:E; [now apply split_nonempty in E|].
    rewrite <- IH. destruct ps; reflexivity.
Qed.

Lemma indexOf_from_append (x rest : string) (i : Z) :
  Str.lacks c x = true ->
  Str.indexOf_from c (x ++ String c rest) i = i + Z.of_nat (String.length x).
Proof.
  revert i. induction x as [|a x IH]; simpl; intros i H.
  - rewrite Ascii.eqb_refl. lia.
  - destruct (Ascii.eqb a c); simpl in H; [discriminate|].
    rewrite IH by assumption. lia.
Qed.

Lemma indexOf_from_lacks (x : string) (i : Z) :
  Str.lacks c x = true -> Str.indexOf_from c x i = -1.
Proof.
  revert i. induction x as [|a x IH]; simpl; intros i H; [reflexivity|].
  destruct (Ascii.eqb a c); simpl in H; [discriminate|]. now apply IH.
Qed.

Lemma lastIndexOf_from_append (x y : string) (i acc : Z) :
  Str.lastIndexOf_from c (x ++ y) i acc
  = Str.lastIndexOf_from c y (i + Z.of_nat (String.length x))
      (Str.lastIndexOf_from c x i acc).
Proof.
  revert i acc. induction x as [|a x IH]; simpl; intros i acc.
  - f_equal. lia.
  - rewrite IH. f_equal. lia.
Qed.

Lemma lastIndexOf_from_lacks (x : string) (i acc : Z) :
  Str.lacks c x = true -> Str.lastIndexOf_from c x i acc = acc.
Proof.
  revert i acc. induction x as [|a x IH]; simpl; intros i acc H; [reflexivity|].
  destruct (Ascii.eqb a c); simpl in H; [discriminate|]. now apply IH.
Qed.

Lemma lastIndexOf_append (x b : string) :
  Str.lacks c b = true ->
  Str.lastIndexOf c (x ++ String c b) = Z.of_nat (String.length x).
Proof.
  intros H. unfold Str.lastIndexOf. rewrite lastIndexOf_from_append. simpl.
  rewrite Ascii.eqb_refl. now rewrite lastIndexOf_from_lacks.
Qed.

End StringFacts.

Lemma substring_middle (x p z : string) :
  String.substring (String.length x) (String.length p) (x ++ p ++ z) = p.
Proof.
  induction x as [|a x IH]; simpl; [|exact IH].
  induction p as [|b p IHp]; simpl.
  - destruct z; reflexivity.
  - now rewrite IHp.
Qed.

(** The text between two positions of a string that frame [p]. *)
Lemma substring_between (x p z : string) :
  Str.substring (x ++ p ++ z)
    (Z.of_nat (String.length x))
    (Z.of_nat (String.length x) + Z.of_nat (String.length p)) = p.
Proof.
  unfold Str.substring, Str.clamp.
  rewrite !length_append.
  set (lx := String.length x). set (lp := String.length p). set (lz := String.length z).
  replace (Z.min (Z.max 0 (Z.min (Z.of_nat lx) (Z.of_nat (lx + (lp + lz)))))
             (Z.max 0 (Z.min (Z.of_nat lx + Z.of_nat lp) (Z.of_nat (lx + (lp + lz))))))
    with (Z.of_nat lx) by lia.
  replace (Z.max (Z.max 0 (Z.min (Z.of_nat lx) (Z.of_nat (lx + (lp + lz)))))
             (Z.max 0 (Z.min (Z.of_nat lx + Z.of_nat lp) (Z.of_nat (lx + (lp + lz)))))
           - Z.of_nat lx)
    with (Z.of_nat lp) by lia.
  rewrite !Nat2Z.id. apply substring_middle.
Qed.

(** * Identity resolution *)

Lemma join_snoc (sep : string) (mid : list string) (b : string) :
  mid <> [] ->
  Str.join sep (mid ++ [b])%list = (Str.join sep mid ++ sep ++ b)%string.
Proof.
  induction mid as [|x mid IH]; [congruence|]. intros _.
  destruct mid as [|y mid].
  - reflexivity.
  - change (Str.join sep ((x :: y :: mid) ++ [b])%list)
      with (x ++ sep ++ Str.join sep ((y :: mid) ++ [b])%list)%string.
    rewrite IH by discriminate.
    change (Str.join sep (x :: y :: mid)) with (x ++ sep ++ Str.join sep (y :: mid))%string.
    now rewrite !append_assoc.
Qed.

Lemma append_dash_nonempty (a rest : string) :
  String.eqb (a ++ String dash rest) EmptyString = false.
Proof. destruct a; reflexivity. Qed.

(** A credential with at least three segments frames its middle part, the
    text between the first and the last dash, by two dash-free ends. *)
Lemma three_segments_frame (key : string) :
  (3 <= List.length (Str.split dash key))%nat ->
  exists a b,
    key = (a ++ String dash (between_dashes key ++ String dash b))%string
    /\ Str.lacks dash a = true /\ Str.lacks dash b = true.
Proof.
  intros Hlen. unfold between_dashes.
  pose proof (join_split dash key) as Hjoin.
  pose proof (split_pieces_lack dash key) as Hlack.
  destruct (Str.split dash key) as [|a rest] eqn:E; [simpl in Hlen; lia|].
  assert (Hrest : rest <> []) by (destruct rest; [simpl in Hlen; lia | discriminate]).
  destruct (exists_last Hrest) as [mid [b Hmid]]. subst rest.
  assert (Hm : mid <> []) by
    (destruct mid; [simpl in Hlen; lia | discriminate]).
  exists a, b. simpl tl. rewrite removelast_last.
  pose proof (Forall_inv Hlack) as Ha.
  pose proof (Forall_inv_tail Hlack) as Hrest'.
  apply Forall_app in Hrest' as [_ Hb]. apply Forall_inv in Hb.
  repeat split; try assumption.
  rewrite <- Hjoin.
  change (Str.join (String dash EmptyString) (a :: (mid ++ [b])%list))
    with (match (mid ++ [b])%list with
          | [] => a
          | _ => (a ++ String dash EmptyString ++ Str.join (String dash EmptyString) (mid ++ [b])%list)%string
          end).
  destruct (mid ++ [b])%list eqn:E2; [now destruct mid|]. rewrite <- E2.
  rewrite join_snoc by assumption. reflexivity.
Qed.

Lemma split_framed (a p b : string) :
  Str.lacks dash a = true -> Str.lacks dash b = true ->
  Str.split dash (a ++ String dash (p ++ String dash b))
  = (a :: Str.split dash p ++ [b])%list.
Proof.
  intros Ha Hb. rewrite !split_append, (split_lacks dash a Ha), (split_lacks dash b Hb).
  reflexivity.
Qed.

(** The client returns the framed middle part. *)
Lemma client_project_framed (cfg : Config) (a p b : string) :
  truthy_str (projectId cfg) = false ->
  apiKey cfg = Some (a ++ String dash (p ++ String dash b))%string ->
  Str.lacks dash a = true -> Str.lacks dash b = true ->
  Client.getProjectFromApiKey cfg = Returned p.
Proof.
  intros Hproj Hkey Ha Hb. unfold Client.getProjectFromApiKey.
  rewrite Hkey.
  assert (Hres :
    (if negb (truthy_str (Some (a ++ String dash (p ++ String dash b))%string))
     then Thrown (Error "No API key configured")
     else
       let parts := Str.split dash (a ++ String dash (p ++ String dash b)) in
       if 3 <=? Z.of_nat (List.length parts)
       then
         let firstDashIndex := Str.indexOf dash (a ++ String dash (p ++ String dash b)) in
         let lastDashIndex := Str.lastIndexOf dash (a ++ String dash (p ++ String dash b)) in
         if negb (firstDashIndex =? lastDashIndex) && (0 <=? firstDashIndex)
         then Returned (Str.substring (a ++ String dash (p ++ String dash b))
                          (firstDashIndex + 1) lastDashIndex)
         else Returned (nth 1 parts EmptyString)
       else Returned "default") = Returned p).
  { unfold truthy_str. rewrite append_dash_nonempty. cbn [negb].
    cbv zeta. rewrite split_framed by assumption.
    assert (Hl : (3 <=? Z.of_nat (List.length (a :: Str.split dash p ++ [b])%list)) = true).
    { apply Z.leb_le. cbn [List.length]. rewrite length_app. cbn [List.length].
      pose proof (split_nonempty dash p). destruct (Str.split dash p); [congruence|].
      cbn [List.length]. lia. }
    rewrite Hl.
    unfold Str.indexOf. rewrite indexOf_from_append by assumption.
    replace (a ++ String dash (p ++ String dash b))%string
      with ((a ++ String dash p) ++ String dash b)%string
      by (rewrite append_assoc; reflexivity).
    rewrite lastIndexOf_append by assumption.
    rewrite length_append. cbn [String.length].
    assert (Hne : (0 + Z.of_nat (String.length a)
                   =? Z.of_nat (String.length a + S (String.length p))) = false)
      by (apply Z.eqb_neq; lia).
    rewrite Hne.
    assert (Hpos : (0 <=? 0 + Z.of_nat (String.length a)) = true)
      by (apply Z.leb_le; lia).
    rewrite Hpos. cbn [negb andb]. f_equal.
    replace ((a ++ String dash p) ++ String dash b)%string
      with ((a ++ String dash EmptyString) ++ p ++ String dash b)%string
      by (rewrite !append_assoc; reflexivity).
    replace (0 + Z.of_nat (String.length a) + 1)
      with (Z.of_nat (String.length (a ++ String dash EmptyString)))
      by (rewrite length_append; cbn [String.length]; lia).
    replace (Z.of_nat (String.length a + S (String.length p)))
      with (Z.of_nat (String.length (a ++ String dash EmptyString))
            + Z.of_nat (String.length p))
      by (rewrite length_append; cbn [String.length]; lia).
    apply substring_between. }
  destruct (projectId cfg) as [q|]; [|exact Hres].
  rewrite Hproj. exact Hres.
Qed.

(** The client's extraction, in the words of the specification: for a
    credential of at least three segments and no explicit project, the result
    is the text strictly between the first and the last dash. *)
Lemma client_project_between_dashes (cfg : Config) (key : string) :
  truthy_str (projectId cfg) = false ->
  apiKey cfg = Some key ->
  (3 <= List.length (Str.split dash key))%nat ->
  Client.getProjectFromApiKey cfg = Returned (between_dashes key).
Proof.
  intros Hproj Hkey Hlen.
  destruct (three_segments_frame key Hlen) as (a & b & Heq & Ha & Hb).
  apply (client_project_framed cfg a (between_dashes key) b); try assumption.
  now rewrite <- Heq.
Qed.

(** The server returns the second segment, whatever follows it. *)
Lemma server_project_second_segment (cfg : Config) (key : string) :
  apiKey cfg = Some key ->
  (3 <= List.length (Str.split dash key))%nat ->
  Server.extractProjectFromApiKey cfg = nth_error (Str.split dash key) 1.
Proof.
  intros Hkey Hlen. unfold Server.extractProjectFromApiKey. rewrite Hkey.
  destruct (three_segments_frame key Hlen) as (a & b & Heq & _ & _).
  unfold truthy_str. rewrite Heq at 1. rewrite append_dash_nonempty. cbn [negb].
  cbv zeta.
  replace (3 <=? Z.of_nat (List.length (Str.split dash key))) with true
    by (symmetry; apply Z.leb_le; lia).
  reflexivity.
Qed.

(** With exactly three segments both implementations agree. *)
Lemma server_project_three_segments (cfg : Config) (key : string) :
  apiKey cfg = Some key ->
  List.length (Str.split dash key) = 3%nat ->
  Server.extractProjectFromApiKey cfg = Some (between_dashes key).
Proof.
  intros Hkey Hlen. rewrite (server_project_second_segment cfg key Hkey) by lia.
  unfold between_dashes.
  destruct (Str.split dash key) as [|a [|p [|b [|? ?]]]]; try discriminate.
  reflexivity.
Qed.

(** C2: for a credential with at least three segments and no explicit
    project, the project is the text strictly between the first and the last
    dash, in the client and in the server alike.  The client does so
    ([client_project_between_dashes]); the server does not: on the key of the
    package's own test client, [hr-test-project-3saML26ipBq91vNz], the text
    between the outer dashes is [test-project], which is what the client
    returns, while the server stops at the second dash and starts its session
    for project [test]. *)
Theorem server_project_stops_at_second_dash :
  forall (url : string) (wh : WebhookConfig) (ht : HttpConfig) (lg : bool),
    let cfg := mkConfig url (Some test_client_key) None wh ht lg in
    (3 <= List.length (Str.split dash test_client_key))%nat
    /\ between_dashes test_client_key = "test-project"
    /\ Client.getProjectFromApiKey cfg = Returned "test-project"
    /\ Server.extractProjectFromApiKey cfg = Some "test"
    /\ exists srv, Server.construct cfg = Returned srv /\ Server.project srv = "test".
Proof.
  intros url wh ht lg cfg. repeat split.
  - vm_compute. lia.
  - unfold Server.construct. cbn. eexists. split; reflexivity.
Qed.

(** C5, as stated, fails on the client: with no explicit project and the
    dash-free credential [secret], the constructor succeeds and identity
    resolution returns the project [default] instead of failing. *)
Lemma client_falls_back_to_default :
  no_tenant (config_with_key (Some "secret"))
  /\ Client.construct (config_with_key (Some "secret"))
     = Returned (Client.mkClient (config_with_key (Some "secret")) false None)
  /\ Client.getProjectFromApiKey (config_with_key (Some "secret"))
     = Returned "default".
Proof.
  repeat split. right. exists "secret". split; reflexivity.
Qed.

Lemma lacks_split_length (key : string) :
  Str.lacks dash key = true -> List.length (Str.split dash key) = 1%nat.
Proof. intros H. now rewrite (split_lacks dash key H). Qed.

(** C5, amended: with no explicit project and a credential that is absent or
    has no dash, the server's constructor throws.  The client's constructor
    never throws; its [getProjectFromApiKey] throws when there is no
    credential (or an empty one) and returns [default] for every other
    credential without a dash. *)
Theorem identity_without_tenant (cfg : Config) :
  no_tenant cfg ->
  Server.construct cfg
  = Thrown (Error "No valid project found. Set PROJECT_ID or use API key format: role-project-secret")
  /\ Client.construct cfg = Returned (Client.mkClient cfg false None)
  /\ (truthy_str (apiKey cfg) = false ->
      Client.getProjectFromApiKey cfg = Thrown (Error "No API key configured"))
  /\ (truthy_str (apiKey cfg) = true ->
      Client.getProjectFromApiKey cfg = Returned "default").
Proof.
  intros [Hproj Hkey].
  assert (Hextract : Server.extractProjectFromApiKey cfg = None).
  { unfold Server.extractProjectFromApiKey.
    destruct Hkey as [-> | (key & -> & Hlack)]; [reflexivity|].
    destruct (negb (truthy_str (Some key))); [reflexivity|].
    cbv zeta. now rewrite (lacks_split_length key Hlack). }
  assert (Hclient :
    Client.getProjectFromApiKey cfg
    = match apiKey cfg with
      | None => Thrown (Error "No API key configured")
      | Some key =>
          if negb (truthy_str (Some key))
          then Thrown (Error "No API key configured")
          else Returned "default"
      end).
  { unfold Client.getProjectFromApiKey.
    assert (Hbody :
      match apiKey cfg with
      | None => Thrown (Error "No API key configured")
      | Some key =>
          if negb (truthy_str (Some key))
          then Thrown (Error "No API key configured")
          else
            let parts := Str.split dash key in
            if 3 <=? Z.of_nat (List.length parts)
            then
              let firstDashIndex := Str.indexOf dash key in
              let lastDashIndex := Str.lastIndexOf dash key in
              if negb (firstDashIndex =? lastDashIndex) && (0 <=? firstDashIndex)
              then Returned (Str.substring key (firstDashIndex + 1) lastDashIndex)
              else Returned (nth 1 parts EmptyString)
            else Returned "default"
      end
      = match apiKey cfg with
        | None => Thrown (Error "No API key configured")
        | Some key =>
            if negb (truthy_str (Some key))
            then Thrown (Error "No API key configured")
            else Returned "default"
        end).
    { destruct Hkey as [-> | (key & -> & Hlack)]; [reflexivity|].
      destruct (negb (truthy_str (Some key))); [reflexivity|].
      cbv zeta. now rewrite (lacks_split_length key Hlack). }
    destruct (projectId cfg) as [p|]; [rewrite Hproj|]; exact Hbody. }
  repeat split.
  - unfold Server.construct. rewrite Hproj, Hextract. reflexivity.
  - intros Hk. rewrite Hclient. destruct (apiKey cfg); [now rewrite Hk|reflexivity].
  - intros Hk. rewrite Hclient. destruct (apiKey cfg); [now rewrite Hk|discriminate].
Qed.

Lemma identity_without_tenant_witness :
  no_tenant (config_with_key (Some "secret"))
  /\ Server.construct (config_with_key (Some "secret"))
     = Thrown (Error "No valid project found. Set PROJECT_ID or use API key format: role-project-secret")
  /\ Client.getProjectFromApiKey (config_with_key (Some "secret")) = Returned "default".
Proof.
  assert (H : no_tenant (config_with_key (Some "secret")))
    by (split; [reflexivity | right; exists "secret"; split; reflexivity]).
  split; [exact H|].
  destruct (identity_without_tenant (config_with_key (Some "secret")) H)
    as (Hs & _ & _ & Hc).
  split; [exact Hs | apply Hc; reflexivity].
Defined.

(** * The client's retry loop *)

Section Retry.

Variables (cfg : Config) (url : string) (fo : value) (e : env).

Let limit := retries (http cfg).
Let delay := retryDelay (http cfg).

Lemma gtb_false (a b : Z) : a <= b -> (a >? b) = false.
Proof. intros H. rewrite Z.gtb_ltb. apply Z.ltb_ge. lia. Qed.

Lemma gtb_true (a b : Z) : b < a -> (a >? b) = true.
Proof. intros H. rewrite Z.gtb_ltb. apply Z.ltb_lt. lia. Qed.

Lemma attempt_once_fails (st : state) (err : error) :
  Client.failure_of (remote e (fetched st) url fo) = Some err ->
  Client.attempt_once url fo e st = (Thrown err, after_fetch url fo st).
Proof.
  unfold Client.attempt_once, Client.failure_of, bind, fetch, after_fetch.
  destruct (remote e (fetched st) url fo) as [r|err'].
  - destruct (ok r); [discriminate|]. intros [= <-]. reflexivity.
  - intros [= <-]. reflexivity.
Qed.

Lemma attempt_once_succeeds (st : state) (r : response) :
  remote e (fetched st) url fo = Resolves r -> ok r = true ->
  Client.attempt_once url fo e st = (Returned r, after_fetch url fo st).
Proof.
  unfold Client.attempt_once, bind, fetch, after_fetch.
  intros -> Hok. now rewrite Hok.
Qed.

(** A failed pass that is not the last one: sleep, then loop. *)
Lemma retry_loop_again (passes : nat) (attempt : Z) (st : state) (err : error) :
  attempt <= limit -> attempt + 1 <= limit ->
  Client.failure_of (remote e (fetched st) url fo) = Some err ->
  Client.retry_loop (S passes) cfg url fo attempt e st
  = Client.retry_loop passes cfg url fo (attempt + 1) e
      (after_sleep (delay * (attempt + 1)) (after_fetch url fo st)).
Proof.
  intros H1 H2 Hf. cbn [Client.retry_loop]. fold limit delay.
  replace (attempt <=? limit) with true by (symmetry; apply Z.leb_le; lia).
  unfold try_catch at 1. unfold bind at 1.
  rewrite (attempt_once_fails st err Hf).
  rewrite gtb_false by lia.
  reflexivity.
Qed.

(** A failed pass that exhausts the budget: the error is thrown. *)
Lemma retry_loop_gives_up (passes : nat) (attempt : Z) (st : state) (err : error) :
  attempt <= limit -> limit < attempt + 1 ->
  Client.failure_of (remote e (fetched st) url fo) = Some err ->
  Client.retry_loop (S passes) cfg url fo attempt e st
  = (Thrown err, after_fetch url fo st).
Proof.
  intros H1 H2 Hf. cbn [Client.retry_loop]. fold limit.
  replace (attempt <=? limit) with true by (symmetry; apply Z.leb_le; lia).
  unfold try_catch at 1. unfold bind at 1.
  rewrite (attempt_once_fails st err Hf).
  rewrite gtb_true by lia.
  reflexivity.
Qed.

Lemma retry_loop_returns (passes : nat) (attempt : Z) (st : state) (r : response) :
  attempt <= limit ->
  remote e (fetched st) url fo = Resolves r -> ok r = true ->
  Client.retry_loop (S passes) cfg url fo attempt e st
  = (Returned (Some r), after_fetch url fo st).
Proof.
  intros H1 Hr Hok. cbn [Client.retry_loop]. fold limit.
  replace (attempt <=? limit) with true by (symmetry; apply Z.leb_le; lia).
  unfold try_catch at 1. unfold bind at 1.
  rewrite (attempt_once_succeeds st r Hr Hok). reflexivity.
Qed.

End Retry.

Lemma sleeps_app (a b : list event) : sleeps (a ++ b) = (sleeps a ++ sleeps b)%list.
Proof.
  induction a as [|x a IH]; [reflexivity|].
  destruct x; simpl; rewrite IH; reflexivity.
Qed.

Lemma requests_app (a b : list event) :
  requests (a ++ b) = (requests a + requests b)%nat.
Proof.
  induction a as [|x a IH]; [reflexivity|].
  destruct x; simpl; rewrite IH; reflexivity.
Qed.

(** Against a remote that fails every request, the loop makes one attempt
    per pass the limit allows, pauses [retryDelay * k] before the attempt
    that follows the [k]-th failure, and throws the error of the last
    attempt. *)
Lemma retry_loop_exhausts (cfg : Config) (url : string) (fo : value) (e : env) :
  forall (passes : nat) (attempt : Z) (st : state),
    0 <= attempt <= retries (http cfg) ->
    passes = Z.to_nat (retries (http cfg) + 1 - attempt) ->
    (forall k, exists err,
        Client.failure_of (remote e (fetched st + k) url fo) = Some err) ->
    exists st',
      Client.retry_loop passes cfg url fo attempt e st
      = (match Client.failure_of (remote e (fetched st + passes - 1) url fo) with
         | Some err => Thrown err
         | None => Returned None
         end, st')
      /\ fetched st' = (fetched st + passes)%nat
      /\ requests (trace st') = (requests (trace st) + passes)%nat
      /\ sleeps (trace st')
         = (sleeps (trace st)
            ++ map (fun i => retryDelay (http cfg) * (attempt + Z.of_nat i))
                 (seq 1 (passes - 1)))%list.
Proof.
  induction passes as [|p IH]; intros attempt st Hrange Hp Hfail.
  - exfalso. lia.
  - destruct (Hfail 0%nat) as [err Herr]. rewrite Nat.add_0_r in Herr.
    destruct (Z_le_gt_dec (attempt + 1) (retries (http cfg))) as [Hmore|Hlast].
    + rewrite (retry_loop_again cfg url fo e p attempt st err) by (assumption || lia).
      destruct (IH (attempt + 1)
                  (after_sleep (retryDelay (http cfg) * (attempt + 1))
                     (after_fetch url fo st)))
        as (st' & Hrun & Hf & Hr & Hs).
      * lia.
      * lia.
      * intros k. destruct (Hfail (S k)) as [err' Herr'].
        exists err'. cbn [after_sleep after_fetch fetched].
        now rewrite Nat.add_succ_l, <- Nat.add_succ_r.
      * exists st'. cbn [after_sleep after_fetch fetched trace] in *.
        assert (Hp1 : (1 <= p)%nat) by lia.
        split; [|split; [|split]].
        -- rewrite Hrun.
           replace (S (fetched st) + p - 1)%nat with (fetched st + S p - 1)%nat by lia.
           reflexivity.
        -- lia.
        -- rewrite Hr, !requests_app. simpl. lia.
        -- rewrite Hs, !sleeps_app.
           destruct p as [|q]; [lia|].
           replace (S (S q) - 1)%nat with (S q) by lia.
           replace (S q - 1)%nat with q by lia.
           cbn [sleeps seq map app].
           rewrite app_nil_r, <- app_assoc. apply f_equal.
           cbn [app].
           replace (attempt + Z.of_nat 1) with (attempt + 1) by lia.
           apply f_equal.
           rewrite <- (seq_shift q 1), map_map. apply map_ext.
           intros i. apply f_equal. lia.
    + assert (p = 0%nat) by lia. subst p.
      rewrite (retry_loop_gives_up cfg url fo e 0 attempt st err) by (assumption || lia).
      exists (after_fetch url fo st). cbn [after_fetch fetched trace].
      replace (fetched st + 1 - 1)%nat with (fetched st) by lia.
      rewrite Herr, requests_app, sleeps_app. simpl.
      rewrite app_nil_r. repeat split; lia.
Qed.

(** The passes [apiRequest] allows are exactly those the loop condition
    admits: a larger supply changes nothing. *)
Lemma retry_loop_passes (cfg : Config) (url : string) (fo : value) (passes1 : nat) :
  forall (passes2 : nat) (attempt : Z) (e : env) (st : state),
    (Z.to_nat (retries (http cfg) + 1 - attempt) <= passes1)%nat ->
    (Z.to_nat (retries (http cfg) + 1 - attempt) <= passes2)%nat ->
    Client.retry_loop passes1 cfg url fo attempt e st
    = Client.retry_loop passes2 cfg url fo attempt e st.
Proof.
  induction passes1 as [|passes1 IH]; intros passes2 attempt e st H1 H2.
  - destruct passes2 as [|passes2]; [reflexivity|].
    cbn [Client.retry_loop].
    replace (attempt <=? retries (http cfg)) with false
      by (symmetry; apply Z.leb_gt; lia).
    reflexivity.
  - destruct passes2 as [|passes2].
    + cbn [Client.retry_loop].
      replace (attempt <=? retries (http cfg)) with false
        by (symmetry; apply Z.leb_gt; lia).
      reflexivity.
    + cbn [Client.retry_loop].
      destruct (attempt <=? retries (http cfg)) eqn:Hle; [|reflexivity].
      apply Z.leb_le in Hle.
      apply try_catch_ext. intros err e' st'.
      destruct (attempt + 1 >? retries (http cfg)); [reflexivity|].
      apply bind_ext. intros _ e'' st''.
      apply IH; lia.
Qed.

(** C6: with the retry limit at 3, an endpoint that fails twice and then
    succeeds makes the request succeed after exactly three attempts; an
    endpoint that fails every time makes it fail with the last error after
    exactly four attempts; the pause before the [k]-th retry is
    [retryDelay * k]. *)
Theorem retry_limit_three
    (cfg : Config) (endpoint : string) (options : value) (e : env) (st : state) :
  retries (http cfg) = 3 ->
  let url := (apiUrl cfg ++ endpoint)%string in
  let fo := Client.fetchOptions cfg
              (if JS.is_undefined options then VObject [] else options) in
  let d := retryDelay (http cfg) in
  let n := fetched st in
  (forall (e1 e2 : error) (r : response),
      Client.failure_of (remote e n url fo) = Some e1 ->
      Client.failure_of (remote e (S n) url fo) = Some e2 ->
      remote e (S (S n)) url fo = Resolves r -> ok r = true ->
      Client.apiRequest cfg endpoint options e st
      = (Returned (Some r),
         mkState (S (S (S n))) (ticks st)
           (trace st ++ [EvFetch url fo; EvSleep (d * 1);
                         EvFetch url fo; EvSleep (d * 2);
                         EvFetch url fo])%list))
  /\ (forall (e1 e2 e3 e4 : error),
      Client.failure_of (remote e n url fo) = Some e1 ->
      Client.failure_of (remote e (S n) url fo) = Some e2 ->
      Client.failure_of (remote e (S (S n)) url fo) = Some e3 ->
      Client.failure_of (remote e (S (S (S n))) url fo) = Some e4 ->
      Client.apiRequest cfg endpoint options e st
      = (Thrown e4,
         mkState (S (S (S (S n)))) (ticks st)
           (trace st ++ [EvFetch url fo; EvSleep (d * 1);
                         EvFetch url fo; EvSleep (d * 2);
                         EvFetch url fo; EvSleep (d * 3);
                         EvFetch url fo])%list)).
Proof.
  intros Hlimit url fo d n. unfold Client.apiRequest. fold url fo.
  rewrite Hlimit. change (Z.to_nat (3 + 1)) with 4%nat.
  split.
  - intros e1 e2 r H1 H2 H3 Hok.
    rewrite (retry_loop_again cfg url fo e 3 0 st e1) by (rewrite ?Hlimit; lia || assumption).
    rewrite (retry_loop_again cfg url fo e 2 (0 + 1) _ e2)
      by (rewrite ?Hlimit; lia || assumption).
    rewrite (retry_loop_returns cfg url fo e 1 (0 + 1 + 1) _ r)
      by (rewrite ?Hlimit; lia || assumption).
    unfold after_sleep, after_fetch. cbn [fetched ticks trace].
    rewrite <- !app_assoc. reflexivity.
  - intros e1 e2 e3 e4 H1 H2 H3 H4.
    rewrite (retry_loop_again cfg url fo e 3 0 st e1) by (rewrite ?Hlimit; lia || assumption).
    rewrite (retry_loop_again cfg url fo e 2 (0 + 1) _ e2)
      by (rewrite ?Hlimit; lia || assumption).
    rewrite (retry_loop_again cfg url fo e 1 (0 + 1 + 1) _ e3)
      by (rewrite ?Hlimit; lia || assumption).
    rewrite (retry_loop_gives_up cfg url fo e 0 (0 + 1 + 1 + 1) _ e4)
      by (rewrite ?Hlimit; lia || assumption).
    unfold after_sleep, after_fetch. cbn [fetched ticks trace].
    rewrite <- !app_assoc. reflexivity.
Qed.

Lemma retry_limit_three_witness :
  Client.apiRequest (config_with_key (Some session_key)) "/health" VUndefined
    (env_with failing_twice) initial
  = (Returned (Some (mkResponse 200 "OK" None "fine")),
     mkState 3 0
       [EvFetch "http://localhost:3000/health"
          (Client.fetchOptions (config_with_key (Some session_key)) (VObject []));
        EvSleep (1000 * 1);
        EvFetch "http://localhost:3000/health"
          (Client.fetchOptions (config_with_key (Some session_key)) (VObject []));
        EvSleep (1000 * 2);
        EvFetch "http://localhost:3000/health"
          (Client.fetchOptions (config_with_key (Some session_key)) (VObject []))])
  /\ Client.apiRequest (config_with_key (Some session_key)) "/health" VUndefined
       (env_with always_failing) initial
     = (Thrown (Error "HTTP 500: Internal Server Error"),
        mkState 4 0
          [EvFetch "http://localhost:3000/health"
             (Client.fetchOptions (config_with_key (Some session_key)) (VObject []));
           EvSleep (1000 * 1);
           EvFetch "http://localhost:3000/health"
             (Client.fetchOptions (config_with_key (Some session_key)) (VObject []));
           EvSleep (1000 * 2);
           EvFetch "http://localhost:3000/health"
             (Client.fetchOptions (config_with_key (Some session_key)) (VObject []));
           EvSleep (1000 * 3);
           EvFetch "http://localhost:3000/health"
             (Client.fetchOptions (config_with_key (Some session_key)) (VObject []))]).
Proof.
  split.
  - apply (proj1 (retry_limit_three (config_with_key (Some session_key)) "/health"
                    VUndefined (env_with failing_twice) initial eq_refl)
             (Error "HTTP 500: Internal Server Error")
             (Error "HTTP 500: Internal Server Error")); reflexivity.
  - apply (proj2 (retry_limit_three (config_with_key (Some session_key)) "/health"
                    VUndefined (env_with always_failing) initial eq_refl)
             (Error "HTTP 500: Internal Server Error")
             (Error "HTTP 500: Internal Server Error")
             (Error "HTTP 500: Internal Server Error")); reflexivity.
Defined.


(** * The handlers' HTTP path *)

Lemma lookup_set (k k' : string) (v : value) (l : list (string * value)) :
  JS.lookup k (JS.set k' v l)
  = if String.eqb k' k then Some v else JS.lookup k l.
Proof.
  induction l as [|[k0 v0] l IH]; simpl.
  - reflexivity.
  - destruct (String.eqb_spec k0 k') as [->|Hne]; simpl.
    + destruct (String.eqb k' k); reflexivity.
    + rewrite IH. destruct (String.eqb_spec k0 k) as [->|Hne'].
      * destruct (String.eqb_spec k' k) as [->|_]; [congruence|reflexivity].
      * reflexivity.
Qed.

(** A key absent from both objects is absent from their spread. *)
Lemma lookup_spread_none (k : string) (a b : list (string * value)) :
  JS.lookup k a = None -> JS.lookup k b = None ->
  JS.lookup k (JS.spread a b) = None.
Proof.
  unfold JS.spread. revert a.
  induction b as [|[k0 v0] b IH]; intros a Ha Hb; simpl; [assumption|].
  simpl in Hb. destruct (String.eqb_spec k0 k) as [->|Hne]; [discriminate|].
  apply IH; [|assumption].
  rewrite lookup_set. destruct (String.eqb_spec k0 k); [congruence|assumption].
Qed.

Lemma fetchOptions_timeout (cfg : Config) (options : value)
    (headers : list (string * value)) (body : value) :
  JS.lookup "timeout" (JS.props_of options) = None ->
  JS.lookup "timeout" (BaseHandler.fetchOptions cfg options headers body) = None.
Proof.
  intros H. unfold BaseHandler.fetchOptions.
  destruct (JS.truthy body && BaseHandler.is_object body).
  - rewrite lookup_set. cbn [String.eqb Ascii.eqb Bool.eqb].
    apply lookup_spread_none; [reflexivity | assumption].
  - apply lookup_spread_none; [reflexivity | assumption].
Qed.

(** What [apiRequest] does on an options object: one [fetch], then the
    response is read or the failure rethrown. *)
Lemma handler_request_run (cfg : Config) (endpoint : string)
    (props : list (string * value)) (e : env) (st : state) :
  BaseHandler.apiRequest cfg endpoint (VObject props) e st
  = match remote e (fetched st) (apiUrl cfg ++ endpoint)
            (VObject (BaseHandler.fetchOptions cfg (VObject props)
                        (BaseHandler.requestHeaders cfg (JS.member props "headers"))
                        (JS.member props "body"))) with
    | Resolves r =>
        try_catch (BaseHandler.readResponse r) (BaseHandler.onFailure cfg) e
          (after_fetch (apiUrl cfg ++ endpoint)
             (VObject (BaseHandler.fetchOptions cfg (VObject props)
                         (BaseHandler.requestHeaders cfg (JS.member props "headers"))
                         (JS.member props "body"))) st)
    | Rejects err =>
        BaseHandler.onFailure cfg err e
          (after_fetch (apiUrl cfg ++ endpoint)
             (VObject (BaseHandler.fetchOptions cfg (VObject props)
                         (BaseHandler.requestHeaders cfg (JS.member props "headers"))
                         (JS.member props "body"))) st)
    end.
Proof.
  unfold BaseHandler.apiRequest.
  cbn [JS.is_undefined get]. unfold bind at 1. cbn [ret]. unfold bind at 1. cbn [ret].
  unfold try_catch, bind, fetch, after_fetch.
  destruct (remote e (fetched st) _ _); reflexivity.
Qed.

Lemma handler_request_default_options (cfg : Config) (endpoint : string) :
  BaseHandler.apiRequest cfg endpoint VUndefined
  = BaseHandler.apiRequest cfg endpoint (VObject []).
Proof. reflexivity. Qed.

Lemma readResponse_keeps_state (r : response) (e : env) (st : state) :
  snd (BaseHandler.readResponse r e st) = st.
Proof.
  unfold BaseHandler.readResponse.
  destruct (negb (ok r)); [reflexivity|].
  destruct (contentType r) as [ct|]; [|reflexivity].
  destruct (negb (String.eqb ct EmptyString) && Str.includes ct "application/json");
    [|reflexivity].
  unfold response_json. destruct (JSON.parse (bodyText r)); reflexivity.
Qed.

Lemma onFailure_throws (cfg : Config) (err : error) (e : env) (st : state) :
  exists err', BaseHandler.onFailure cfg err e st = (Thrown err', st).
Proof.
  unfold BaseHandler.onFailure.
  destruct (String.eqb (err_name err) "TypeError" && Str.includes (err_message err) "fetch");
    eexists; reflexivity.
Qed.

(** C10: a call of [BaseHandler.apiRequest] with an options object (or none)
    makes exactly one request and never pauses; a rejected [fetch] and a
    response outside 2xx make it throw at once; neither the timeout nor the
    retry settings of the configuration play any part: the outcome is the
    same under every [http] block, and the request carries a [timeout] only
    if the caller's options do. *)
Theorem handler_request_is_single_shot
    (cfg : Config) (endpoint : string) (options : value) (e : env) (st : state) :
  JS.is_undefined options = true \/ (exists props, options = VObject props) ->
  exists (fo : list (string * value)) (out : outcome value),
    let url := (apiUrl cfg ++ endpoint)%string in
    BaseHandler.apiRequest cfg endpoint options e st
    = (out, after_fetch url (VObject fo) st)
    /\ requests (trace (after_fetch url (VObject fo) st)) = S (requests (trace st))
    /\ sleeps (trace (after_fetch url (VObject fo) st)) = sleeps (trace st)
    /\ (forall err, remote e (fetched st) url (VObject fo) = Rejects err ->
        exists err', out = Thrown err')
    /\ (forall r, remote e (fetched st) url (VObject fo) = Resolves r ->
        ok r = false ->
        out = Thrown (Error ("API request failed ("
                             ++ JS.num_to_string (mkNum (status r) 0) ++ "): "
                             ++ bodyText r)))
    /\ (JS.lookup "timeout" (JS.props_of options) = None ->
        JS.lookup "timeout" fo = None)
    /\ (forall ht : HttpConfig,
        BaseHandler.apiRequest
          (mkConfig (apiUrl cfg) (apiKey cfg) (projectId cfg) (webhook cfg) ht
             (logging_enabled cfg)) endpoint options e st
        = BaseHandler.apiRequest cfg endpoint options e st).
Proof.
  intros Hopt.
  enough (Hmain :
    exists (fo : list (string * value)) (out : outcome value),
      let url := (apiUrl cfg ++ endpoint)%string in
      BaseHandler.apiRequest cfg endpoint options e st
      = (out, after_fetch url (VObject fo) st)
      /\ requests (trace (after_fetch url (VObject fo) st)) = S (requests (trace st))
      /\ sleeps (trace (after_fetch url (VObject fo) st)) = sleeps (trace st)
      /\ (forall err, remote e (fetched st) url (VObject fo) = Rejects err ->
          exists err', out = Thrown err')
      /\ (forall r, remote e (fetched st) url (VObject fo) = Resolves r ->
          ok r = false ->
          out = Thrown (Error ("API request failed ("
                               ++ JS.num_to_string (mkNum (status r) 0) ++ "): "
                               ++ bodyText r)))
      /\ (JS.lookup "timeout" (JS.props_of options) = None ->
          JS.lookup "timeout" fo = None)).
  { destruct Hmain as (fo & out & H1 & H2 & H3 & H4 & H5 & H6).
    exists fo, out. cbv zeta in *.
    refine (conj H1 (conj H2 (conj H3 (conj H4 (conj H5 (conj H6 _)))))).
    intros ht. reflexivity. }
  assert (Hprops : exists props,
             BaseHandler.apiRequest cfg endpoint options
             = BaseHandler.apiRequest cfg endpoint (VObject props)
             /\ JS.props_of options = props).
  { destruct Hopt as [Hu | [props ->]].
    - destruct options; try discriminate. exists []. split; reflexivity.
    - exists props. split; reflexivity. }
  destruct Hprops as (props & Hsame & Hprops).
  rewrite Hsame, handler_request_run.
  set (fo := BaseHandler.fetchOptions cfg (VObject props)
               (BaseHandler.requestHeaders cfg (JS.member props "headers"))
               (JS.member props "body")).
  exists fo. cbv zeta.
  set (st1 := after_fetch (apiUrl cfg ++ endpoint) (VObject fo) st).
  assert (Hreq : requests (trace st1) = S (requests (trace st)))
    by (unfold st1, after_fetch; cbn [trace]; rewrite requests_app; simpl; lia).
  assert (Hsl : sleeps (trace st1) = sleeps (trace st))
    by (unfold st1, after_fetch; cbn [trace]; rewrite sleeps_app; simpl; apply app_nil_r).
  assert (Hto : JS.lookup "timeout" (JS.props_of options) = None ->
                JS.lookup "timeout" fo = None).
  { intros H. apply fetchOptions_timeout. rewrite Hprops in H. exact H. }
  destruct (remote e (fetched st) (apiUrl cfg ++ endpoint) (VObject fo))
    as [r|err] eqn:Hremote.
  - pose proof (readResponse_keeps_state r e st1) as Hst.
    unfold try_catch.
    destruct (BaseHandler.readResponse r e st1) as [[v|err] st2] eqn:Hread;
      cbn [snd] in Hst; subst st2.
    + exists (Returned v).
      refine (conj eq_refl (conj Hreq (conj Hsl (conj _ (conj _ Hto))))).
      * intros err Hr. discriminate.
      * intros r' Hr' Hok. injection Hr' as <-.
        unfold BaseHandler.readResponse in Hread.
        rewrite Hok in Hread. discriminate.
    + destruct (onFailure_throws cfg err e st1) as [err' Herr'].
      exists (Thrown err'). rewrite Herr'.
      refine (conj eq_refl (conj Hreq (conj Hsl (conj _ (conj _ Hto))))).
      * intros err0 Hr. discriminate.
      * intros r' Hr' Hok. injection Hr' as <-.
        unfold BaseHandler.readResponse in Hread.
        rewrite Hok in Hread. cbn [negb] in Hread.
        assert (Herr : err = Error ("API request failed ("
                                    ++ JS.num_to_string (mkNum (status r) 0) ++ "): "
                                    ++ bodyText r))
          by (unfold throw in Hread; congruence).
        subst err. unfold BaseHandler.onFailure in Herr'.
        cbn [err_name Error String.eqb Ascii.eqb Bool.eqb andb] in Herr'.
        unfold throw in Herr'. congruence.
  - destruct (onFailure_throws cfg err e st1) as [err' Herr'].
    exists (Thrown err'). rewrite Herr'.
    refine (conj eq_refl (conj Hreq (conj Hsl (conj _ (conj _ Hto))))).
    + intros ? _. now exists err'.
    + intros r' Hr'. discriminate.
Qed.

Lemma handler_request_is_single_shot_witness :
  exists (fo : list (string * value)) (out : outcome value),
    BaseHandler.apiRequest (config_with_key (Some session_key)) "/api/stats" VUndefined
      (env_with always_failing) initial
    = (out, mkState 1 0 [EvFetch "http://localhost:3000/api/stats" (VObject fo)])
    /\ out = Thrown (Error "API request failed (500): ")
    /\ JS.lookup "timeout" fo = None.
Proof.
  destruct (handler_request_is_single_shot (config_with_key (Some session_key))
              "/api/stats" VUndefined (env_with always_failing) initial
              (or_introl eq_refl))
    as (fo & out & Hrun & _ & _ & _ & Hfail & Htimeout & _).
  exists fo, out. split; [exact Hrun|]. split.
  - apply (Hfail (mkResponse 500 "Internal Server Error" None EmptyString));
      reflexivity.
  - apply Htimeout. reflexivity.
Defined.


(** * [JSON.parse] yields JSON values *)

Local Ltac split_matches H :=
  repeat match type of H with
         | context [match ?x with _ => _ end] => destruct x eqn:?; try discriminate H
         | context [if ?x then _ else _] => destruct x eqn:?; try discriminate H
         end.

(** No parsed value is [undefined]. *)
Lemma parse_value_defined (fuel : nat) :
  (forall s v r, JSON.parse_value fuel s = Some (v, r) -> v <> VUndefined)
  /\ (forall s acc v r, JSON.parse_elements fuel s acc = Some (v, r) -> v <> VUndefined)
  /\ (forall s acc v r, JSON.parse_members fuel s acc = Some (v, r) -> v <> VUndefined).
Proof.
  induction fuel as [|fuel (IHv & IHe & IHm)].
  - repeat split; intros; discriminate.
  - repeat split.
    + intros s v r H. cbn [JSON.parse_value] in H.
      split_matches H;
        try (injection H as <- <-; discriminate);
        try (eapply IHm; eassumption);
        try (eapply IHe; eassumption).
    + intros s acc v r H. cbn [JSON.parse_elements] in H.
      split_matches H;
        try (injection H as <- <-; discriminate);
        try (eapply IHe; eassumption).
    + intros s acc v r H. cbn [JSON.parse_members] in H.
      split_matches H;
        try (injection H as <- <-; discriminate);
        try (eapply IHm; eassumption).
Qed.

Lemma parse_defined (text : string) (v : value) :
  JSON.parse text = Some v -> v <> VUndefined.
Proof.
  unfold JSON.parse. intros H.
  destruct (JSON.parse_value _ text) as [[v' r]|] eqn:E; [|discriminate].
  destruct (JSON.skip_ws r); [|discriminate].
  injection H as <-.
  eapply (proj1 (parse_value_defined _)); eassumption.
Qed.

(** * The fuel of the parser is never exhausted *)

Lemma skip_ws_length (s : string) :
  (String.length (JSON.skip_ws s) <= String.length s)%nat.
Proof.
  induction s as [|c s IH]; simpl; [lia|].
  destruct (JSON.is_ws c); simpl; lia.
Qed.

Lemma digits_length (s : string) (acc : Z) (n : nat) :
  (String.length (snd (JSON.digits s acc n)) <= String.length s)%nat.
Proof.
  revert acc n. induction s as [|c s IH]; intros acc n; simpl; [lia|].
  destruct (JSON.digit_val c); simpl; [|lia].
  specialize (IH (acc * 10 + z) (S n)). lia.
Qed.

Lemma parse_sign_length (s : string) :
  (String.length (snd (JSON.parse_sign s)) <= String.length s)%nat.
Proof.
  destruct s as [|c r]; simpl; [lia|]. destruct (Ascii.eqb c "-"); simpl; lia.
Qed.

Lemma parse_int_progress (s : string) (ip : Z) (r : string) :
  JSON.parse_int s = Some (ip, r) -> (String.length r < String.length s)%nat.
Proof.
  destruct s as [|c s]; simpl; [discriminate|].
  destruct (JSON.digit_val c) as [d|]; [|discriminate].
  destruct (d =? 0).
  - intros [= _ <-]. lia.
  - pose proof (digits_length s d 1) as H.
    destruct (JSON.digits s d 1) as [[? ?] s2]. cbn [snd] in H.
    intros [= _ <-]. lia.
Qed.

Lemma parse_frac_length (ip : Z) (s : string) (m : Z) (n : nat) (r : string) :
  JSON.parse_frac ip s = Some (m, n, r) -> (String.length r <= String.length s)%nat.
Proof.
  destruct s as [|c s]; simpl; [intros [= _ _ <-]; simpl; lia|].
  destruct (Ascii.eqb c ".").
  - pose proof (digits_length s ip 0) as H.
    destruct (JSON.digits s ip 0) as [[? k] s3]. cbn [snd] in H.
    destruct (Nat.eqb k 0); [discriminate|]. intros [= _ _ <-]. lia.
  - intros [= _ _ <-]. simpl. lia.
Qed.

Lemma parse_exp_length (s : string) (x : Z) (r : string) :
  JSON.parse_exp s = Some (x, r) -> (String.length r <= String.length s)%nat.
Proof.
  destruct s as [|c s]; simpl; [intros [= _ <-]; simpl; lia|].
  destruct (Ascii.eqb c "e" || Ascii.eqb c "E"); [|intros [= _ <-]; simpl; lia].
  assert (Hr : forall b r', (b, r') = match s with
                                      | String c' r' =>
                                          if Ascii.eqb c' "-" then (true, r')
                                          else if Ascii.eqb c' "+" then (false, r')
                                          else (false, s)
                                      | EmptyString => (false, s)
                                      end ->
                            (String.length r' <= String.length s)%nat).
  { intros b r'. destruct s as [|c' s']; [intros [= _ ->]; lia|].
    destruct (Ascii.eqb c' "-"); [intros [= _ ->]; simpl; lia|].
    destruct (Ascii.eqb c' "+"); intros [= _ ->]; simpl; lia. }
  destruct (match s with
            | String c' r' => _
            | EmptyString => _
            end) as [eneg r'] eqn:E.
  specialize (Hr eneg r' eq_refl).
  pose proof (digits_length r' 0 0) as H.
  destruct (JSON.digits r' 0 0) as [[? k] s4]. cbn [snd] in H.
  destruct (Nat.eqb k 0); [discriminate|]. intros [= _ <-]. lia.
Qed.

Lemma parse_number_progress (s : string) (n : number) (r : string) :
  JSON.parse_number s = Some (n, r) -> (String.length r < String.length s)%nat.
Proof.
  unfold JSON.parse_number.
  pose proof (parse_sign_length s) as Hs.
  destruct (JSON.parse_sign s) as [neg s1]. cbn [snd] in Hs.
  destruct (JSON.parse_int s1) as [[ip s2]|] eqn:Hi; [|discriminate].
  apply parse_int_progress in Hi.
  destruct (JSON.parse_frac ip s2) as [[[m fl] s3]|] eqn:Hf; [|discriminate].
  apply parse_frac_length in Hf.
  destruct (JSON.parse_exp s3) as [[x s4]|] eqn:He; [|discriminate].
  apply parse_exp_length in He.
  intros [= _ <-]. lia.
Qed.

Lemma hex4_length (s : string) (u : Z) (r : string) :
  JSON.hex4 s = Some (u, r) -> String.length s = (4 + String.length r)%nat.
Proof.
  unfold JSON.hex4. destruct s as [|a [|b [|c [|d rest]]]]; try discriminate.
  destruct (JSON.hex_val a), (JSON.hex_val b), (JSON.hex_val c), (JSON.hex_val d);
    try discriminate.
  intros [= _ <-]. reflexivity.
Qed.

Lemma unicode_escape_progress (s : string) (cp : Z) (r : string) :
  JSON.unicode_escape s = Some (cp, r) -> (String.length r < String.length s)%nat.
Proof.
  unfold JSON.unicode_escape.
  destruct (JSON.hex4 s) as [[u r1]|] eqn:H1; [|discriminate].
  apply hex4_length in H1.
  destruct ((55296 <=? u) && (u <=? 56319)); [|intros [= _ <-]; lia].
  destruct r1 as [|b1 [|b2 r2]]; try (intros [= _ <-]; lia).
  destruct (Ascii.eqb b1 JSON.backslash && Ascii.eqb b2 "u");
    [|intros [= _ <-]; lia].
  destruct (JSON.hex4 r2) as [[lo r3]|] eqn:H2; [|intros [= _ <-]; lia].
  apply hex4_length in H2. cbn [String.length] in *.
  destruct ((56320 <=? lo) && (lo <=? 57343)); intros [= _ <-]; cbn [String.length]; lia.
Qed.

Lemma prepend_some (p : string) (x : option (string * string)) (str r : string) :
  JSON.prepend p x = Some (str, r) -> exists str', x = Some (str', r).
Proof.
  destruct x as [[str' r']|]; simpl; [|discriminate].
  intros [= _ <-]. now exists str'.
Qed.

(** A string literal that is read leaves strictly less input. *)
Lemma parse_chars_progress (fuel : nat) :
  forall (s str r : string),
    JSON.parse_chars fuel s = Some (str, r) ->
    (String.length r < String.length s)%nat.
Proof.
  induction fuel as [|fuel IH]; intros s str r H; [discriminate|].
  cbn [JSON.parse_chars] in H.
  destruct s as [|c rest]; [discriminate|].
  destruct (Ascii.eqb c JSON.dquote); [injection H as _ <-; simpl; lia|].
  destruct (Ascii.eqb c JSON.backslash).
  - destruct rest as [|e rest']; [discriminate|].
    destruct (Ascii.eqb e "u").
    + destruct (JSON.unicode_escape rest') as [[cp r1]|] eqn:Hu; [|discriminate].
      apply unicode_escape_progress in Hu.
      apply prepend_some in H as [str' H]. apply IH in H. cbn [String.length]. lia.
    + destruct (JSON.simple_escape e); [|discriminate].
      apply prepend_some in H as [str' H]. apply IH in H. cbn [String.length]. lia.
  - destruct (JSON.code c <? 32); [discriminate|].
    apply prepend_some in H as [str' H]. apply IH in H. cbn [String.length]. lia.
Qed.

(** Any fuel that covers the length of the input gives the same result. *)
Lemma parse_chars_fuel (fuel1 : nat) :
  forall (fuel2 : nat) (s : string),
    (String.length s <= fuel1)%nat -> (String.length s <= fuel2)%nat ->
    JSON.parse_chars fuel1 s = JSON.parse_chars fuel2 s.
Proof.
  induction fuel1 as [|fuel1 IH]; intros fuel2 s H1 H2.
  - destruct s; [|simpl in H1; lia]. destruct fuel2; reflexivity.
  - destruct fuel2 as [|fuel2]; [destruct s; [reflexivity | simpl in H2; lia]|].
    cbn [JSON.parse_chars].
    destruct s as [|c rest]; [reflexivity|]. cbn [String.length] in H1, H2.
    destruct (Ascii.eqb c JSON.dquote); [reflexivity|].
    destruct (Ascii.eqb c JSON.backslash).
    + destruct rest as [|e rest']; [reflexivity|]. cbn [String.length] in H1, H2.
      destruct (Ascii.eqb e "u").
      * destruct (JSON.unicode_escape rest') as [[cp r1]|] eqn:Hu; [|reflexivity].
        apply unicode_escape_progress in Hu.
        rewrite (IH fuel2 r1) by lia. reflexivity.
      * destruct (JSON.simple_escape e); [|reflexivity].
        rewrite (IH fuel2 rest') by lia. reflexivity.
    + destruct (JSON.code c <? 32); [reflexivity|].
      rewrite (IH fuel2 rest) by lia. reflexivity.
Qed.

Lemma parse_string_progress (s str r : string) :
  JSON.parse_string s = Some (str, r) -> (String.length r < String.length s)%nat.
Proof. apply parse_chars_progress. Qed.

Lemma strip_prefix_length (p s r : string) :
  JSON.strip_prefix p s = Some r ->
  String.length s = (String.length p + String.length r)%nat.
Proof.
  revert s. induction p as [|a p IH]; intros s; simpl.
  - now intros [= ->].
  - destruct s as [|b s]; [discriminate|].
    destruct (Ascii.eqb a b); [|discriminate].
    intros H. apply IH in H. simpl. lia.
Qed.

Lemma skip_ws_cons (s : string) (c : ascii) (rest : string) :
  JSON.skip_ws s = String c rest -> (String.length rest < String.length s)%nat.
Proof.
  intros H. pose proof (skip_ws_length s) as Hl. rewrite H in Hl. simpl in Hl. lia.
Qed.

(** Every value, element list and member list that is read leaves strictly
    less input. *)
Lemma parse_value_progress (fuel : nat) :
  (forall s v r, JSON.parse_value fuel s = Some (v, r) ->
                 (String.length r < String.length s)%nat)
  /\ (forall s acc v r, JSON.parse_elements fuel s acc = Some (v, r) ->
                        (String.length r < String.length s)%nat)
  /\ (forall s acc v r, JSON.parse_members fuel s acc = Some (v, r) ->
                        (String.length r < String.length s)%nat).
Proof.
  induction fuel as [|fuel (IHv & IHe & IHm)].
  - repeat split; intros; discriminate.
  - split; [|split].
    + intros s v r H. cbn [JSON.parse_value] in H.
      destruct (JSON.skip_ws s) as [|c rest] eqn:Hs; [discriminate|].
      apply skip_ws_cons in Hs.
      destruct (Ascii.eqb c "{").
      { destruct (JSON.skip_ws rest) as [|c' r'] eqn:Hr; [discriminate|].
        pose proof (skip_ws_length rest) as Hl. rewrite Hr in Hl.
        cbn [String.length] in Hl.
        destruct (Ascii.eqb c' "}"); [injection H as _ <-; lia|].
        apply IHm in H. cbn [String.length] in H. lia. }
      destruct (Ascii.eqb c "[").
      { destruct (JSON.skip_ws rest) as [|c' r'] eqn:Hr; [discriminate|].
        pose proof (skip_ws_length rest) as Hl. rewrite Hr in Hl.
        cbn [String.length] in Hl.
        destruct (Ascii.eqb c' "]"); [injection H as _ <-; lia|].
        apply IHe in H. cbn [String.length] in H. lia. }
      destruct (Ascii.eqb c JSON.dquote).
      { destruct (JSON.parse_string rest) as [[str r1]|] eqn:Hp; [|discriminate].
        apply parse_string_progress in Hp. injection H as _ <-. lia. }
      destruct (JSON.strip_prefix "true" (String c rest)) as [r1|] eqn:H1.
      { apply strip_prefix_length in H1. injection H as _ <-.
        cbn [String.length] in *. lia. }
      destruct (JSON.strip_prefix "false" (String c rest)) as [r2|] eqn:H2.
      { apply strip_prefix_length in H2. injection H as _ <-.
        cbn [String.length] in *. lia. }
      destruct (JSON.strip_prefix "null" (String c rest)) as [r3|] eqn:H3.
      { apply strip_prefix_length in H3. injection H as _ <-.
        cbn [String.length] in *. lia. }
      destruct (JSON.parse_number (String c rest)) as [[n r4]|] eqn:H4; [|discriminate].
      apply parse_number_progress in H4. injection H as _ <-.
      cbn [String.length] in *. lia.
    + intros s acc v r H. cbn [JSON.parse_elements] in H.
      destruct (JSON.parse_value fuel s) as [[v1 r1]|] eqn:Hv; [|discriminate].
      apply IHv in Hv.
      destruct (JSON.skip_ws r1) as [|c r'] eqn:Hs; [discriminate|].
      apply skip_ws_cons in Hs.
      destruct (Ascii.eqb c ","); [apply IHe in H; lia|].
      destruct (Ascii.eqb c "]"); [|discriminate]. injection H as _ <-. lia.
    + intros s acc v r H. cbn [JSON.parse_members] in H.
      destruct (JSON.skip_ws s) as [|c r0] eqn:Hs; [discriminate|].
      apply skip_ws_cons in Hs.
      destruct (Ascii.eqb c JSON.dquote); [|discriminate].
      destruct (JSON.parse_string r0) as [[k r1]|] eqn:Hp; [|discriminate].
      apply parse_string_progress in Hp.
      destruct (JSON.skip_ws r1) as [|c2 r2] eqn:Hs2; [discriminate|].
      apply skip_ws_cons in Hs2.
      destruct (Ascii.eqb c2 ":"); [|discriminate].
      destruct (JSON.parse_value fuel r2) as [[v1 r3]|] eqn:Hv; [|discriminate].
      apply IHv in Hv.
      destruct (JSON.skip_ws r3) as [|c4 r4] eqn:Hs4; [discriminate|].
      apply skip_ws_cons in Hs4.
      destruct (Ascii.eqb c4 ","); [apply IHm in H; lia|].
      destruct (Ascii.eqb c4 "}"); [|discriminate]. injection H as _ <-. lia.
Qed.

(** Twice the length of the input (and one or two more) is enough fuel: any
    two supplies at least that large give the same result. *)
Lemma parse_value_fuel (fuel1 : nat) :
  forall fuel2 : nat,
    (forall s, (2 * String.length s + 1 <= fuel1)%nat ->
               (2 * String.length s + 1 <= fuel2)%nat ->
               JSON.parse_value fuel1 s = JSON.parse_value fuel2 s)
    /\ (forall s acc, (2 * String.length s + 2 <= fuel1)%nat ->
                      (2 * String.length s + 2 <= fuel2)%nat ->
                      JSON.parse_elements fuel1 s acc = JSON.parse_elements fuel2 s acc)
    /\ (forall s acc, (2 * String.length s + 2 <= fuel1)%nat ->
                      (2 * String.length s + 2 <= fuel2)%nat ->
                      JSON.parse_members fuel1 s acc = JSON.parse_members fuel2 s acc).
Proof.
  induction fuel1 as [|fuel1 IH]; intros fuel2.
  - repeat split; intros; lia.
  - destruct fuel2 as [|fuel2]; [repeat split; intros; lia|].
    destruct (IH fuel2) as (IHv & IHe & IHm).
    split; [|split].
    + intros s H1 H2. cbn [JSON.parse_value].
      destruct (JSON.skip_ws s) as [|c rest] eqn:Hs; [reflexivity|].
      apply skip_ws_cons in Hs.
      destruct (Ascii.eqb c "{").
      { destruct (JSON.skip_ws rest) as [|c' r'] eqn:Hr; [reflexivity|].
        pose proof (skip_ws_length rest) as Hl. rewrite Hr in Hl.
        destruct (Ascii.eqb c' "}"); [reflexivity|].
        apply IHm; lia. }
      destruct (Ascii.eqb c "[").
      { destruct (JSON.skip_ws rest) as [|c' r'] eqn:Hr; [reflexivity|].
        pose proof (skip_ws_length rest) as Hl. rewrite Hr in Hl.
        destruct (Ascii.eqb c' "]"); [reflexivity|].
        apply IHe; lia. }
      reflexivity.
    + intros s acc H1 H2. cbn [JSON.parse_elements].
      rewrite (IHv s) by lia.
      destruct (JSON.parse_value fuel2 s) as [[v1 r1]|] eqn:Hv; [|reflexivity].
      apply (proj1 (parse_value_progress fuel2)) in Hv.
      destruct (JSON.skip_ws r1) as [|c r'] eqn:Hs; [reflexivity|].
      apply skip_ws_cons in Hs.
      destruct (Ascii.eqb c ","); [|reflexivity].
      apply IHe; lia.
    + intros s acc H1 H2. cbn [JSON.parse_members].
      destruct (JSON.skip_ws s) as [|c r0] eqn:Hs; [reflexivity|].
      apply skip_ws_cons in Hs.
      destruct (Ascii.eqb c JSON.dquote); [|reflexivity].
      destruct (JSON.parse_string r0) as [[k r1]|] eqn:Hp; [|reflexivity].
      apply parse_string_progress in Hp.
      destruct (JSON.skip_ws r1) as [|c2 r2] eqn:Hs2; [reflexivity|].
      apply skip_ws_cons in Hs2.
      destruct (Ascii.eqb c2 ":"); [|reflexivity].
      rewrite (IHv r2) by lia.
      destruct (JSON.parse_value fuel2 r2) as [[v1 r3]|] eqn:Hv; [|reflexivity].
      apply (proj1 (parse_value_progress fuel2)) in Hv.
      destruct (JSON.skip_ws r3) as [|c4 r4] eqn:Hs4; [reflexivity|].
      apply skip_ws_cons in Hs4.
      destruct (Ascii.eqb c4 ","); [|reflexivity].
      apply IHm; lia.
Qed.

(** [JSON.parse] is insensitive to the fuel it is given beyond its own. *)
Lemma parse_fuel (text : string) (extra : nat) :
  JSON.parse_value (S (2 * String.length text) + extra) text
  = JSON.parse_value (S (2 * String.length text)) text.
Proof. apply parse_value_fuel; lia. Qed.

(** * Reading back what [JSON.stringify] writes *)

Lemma append_nil_r (s : string) : (s ++ EmptyString)%string = s.
Proof. induction s as [|a s IH]; simpl; [reflexivity | now rewrite IH]. Qed.

Lemma char_code (c : ascii) : JSON.char (JSON.code c) = c.
Proof.
  unfold JSON.char, JSON.code. rewrite Nat2Z.id. apply ascii_nat_embedding.
Qed.

Lemma code_range (c : ascii) : 0 <= JSON.code c < 256.
Proof.
  unfold JSON.code. pose proof (nat_ascii_bounded c). lia.
Qed.

(** The three ways a character of a string literal is read. *)
Lemma parse_chars_raw (c : ascii) (fuel : nat) (x : string) :
  Ascii.eqb c JSON.dquote = false -> Ascii.eqb c JSON.backslash = false ->
  (JSON.code c <? 32) = false ->
  JSON.parse_chars (S fuel) (String c x)
  = JSON.prepend (String c EmptyString) (JSON.parse_chars fuel x).
Proof.
  intros H1 H2 H3. cbn [JSON.parse_chars]. now rewrite H1, H2, H3.
Qed.

Lemma parse_chars_simple (e ch : ascii) (fuel : nat) (x : string) :
  JSON.simple_escape e = Some ch -> Ascii.eqb e "u" = false ->
  JSON.parse_chars (S fuel) (String JSON.backslash (String e x))
  = JSON.prepend (String ch EmptyString) (JSON.parse_chars fuel x).
Proof.
  intros H1 H2. cbn [JSON.parse_chars].
  change (Ascii.eqb JSON.backslash JSON.dquote) with false.
  change (Ascii.eqb JSON.backslash JSON.backslash) with true.
  cbv iota. now rewrite H2, H1.
Qed.

Lemma parse_chars_unicode (cp : Z) (y r : string) (fuel : nat) :
  JSON.unicode_escape y = Some (cp, r) ->
  JSON.parse_chars (S fuel) (String JSON.backslash (String "u" y))
  = JSON.prepend (JSON.utf8 cp) (JSON.parse_chars fuel r).
Proof.
  intros H. cbn [JSON.parse_chars].
  change (Ascii.eqb JSON.backslash JSON.dquote) with false.
  change (Ascii.eqb JSON.backslash JSON.backslash) with true.
  change (Ascii.eqb "u" "u") with true.
  cbv iota. now rewrite H.
Qed.

(** The escape written for a control character is read back as it. *)
Lemma unicode_escape_control (b : Z) (x : string) :
  0 <= b < 32 ->
  JSON.unicode_escape
    (String "0" (String "0" (String (JSON.hex_lower (b / 16))
                                 (String (JSON.hex_lower (b mod 16)) x))))
  = Some (b, x)
  /\ JSON.utf8 b = String (JSON.char b) EmptyString.
Proof.
  intros Hb.
  assert (Hcases : b = 0 \/ b = 1 \/ b = 2 \/ b = 3 \/ b = 4 \/ b = 5 \/ b = 6
                   \/ b = 7 \/ b = 8 \/ b = 9 \/ b = 10 \/ b = 11 \/ b = 12
                   \/ b = 13 \/ b = 14 \/ b = 15 \/ b = 16 \/ b = 17 \/ b = 18
                   \/ b = 19 \/ b = 20 \/ b = 21 \/ b = 22 \/ b = 23 \/ b = 24
                   \/ b = 25 \/ b = 26 \/ b = 27 \/ b = 28 \/ b = 29 \/ b = 30
                   \/ b = 31) by lia.
  repeat (destruct Hcases as [-> | Hcases]; [split; vm_compute; reflexivity|]).
  subst b. split; vm_compute; reflexivity.
Qed.

(** One escaped character is read back as that character. *)
Lemma parse_chars_escaped_char (c : ascii) (fuel : nat) (x : string) :
  JSON.parse_chars (S fuel) (JSON.escape (String c EmptyString) ++ x)
  = JSON.prepend (String c EmptyString) (JSON.parse_chars fuel x).
Proof.
  cbn [JSON.escape]. cbv zeta. rewrite append_nil_r.
  destruct (Ascii.eqb c JSON.dquote) eqn:Hq.
  { apply Ascii.eqb_eq in Hq. subst c. now apply parse_chars_simple. }
  destruct (Ascii.eqb c JSON.backslash) eqn:Hb.
  { apply Ascii.eqb_eq in Hb. subst c. now apply parse_chars_simple. }
  pose proof (char_code c) as Hc. pose proof (code_range c) as Hr.
  destruct (JSON.code c =? 8) eqn:H8.
  { apply Z.eqb_eq in H8. rewrite H8 in Hc. subst c. now apply parse_chars_simple. }
  destruct (JSON.code c =? 12) eqn:H12.
  { apply Z.eqb_eq in H12. rewrite H12 in Hc. subst c. now apply parse_chars_simple. }
  destruct (JSON.code c =? 10) eqn:H10.
  { apply Z.eqb_eq in H10. rewrite H10 in Hc. subst c. now apply parse_chars_simple. }
  destruct (JSON.code c =? 13) eqn:H13.
  { apply Z.eqb_eq in H13. rewrite H13 in Hc. subst c. now apply parse_chars_simple. }
  destruct (JSON.code c =? 9) eqn:H9.
  { apply Z.eqb_eq in H9. rewrite H9 in Hc. subst c. now apply parse_chars_simple. }
  destruct (JSON.code c <? 32) eqn:H32.
  { apply Z.ltb_lt in H32.
    destruct (unicode_escape_control (JSON.code c) x) as [Hu Hutf]; [lia|].
    cbn [append]. rewrite (parse_chars_unicode _ _ _ _ Hu), Hutf, Hc. reflexivity. }
  cbn [append]. now apply parse_chars_raw.
Qed.

Lemma escape_cons (c : ascii) (s : string) :
  JSON.escape (String c s)
  = (JSON.escape (String c EmptyString) ++ JSON.escape s)%string.
Proof.
  cbn [JSON.escape]. cbv zeta. now rewrite append_nil_r.
Qed.

Lemma escape_char_length (c : ascii) :
  (1 <= String.length (JSON.escape (String c EmptyString)))%nat.
Proof.
  cbn [JSON.escape]. cbv zeta. rewrite append_nil_r.
  repeat match goal with
         | |- context [if ?b then _ else _] => destruct b
         end; cbn [String.length]; lia.
Qed.

(** A quoted string, followed by anything, is read back as the string. *)
Lemma parse_chars_escape (s : string) :
  forall (fuel : nat) (rest : string),
    (String.length (JSON.escape s) + 1 + String.length rest <= fuel)%nat ->
    JSON.parse_chars fuel (JSON.escape s ++ String JSON.dquote rest)
    = Some (s, rest).
Proof.
  induction s as [|c s IH]; intros fuel rest Hfuel.
  - destruct fuel as [|fuel]; [simpl in Hfuel; lia|].
    cbn [JSON.escape append JSON.parse_chars]. now rewrite Ascii.eqb_refl.
  - destruct fuel as [|fuel]; [simpl in Hfuel; lia|].
    rewrite escape_cons in Hfuel |- *.
    rewrite append_assoc, parse_chars_escaped_char.
    rewrite length_append in Hfuel. pose proof (escape_char_length c).
    rewrite IH by lia. reflexivity.
Qed.

Lemma parse_string_quote (s rest : string) :
  JSON.parse_string (JSON.escape s ++ String JSON.dquote rest) = Some (s, rest).
Proof.
  unfold JSON.parse_string. apply parse_chars_escape.
  rewrite length_append. simpl. lia.
Qed.

Lemma is_ws_dquote : JSON.is_ws JSON.dquote = false.
Proof. reflexivity. Qed.

Lemma is_ws_newline : JSON.is_ws (ascii_of_nat 10) = true.
Proof. reflexivity. Qed.

Lemma is_ws_space : JSON.is_ws " " = true.
Proof. reflexivity. Qed.

Lemma skip_ws_step (c : ascii) (s : string) :
  JSON.skip_ws (String c s) = if JSON.is_ws c then JSON.skip_ws s else String c s.
Proof. reflexivity. Qed.

Lemma skip_ws_dquote (s : string) :
  JSON.skip_ws (String JSON.dquote s) = String JSON.dquote s.
Proof. now rewrite skip_ws_step, is_ws_dquote. Qed.

Lemma quote_append (s rest : string) :
  (JSON.quote s ++ rest)%string
  = String JSON.dquote (JSON.escape s ++ String JSON.dquote rest).
Proof.
  unfold JSON.quote. cbn [append]. now rewrite append_assoc.
Qed.

Lemma parse_value_ws (c : ascii) (fuel : nat) (s : string) :
  JSON.is_ws c = true ->
  JSON.parse_value fuel (String c s) = JSON.parse_value fuel s.
Proof.
  intros H. destruct fuel; [reflexivity|].
  cbn [JSON.parse_value]. now rewrite skip_ws_step, H.
Qed.

Lemma parse_members_ws (c : ascii) (fuel : nat) (s : string)
    (acc : list (string * value)) :
  JSON.is_ws c = true ->
  JSON.parse_members fuel (String c s) acc = JSON.parse_members fuel s acc.
Proof.
  intros H. destruct fuel; [reflexivity|].
  cbn [JSON.parse_members]. now rewrite skip_ws_step, H.
Qed.

(** A quoted string is read as a string value. *)
Lemma parse_value_quoted (fuel : nat) (s rest : string) :
  JSON.parse_value (S fuel)
    (String JSON.dquote (JSON.escape s ++ String JSON.dquote rest))
  = Some (VString s, rest).
Proof.
  cbn [JSON.parse_value]. rewrite skip_ws_dquote.
  change (Ascii.eqb JSON.dquote "{") with false.
  change (Ascii.eqb JSON.dquote "[") with false.
  rewrite Ascii.eqb_refl. cbv iota.
  now rewrite parse_string_quote.
Qed.

(** A member [key: value] whose value is a quoted string is read, and the
    reading goes on after it. *)
Lemma parse_members_quoted (fuel : nat) (k v rest : string)
    (acc : list (string * value)) :
  JSON.parse_members (S (S fuel))
    (String JSON.dquote
       (JSON.escape k ++
        String JSON.dquote
          (String ":" (String " "
             (String JSON.dquote (JSON.escape v ++ String JSON.dquote rest)))))) acc
  = match JSON.skip_ws rest with
    | String c r =>
        if Ascii.eqb c ","
        then JSON.parse_members (S fuel) r (JS.set k (VString v) acc)
        else if Ascii.eqb c "}"
             then Some (VObject (JS.set k (VString v) acc), r)
             else None
    | EmptyString => None
    end.
Proof.
  cbn [JSON.parse_members]. rewrite skip_ws_dquote, Ascii.eqb_refl.
  rewrite parse_string_quote.
  rewrite skip_ws_step. change (JSON.is_ws ":") with false.
  change (Ascii.eqb ":" ":") with true. cbv iota.
  rewrite (parse_value_ws " ") by reflexivity.
  now rewrite parse_value_quoted.
Qed.

Lemma parse_value_brace (fuel : nat) (body : string) :
  JSON.parse_value (S fuel) (String "{" body)
  = match JSON.skip_ws body with
    | String c r =>
        if Ascii.eqb c "}" then Some (VObject [], r)
        else JSON.parse_members fuel (String c r) []
    | EmptyString => None
    end.
Proof.
  cbn [JSON.parse_value]. rewrite skip_ws_step.
  change (JSON.is_ws "{") with false. reflexivity.
Qed.

(** The text of the error reply is read back as the object it was written
    from: the tool name it carries is the name that was called, whatever
    characters that name contains. *)
Lemma error_text_parses (message tool timestamp : string) :
  JSON.parse (error_text message tool timestamp)
  = Some (VObject [("error", VString message);
                   ("tool", VString tool);
                   ("timestamp", VString timestamp)]).
Proof.
  unfold JSON.parse.
  rewrite <- (parse_fuel (error_text message tool timestamp) 6).
  generalize (2 * String.length (error_text message tool timestamp))%nat.
  intros fuel.
  replace (S fuel + 6)%nat with (S (S (S (S (S (S (S fuel))))))) by lia.
  unfold error_text, JSON.newline. rewrite !quote_append. cbn [append].
  rewrite parse_value_brace.
  rewrite !skip_ws_step, is_ws_newline, is_ws_space, is_ws_dquote. cbv iota.
  change (Ascii.eqb JSON.dquote "}") with false. cbv iota.
  rewrite parse_members_quoted.
  rewrite skip_ws_step. change (JSON.is_ws ",") with false. cbv iota.
  change (Ascii.eqb "," ",") with true. cbv iota.
  rewrite !(parse_members_ws (ascii_of_nat 10)) by reflexivity.
  rewrite !(parse_members_ws " ") by reflexivity.
  rewrite parse_members_quoted.
  rewrite skip_ws_step. change (JSON.is_ws ",") with false. cbv iota.
  change (Ascii.eqb "," ",") with true. cbv iota.
  rewrite !(parse_members_ws (ascii_of_nat 10)) by reflexivity.
  rewrite !(parse_members_ws " ") by reflexivity.
  rewrite parse_members_quoted.
  rewrite !skip_ws_step, is_ws_newline. cbv iota.
  change (JSON.is_ws "}") with false. cbv iota.
  change (Ascii.eqb "}" ",") with false.
  change (Ascii.eqb "}" "}") with true. cbv iota.
  reflexivity.
Qed.

(** * The webhook receiver *)

Lemma run_listeners_quiet (ls : list (value -> option error)) (payload : value)
    (e : env) (st : state) :
  Forall (fun listener => listener payload = None) ls ->
  run_listeners ls payload e st = (Returned tt, st).
Proof.
  induction 1 as [|l ls Hl _ IH]; simpl; [reflexivity|].
  now rewrite Hl.
Qed.

Lemma emit_quiet (name : string) (payload : value) (e : env) (st : state) :
  quiet e name payload ->
  emit name payload e st = (Returned tt, after_emit name payload st).
Proof.
  intros Hq. unfold emit, bind, record, ask. cbn [fst snd].
  now rewrite run_listeners_quiet.
Qed.

(** What the handler does with a body that parsed to a value other than
    [null] whose [event] member is none of the three kinds. *)
Lemma handleWebhook_unrecognized (body : string) (data : value) (e : env) (st : state) :
  JSON.parse body = Some data ->
  data <> VNull -> data <> VUndefined ->
  recognized (event_field data) = false ->
  quiet e "webhookReceived" data ->
  Client.handleWebhook body e st
  = (Returned accepted, after_emit "webhookReceived" data st).
Proof.
  intros Hparse Hnull Hundef Hrec Hq.
  unfold Client.handleWebhook. rewrite Hparse.
  unfold try_catch. unfold bind at 1. cbn [ret].
  unfold recognized in Hrec.
  apply orb_false_elim in Hrec as [Hrec Hd].
  apply orb_false_elim in Hrec as [Hc Hu].
  assert (Hget : get data "event" e st = (Returned (event_field data), st))
    by (destruct data; try reflexivity; congruence).
  unfold bind at 1. rewrite Hget. rewrite Hc, Hu, Hd.
  unfold bind at 1. cbn [ret]. unfold bind at 1.
  rewrite (emit_quiet "webhookReceived" data e st Hq).
  reflexivity.
Qed.

(** A body that is the JSON text [null] has no [event] to read: the
    handler's [TypeError] is caught and answered with 400. *)
Lemma handleWebhook_null (body : string) (e : env) (st : state) :
  JSON.parse body = Some VNull ->
  Client.handleWebhook body e st
  = (Returned (Client.mkReply 400 [] EmptyString),
     after_console "error"
       "Webhook parsing error: TypeError: Cannot read properties of null (reading 'event')"
       st).
Proof.
  intros Hparse. unfold Client.handleWebhook. rewrite Hparse. reflexivity.
Qed.

Lemma handleWebhook_unparseable (body : string) (e : env) (st : state) :
  JSON.parse body = None ->
  Client.handleWebhook body e st
  = (Returned (Client.mkReply 400 [] EmptyString),
     after_console "error"
       ("Webhook parsing error: SyntaxError: "
        ++ syntax_error_message (eng e) body) st).
Proof.
  intros Hparse. unfold Client.handleWebhook. rewrite Hparse. reflexivity.
Qed.

Lemma created_body_parses : JSON.parse created_body = Some created_envelope.
Proof. vm_compute. reflexivity. Qed.

Lemma handleWebhook_created (e : env) (st : state) :
  quiet e "noteCreated" (VObject [("id", JS.int 1)]) ->
  quiet e "webhookReceived" created_envelope ->
  Client.handleWebhook created_body e st
  = (Returned accepted,
     after_emit "webhookReceived" created_envelope
       (after_emit "noteCreated" (VObject [("id", JS.int 1)]) st)).
Proof.
  intros Hq1 Hq2. unfold Client.handleWebhook. rewrite created_body_parses.
  unfold try_catch. unfold bind at 1. cbn [ret].
  unfold bind at 1. cbn [get created_envelope JS.member JS.lookup String.eqb Ascii.eqb Bool.eqb ret].
  cbn [JS.is_string String.eqb Ascii.eqb Bool.eqb].
  unfold bind at 1. unfold bind at 1. cbn [ret get JS.member JS.lookup String.eqb Ascii.eqb Bool.eqb].
  rewrite (emit_quiet "noteCreated" _ e st Hq1).
  unfold bind at 1.
  rewrite (emit_quiet "webhookReceived" _ e _ Hq2).
  reflexivity.
Qed.

Lemma emitted_app (a b : list event) :
  emitted (a ++ b) = (emitted a ++ emitted b)%list.
Proof.
  induction a as [|x a IH]; [reflexivity|].
  destruct x; simpl; rewrite IH; reflexivity.
Qed.

(** C8: a POST of [{"event":"created","data":{"id":1}}] to the configured
    path emits [noteCreated] with [{id:1}], then [webhookReceived] with the
    whole envelope, and is answered 200 with [{"success":true}] (the
    listeners of the two events returning normally); a POST whose body is not
    JSON emits nothing and is answered 400; any other method or path is
    answered 404. *)
Theorem webhook_receiver (cfg : Config) (e : env) (st : state) :
  (quiet e "noteCreated" (VObject [("id", JS.int 1)]) ->
   quiet e "webhookReceived" created_envelope ->
   Client.onRequest cfg "POST" (wh_path (webhook cfg)) created_body e st
   = (Returned accepted,
      mkState (fetched st) (ticks st)
        (trace st ++ [EvEmit "noteCreated" (VObject [("id", JS.int 1)]);
                      EvEmit "webhookReceived" created_envelope])%list))
  /\ (forall body, JSON.parse body = None ->
      exists st',
        Client.onRequest cfg "POST" (wh_path (webhook cfg)) body e st
        = (Returned (Client.mkReply 400 [] EmptyString), st')
        /\ emitted (trace st') = emitted (trace st))
  /\ (forall method url body,
      String.eqb method "POST" && String.eqb url (wh_path (webhook cfg)) = false ->
      Client.onRequest cfg method url body e st
      = (Returned (Client.mkReply 404 [] EmptyString), st)).
Proof.
  unfold Client.onRequest. repeat split.
  - intros Hq1 Hq2. rewrite !String.eqb_refl. cbn [andb].
    rewrite handleWebhook_created by assumption.
    unfold after_emit. cbn [fetched ticks trace]. now rewrite <- app_assoc.
  - intros body Hparse. rewrite !String.eqb_refl. cbn [andb].
    rewrite handleWebhook_unparseable by assumption.
    eexists. split; [reflexivity|].
    unfold after_console. cbn [trace]. rewrite emitted_app. apply app_nil_r.
  - intros method url body H. now rewrite H.
Qed.

Lemma webhook_receiver_witness :
  Client.onRequest (config_with_key None) "POST" "/webhook" created_body
    (env_with always_failing) initial
  = (Returned accepted,
     mkState 0 0 [EvEmit "noteCreated" (VObject [("id", JS.int 1)]);
                  EvEmit "webhookReceived" created_envelope])
  /\ (exists st',
        Client.onRequest (config_with_key None) "POST" "/webhook" "{not json"
          (env_with always_failing) initial
        = (Returned (Client.mkReply 400 [] EmptyString), st')
        /\ emitted (trace st') = [])
  /\ Client.onRequest (config_with_key None) "GET" "/webhook" created_body
       (env_with always_failing) initial
     = (Returned (Client.mkReply 404 [] EmptyString), initial).
Proof.
  destruct (webhook_receiver (config_with_key None) (env_with always_failing) initial)
    as (Hcreated & Hbad & Hother).
  split; [|split].
  - apply Hcreated; constructor.
  - apply Hbad. vm_compute. reflexivity.
  - apply Hother. reflexivity.
Defined.

(** C3, as stated, fails: a POST whose body is the well-formed JSON text
    [{"event":"archived","data":{"id":1}}], of a kind the handler does not
    know, is answered 200, not with a status in the 4xx range. *)
Lemma unrecognized_event_answered_200 :
  JSON.parse archived_body = Some archived_envelope
  /\ recognized (event_field archived_envelope) = false
  /\ Client.onRequest (config_with_key None) "POST" "/webhook" archived_body
       (env_with always_failing) initial
     = (Returned accepted, mkState 0 0 [EvEmit "webhookReceived" archived_envelope])
  /\ ~ (400 <= Client.code accepted <= 499).
Proof.
  split; [vm_compute; reflexivity|].
  split; [reflexivity|].
  split; [vm_compute; reflexivity|].
  cbn. lia.
Qed.

Lemma run_listeners_first_error (ls : list (value -> option error))
    (payload : value) (e : env) (st : state) :
  run_listeners ls payload e st
  = (match first_error ls payload with
     | Some err => Thrown err
     | None => Returned tt
     end, st).
Proof.
  induction ls as [|l ls IH]; cbn [run_listeners first_error]; [reflexivity|].
  destruct (l payload) as [err|]; [reflexivity | exact IH].
Qed.

Lemma first_error_quiet (ls : list (value -> option error)) (payload : value) :
  first_error ls payload = None
  <-> Forall (fun listener => listener payload = None) ls.
Proof.
  induction ls as [|l ls IH]; cbn [first_error].
  - split; [constructor | reflexivity].
  - destruct (l payload) as [err|] eqn:Hl.
    + split; [discriminate|]. intros H. inversion H. congruence.
    + rewrite IH. split; [intros H; now constructor | intros H; now inversion H].
Qed.

(** What the handler does with a body that parsed to a value other than
    [null] whose [event] member is none of the three kinds, when a listener
    of [webhookReceived] throws. *)
Lemma handleWebhook_unrecognized_refused (body : string) (data : value)
    (e : env) (st : state) :
  JSON.parse body = Some data ->
  data <> VNull -> data <> VUndefined ->
  recognized (event_field data) = false ->
  ~ quiet e "webhookReceived" data ->
  exists err,
    Client.handleWebhook body e st
    = (Returned (Client.mkReply 400 [] EmptyString),
       after_console "error"
         ("Webhook parsing error: " ++ err_name err ++ ": " ++ err_message err)
         (after_emit "webhookReceived" data st)).
Proof.
  intros Hparse Hnull Hundef Hrec Hloud.
  destruct (first_error (listeners e "webhookReceived") data) as [err|] eqn:Hfirst.
  2:{ elim Hloud. now apply first_error_quiet. }
  exists err.
  unfold Client.handleWebhook. rewrite Hparse.
  unfold try_catch. unfold bind at 1. cbn [ret].
  unfold recognized in Hrec.
  apply orb_false_elim in Hrec as [Hrec Hd].
  apply orb_false_elim in Hrec as [Hc Hu].
  assert (Hget : get data "event" e st = (Returned (event_field data), st))
    by (destruct data; try reflexivity; congruence).
  unfold bind at 1. rewrite Hget. rewrite Hc, Hu, Hd.
  unfold bind at 1. cbn [ret]. unfold bind at 1.
  assert (Hemit : emit "webhookReceived" data e st
                  = (Thrown err, after_emit "webhookReceived" data st)).
  { unfold emit, bind, record, ask. cbn [fst snd].
    rewrite run_listeners_first_error. cbn [listeners]. now rewrite Hfirst. }
  rewrite Hemit. reflexivity.
Qed.

(** C3, amended: a POST to the configured path whose body is well-formed JSON
    with an [event] member that is none of [created], [updated], [deleted]
    emits no per-kind event and at most the generic [webhookReceived] event:
    exactly that one event, carrying the parsed body, unless the body is the
    JSON text [null], for which nothing is emitted.  It is answered 200 with
    [{"success":true}] when the body is not [null] and every listener of
    [webhookReceived] returns normally, and with the client error 400 when
    the body is [null] or a listener of [webhookReceived] throws. *)
Theorem unrecognized_event_reply
    (cfg : Config) (body : string) (data : value) (e : env) (st : state) :
  JSON.parse body = Some data ->
  recognized (event_field data) = false ->
  exists (reply : Client.Reply) (st' : state),
    Client.onRequest cfg "POST" (wh_path (webhook cfg)) body e st
    = (Returned reply, st')
    /\ emitted (trace st')
       = (emitted (trace st)
          ++ match data with
             | VNull => []
             | _ => [("webhookReceived", data)]
             end)%list
    /\ (data <> VNull -> quiet e "webhookReceived" data -> reply = accepted)
    /\ (data = VNull \/ ~ quiet e "webhookReceived" data ->
        reply = Client.mkReply 400 [] EmptyString).
Proof.
  intros Hparse Hrec. unfold Client.onRequest.
  rewrite !String.eqb_refl. cbn [andb].
  pose proof (parse_defined body data Hparse) as Hundef.
  assert (Hone : emitted (trace (after_emit "webhookReceived" data st))
                 = (emitted (trace st) ++ [("webhookReceived", data)])%list).
  { unfold after_emit. cbn [trace]. now rewrite emitted_app. }
  assert (Hlog : forall text s, emitted (trace (after_console "error" text s))
                                = emitted (trace s)).
  { intros text s. unfold after_console. cbn [trace]. rewrite emitted_app.
    apply app_nil_r. }
  destruct (first_error (listeners e "webhookReceived") data) as [err|] eqn:Hfirst.
  - assert (Hloud : ~ quiet e "webhookReceived" data).
    { intros Hq. apply first_error_quiet in Hq. congruence. }
    destruct data as [| |b|n|s|items|props];
      try (destruct (handleWebhook_unrecognized_refused body _ e st Hparse
                       ltac:(discriminate) ltac:(discriminate) Hrec Hloud)
             as [err' ->];
           eexists; eexists; split; [reflexivity|];
           split; [now rewrite Hlog, Hone|];
           split; [intros _ Hq; now elim Hloud | reflexivity]).
    + now elim Hundef.
    + rewrite handleWebhook_null by assumption.
      eexists. eexists. split; [reflexivity|].
      split; [rewrite Hlog; now rewrite app_nil_r|].
      split; [intros H; now elim H | reflexivity].
  - assert (Hq : quiet e "webhookReceived" data) by now apply first_error_quiet.
    destruct data as [| |b|n|s|items|props];
      try (rewrite (handleWebhook_unrecognized body _ e st Hparse
                      ltac:(discriminate) ltac:(discriminate) Hrec Hq);
           eexists; eexists; split; [reflexivity|];
           split; [exact Hone|];
           split; [reflexivity | intros [H|H]; [discriminate | now elim H]]).
    + now elim Hundef.
    + rewrite handleWebhook_null by assumption.
      eexists. eexists. split; [reflexivity|].
      split; [rewrite Hlog; now rewrite app_nil_r|].
      split; [intros H; now elim H | reflexivity].
Qed.

Lemma unrecognized_event_reply_witness :
  exists (reply : Client.Reply) (st' : state),
    Client.onRequest (config_with_key None) "POST"
      (wh_path (webhook (config_with_key None))) archived_body
      (env_with always_failing) initial
    = (Returned reply, st')
    /\ emitted (trace st')
       = (emitted (trace initial) ++ [("webhookReceived", archived_envelope)])%list
    /\ (archived_envelope <> VNull ->
        quiet (env_with always_failing) "webhookReceived" archived_envelope ->
        reply = accepted)
    /\ (archived_envelope = VNull
        \/ ~ quiet (env_with always_failing) "webhookReceived" archived_envelope ->
        reply = Client.mkReply 400 [] EmptyString).
Proof.
  apply (unrecognized_event_reply (config_with_key None) archived_body
           archived_envelope (env_with always_failing) initial).
  - vm_compute. reflexivity.
  - reflexivity.
Defined.

(** * The dispatch router *)

Lemma collectTools_app (a b : list Server.Handler) (acc : list Tool)
    (e : env) (st : state) :
  Server.collectTools (a ++ b) acc e st
  = match Server.collectTools a acc e st with
    | (Returned tools, st1) => Server.collectTools b tools e st1
    | (Thrown err, st1) => (Thrown err, st1)
    end.
Proof.
  revert acc st. induction a as [|h a IH]; intros acc st; [reflexivity|].
  cbn [app Server.collectTools].
  destruct (Server.getTools h) as [g|]; [|apply IH].
  unfold bind. destruct (g e st) as [[more|err] st1]; [apply IH | reflexivity].
Qed.

Lemma constructed_handlers (cfg : Config) (srv : Server.t) :
  Server.construct cfg = Returned srv ->
  Server.config srv = cfg
  /\ Server.handlers srv
     = [Server.noteHandler cfg; Server.searchHandler cfg; Server.projectHandler cfg;
        Server.statsHandler cfg; Server.crossReferenceHandler cfg].
Proof.
  unfold Server.construct.
  destruct (if truthy_str (projectId cfg) then projectId cfg
            else Server.extractProjectFromApiKey cfg) as [p|]; [|discriminate].
  destruct (negb (truthy_str (Some p))); [discriminate|].
  intros [= <-]. split; reflexivity.
Qed.

(** With the five providers of the package the listing is the concatenation
    of their catalogs, in registration order, and nothing else happens. *)
Lemma list_tools_of_constructed_server (cfg : Config) (srv : Server.t)
    (e : env) (st : state) :
  Server.construct cfg = Returned srv ->
  Server.ListTools srv e st = (Returned catalog, st).
Proof.
  intros H. destruct (constructed_handlers cfg srv H) as [_ Hh].
  unfold Server.ListTools. rewrite Hh. reflexivity.
Qed.

(** C4, as stated, fails: when the catalog of a registered provider cannot be
    enumerated, [ListTools] throws instead of returning an empty list. *)
Lemma list_tools_throws_with_broken_provider :
  Server.getTools broken_provider = Some (throw (Error "catalog unavailable"))
  /\ In broken_provider (Server.handlers router_with_broken_provider)
  /\ Server.ListTools router_with_broken_provider (env_with always_failing) initial
     = (Thrown (Error "catalog unavailable"), initial)
  /\ Server.ListTools router_with_broken_provider (env_with always_failing) initial
     <> (Returned [], initial).
Proof.
  split; [reflexivity|]. split; [right; left; reflexivity|].
  split; [reflexivity|]. discriminate.
Qed.

(** C4, amended: when the [getTools] of a registered provider throws (those
    registered before it having enumerated their tools), [ListTools] fails
    with that error and returns no list; with the five providers of the
    package, whose [getTools] cannot throw, it returns their catalogs
    concatenated in registration order. *)
Theorem list_tools_propagates_failure
    (srv : Server.t) (before after : list Server.Handler) (broken : Server.Handler)
    (enumerate : M (list Tool)) (tools : list Tool) (err : error)
    (e : env) (st st1 st2 : state) :
  Server.handlers srv = (before ++ broken :: after)%list ->
  Server.collectTools before [] e st = (Returned tools, st1) ->
  Server.getTools broken = Some enumerate ->
  enumerate e st1 = (Thrown err, st2) ->
  Server.ListTools srv e st = (Thrown err, st2)
  /\ forall cfg srv', Server.construct cfg = Returned srv' ->
       Server.ListTools srv' e st = (Returned catalog, st).
Proof.
  intros Hh Hbefore Hget Hthrow. split.
  - unfold Server.ListTools. rewrite Hh, collectTools_app, Hbefore.
    cbn [Server.collectTools]. rewrite Hget. unfold bind. now rewrite Hthrow.
  - intros cfg srv'. apply list_tools_of_constructed_server.
Qed.

Lemma list_tools_propagates_failure_witness :
  Server.ListTools router_with_broken_provider (env_with always_failing) initial
  = (Thrown (Error "catalog unavailable"), initial).
Proof.
  apply (list_tools_propagates_failure router_with_broken_provider
           [Server.noteHandler (config_with_key (Some "employee-myproject-secret123"))]
           [] broken_provider (throw (Error "catalog unavailable"))
           NoteHandler.getTools (Error "catalog unavailable")
           (env_with always_failing) initial initial initial);
    reflexivity.
Defined.

(** When no registered provider claims the name, the loop of [CallTool] runs
    to its end and the [throw] after it is reached. *)
Lemma findAndCall_unknown (srv : Server.t) (hs : list Server.Handler)
    (name : string) (args : value) (e : env) (st : state) :
  Forall (declines name) hs ->
  Server.findAndCall srv hs name args e st
  = (Thrown (Error ("Unknown tool: " ++ name)), st).
Proof.
  induction 1 as [|h hs Hh _ IH]; [reflexivity|].
  cbn [Server.findAndCall]. unfold declines in Hh.
  destruct (Server.canHandleTool h) as [can|].
  - unfold bind. rewrite Hh. exact IH.
  - unfold bind, ret. exact IH.
Qed.

(** The text of the error reply, member by member. *)
Lemma error_body_text (message tool timestamp : string) :
  JSON.stringify_pretty
    (VObject [("error", VString message);
              ("tool", VString tool);
              ("timestamp", VString timestamp)])
  = Some (error_text message tool timestamp).
Proof.
  unfold JSON.stringify_pretty, error_text. cbn [JSON.stringify_at].
  unfold JSON.wrap. cbn [Str.join JSON.spaces Nat.mul Nat.add].
  rewrite !append_assoc. reflexivity.
Qed.

Lemma log_run (srv : Server.t) (level line : string) (e : env) (st : state) :
  Server.log srv level line e st
  = (Returned tt,
     if logging_enabled (Server.config srv)
     then after_console "error"
            ("[" ++ clock e (ticks st) ++ "] [" ++ Server.toUpperCase level ++ "] " ++ line)
            (after_tick st)
     else st).
Proof.
  unfold Server.log. destruct (logging_enabled (Server.config srv)); reflexivity.
Qed.

(** C7: for every tool name that no registered provider claims, [CallTool]
    returns, without throwing, a reply flagged [isError] whose text is the
    JSON object with the members [error] (the message [Unknown tool: name]),
    [tool] (the name itself) and [timestamp]. *)
Theorem unknown_tool_error_envelope
    (srv : Server.t) (name : string) (args : value) (e : env) (st : state) :
  Forall (declines name) (Server.handlers srv) ->
  let message := ("Unknown tool: " ++ name)%string in
  let st' := after_log srv e ("Tool execution failed: " ++ name ++ " - " ++ message) st in
  Server.CallTool srv name args e st
  = (Returned
       (Server.mkResult
          [Server.mkItem "text" (Some (error_text message name (clock e (ticks st'))))]
          (Some true)),
     after_tick st').
Proof.
  intros Hdecl message st'. unfold Server.CallTool, try_catch.
  rewrite (findAndCall_unknown srv _ name args e st Hdecl).
  unfold bind at 1. rewrite log_run. cbn [err_message Error Server.toUpperCase Server.upper].
  unfold bind, now_iso, ret. rewrite error_body_text.
  subst st' message. unfold after_log.
  destruct (logging_enabled (Server.config srv)); reflexivity.
Qed.

Lemma catalog_names :
  map name catalog
  = (NoteHandler.tools ++ SearchHandler.tools ++ ProjectHandler.tools
     ++ StatsHandler.tools ++ CrossReferenceHandler.tools)%list.
Proof. reflexivity. Qed.

(** A name outside the catalog is declined by each of the five providers. *)
Lemma constructed_server_declines (cfg : Config) (srv : Server.t) (toolName : string) :
  Server.construct cfg = Returned srv ->
  existsb (String.eqb toolName) (map name catalog) = false ->
  Forall (declines toolName) (Server.handlers srv).
Proof.
  intros H Hout. destruct (constructed_handlers cfg srv H) as [_ ->].
  rewrite catalog_names, !existsb_app in Hout.
  apply orb_false_elim in Hout as [Hnote Hout].
  apply orb_false_elim in Hout as [Hsearch Hout].
  apply orb_false_elim in Hout as [Hproject Hout].
  apply orb_false_elim in Hout as [Hstats Hcross].
  assert (Hret : forall (b : bool) (e : env) (st : state),
             b = false -> ret b e st = (Returned false, st))
    by (intros b e st ->; reflexivity).
  repeat apply Forall_cons; try apply Forall_nil;
    unfold declines; intros e st; apply Hret; assumption.
Qed.

Lemma unknown_tool_error_envelope_witness :
  Server.construct (config_with_key (Some session_key)) = Returned session_server
  /\ exists timestamp st',
       Server.CallTool session_server "no_such_tool" (VObject [])
         (env_with always_failing) initial
       = (Returned
            (Server.mkResult
               [Server.mkItem "text"
                  (Some (error_text "Unknown tool: no_such_tool" "no_such_tool" timestamp))]
               (Some true)), st').
Proof.
  split; [reflexivity|].
  eexists. eexists.
  apply (unknown_tool_error_envelope session_server "no_such_tool" (VObject [])
           (env_with always_failing) initial).
  apply (constructed_server_declines (config_with_key (Some session_key))).
  - reflexivity.
  - reflexivity.
Defined.

(** * Validation of required keys *)

(** An argument object that lacks required keys is refused with an error
    naming exactly those keys, and the state is left as it was. *)
Lemma validateParams_missing (props : list (string * value))
    (required : list string) (e : env) (st : state) :
  filter (BaseHandler.lacks props) required <> [] ->
  BaseHandler.validateParams (VObject props) required e st
  = (Thrown (Error ("Missing required parameters: "
                    ++ Str.join ", " (filter (BaseHandler.lacks props) required))),
     st).
Proof.
  intros Hmiss. unfold BaseHandler.validateParams, BaseHandler.missing.
  destruct required as [|key rest]; [now elim Hmiss|].
  rewrite bind_ret. cbn [JS.props_of].
  destruct (filter (BaseHandler.lacks props) (key :: rest)) as [|k ks];
    [now elim Hmiss|].
  reflexivity.
Qed.

Lemma validateParams_complete (props : list (string * value))
    (required : list string) (e : env) (st : state) :
  filter (BaseHandler.lacks props) required = [] ->
  BaseHandler.validateParams (VObject props) required e st = (Returned tt, st).
Proof.
  intros Hnone. unfold BaseHandler.validateParams, BaseHandler.missing.
  destruct required as [|key rest]; [reflexivity|].
  rewrite bind_ret. cbn [JS.props_of]. now rewrite Hnone.
Qed.

(** A tool method that starts with [validateParams], run inside the [try] of
    [handleTool]: nothing after the validation is executed. *)
Lemma rejected_by_validation (toolName : string) (props : list (string * value))
    (required : list string) (rest : unit -> M value) (e : env) (st : state) :
  filter (BaseHandler.lacks props) required <> [] ->
  try_catch
    (bind (BaseHandler.validateParams (VObject props) required) rest)
    (fun error => BaseHandler.formatError error (VString toolName)) e st
  = (Returned (validation_failure toolName
                 (filter (BaseHandler.lacks props) required) (clock e (ticks st))),
     after_tick st).
Proof.
  intros Hmiss. unfold try_catch, bind.
  rewrite (validateParams_missing props required e st Hmiss).
  reflexivity.
Qed.

Local Ltac refuse Hmiss :=
  first
    [ exfalso; apply Hmiss; reflexivity
    | apply rejected_by_validation; exact Hmiss ].

Lemma note_tools_validate (cfg : Config) (tool : Tool)
    (props : list (string * value)) (ctx : Context) (e : env) (st : state) :
  In tool NoteHandler.getTools ->
  filter (BaseHandler.lacks props) (required tool) <> [] ->
  NoteHandler.handleTool cfg (name tool) (VObject props) ctx e st
  = (Returned (validation_failure (name tool)
                 (filter (BaseHandler.lacks props) (required tool))
                 (clock e (ticks st))),
     after_tick st).
Proof.
  intros Hin Hmiss. unfold NoteHandler.handleTool.
  cbn [get]. rewrite bind_ret.
  cbn [NoteHandler.getTools In] in Hin.
  repeat (destruct Hin as [<- | Hin]; [cbn [name required] in *; refuse Hmiss|]).
  contradiction.
Qed.

Lemma search_tools_validate (cfg : Config) (tool : Tool)
    (props : list (string * value)) (ctx : Context) (e : env) (st : state) :
  In tool SearchHandler.getTools ->
  filter (BaseHandler.lacks props) (required tool) <> [] ->
  SearchHandler.handleTool cfg (name tool) (VObject props) ctx e st
  = (Returned (validation_failure (name tool)
                 (filter (BaseHandler.lacks props) (required tool))
                 (clock e (ticks st))),
     after_tick st).
Proof.
  intros Hin Hmiss. unfold SearchHandler.handleTool.
  cbn [get]. rewrite bind_ret.
  cbn [SearchHandler.getTools In] in Hin.
  repeat (destruct Hin as [<- | Hin]; [cbn [name required] in *; refuse Hmiss|]).
  contradiction.
Qed.

Lemma cross_reference_tools_validate (cfg : Config) (tool : Tool)
    (props : list (string * value)) (ctx : Context) (e : env) (st : state) :
  In tool CrossReferenceHandler.getTools ->
  filter (BaseHandler.lacks props) (required tool) <> [] ->
  CrossReferenceHandler.handleTool cfg (name tool) (VObject props) ctx e st
  = (Returned (validation_failure (name tool)
                 (filter (BaseHandler.lacks props) (required tool))
                 (clock e (ticks st))),
     after_tick st).
Proof.
  intros Hin Hmiss. unfold CrossReferenceHandler.handleTool.
  cbn [get]. rewrite bind_ret.
  cbn [CrossReferenceHandler.getTools In] in Hin.
  repeat (destruct Hin as [<- | Hin]; [cbn [name required] in *; refuse Hmiss|]).
  contradiction.
Qed.

Lemma stats_tools_validate (cfg : Config) (tool : Tool)
    (props : list (string * value)) (ctx : Context) (e : env) (st : state) :
  In tool StatsHandler.getTools ->
  filter (BaseHandler.lacks props) (required tool) <> [] ->
  StatsHandler.handleTool cfg (name tool) (VObject props) ctx e st
  = (Returned (validation_failure (name tool)
                 (filter (BaseHandler.lacks props) (required tool))
                 (clock e (ticks st))),
     after_tick st).
Proof.
  intros Hin Hmiss. unfold StatsHandler.handleTool.
  cbn [StatsHandler.getTools In] in Hin.
  repeat (destruct Hin as [<- | Hin]; [cbn [name required] in *; refuse Hmiss|]).
  contradiction.
Qed.

Lemma project_tools_validate (cfg : Config) (tool : Tool)
    (props : list (string * value)) (ctx : Context) (e : env) (st : state) :
  In tool ProjectHandler.getTools ->
  filter (BaseHandler.lacks props) (required tool) <> [] ->
  ProjectHandler.handleTool cfg (name tool) (VObject props) ctx e st
  = (Returned (validation_failure (name tool)
                 (filter (BaseHandler.lacks props) (required tool))
                 (clock e (ticks st))),
     after_tick st).
Proof.
  intros Hin Hmiss. exfalso.
  cbn [ProjectHandler.getTools In] in Hin.
  repeat (destruct Hin as [<- | Hin]; [apply Hmiss; reflexivity|]).
  contradiction.
Qed.

(** C9: whatever tool of whatever provider is invoked, an argument object
    that omits (or sets to [undefined]) a key the tool's schema declares
    [required] makes the provider fail at once: its result is the error
    object whose message lists every missing key, in the order of the
    schema, and no HTTP request is made (nothing is added to the trace, the
    only effect being the reading of the clock for the timestamp). *)
Theorem missing_required_keys_rejected
    (cfg : Config) (srv : Server.t) (handler : Server.Handler)
    (enumerate : M (list Tool)) (tools : list Tool) (tool : Tool)
    (props : list (string * value)) (ctx : Context) (e : env) (st : state) :
  Server.construct cfg = Returned srv ->
  In handler (Server.handlers srv) ->
  Server.getTools handler = Some enumerate ->
  enumerate e st = (Returned tools, st) ->
  In tool tools ->
  filter (BaseHandler.lacks props) (required tool) <> [] ->
  Server.handleTool handler (name tool) (VObject props) ctx e st
  = (Returned (validation_failure (name tool)
                 (filter (BaseHandler.lacks props) (required tool))
                 (clock e (ticks st))),
     mkState (fetched st) (S (ticks st)) (trace st)).
Proof.
  intros Hsrv Hin Hget Hrun Htool Hmiss.
  destruct (constructed_handlers cfg srv Hsrv) as [_ Hh]. rewrite Hh in Hin.
  cbn [In] in Hin.
  destruct Hin as [<- | [<- | [<- | [<- | [<- | []]]]]];
    cbn [Server.getTools Server.handleTool Server.noteHandler Server.searchHandler
         Server.projectHandler Server.statsHandler Server.crossReferenceHandler] in *;
    injection Hget as <-; unfold ret in Hrun; injection Hrun as <-.
  - now apply note_tools_validate.
  - now apply search_tools_validate.
  - now apply project_tools_validate.
  - now apply stats_tools_validate.
  - now apply cross_reference_tools_validate.
Qed.

Lemma missing_required_keys_rejected_witness :
  Server.construct (config_with_key (Some session_key)) = Returned session_server
  /\ Server.handleTool (Server.noteHandler (config_with_key (Some session_key)))
       "get_note" (VObject []) (mkContext "myproject")
       (env_with note_remote) initial
     = (Returned (validation_failure "get_note" ["id"] "2024-01-01T00:00:00.000Z"),
        mkState 0 1 []).
Proof.
  split; [reflexivity|].
  apply (missing_required_keys_rejected (config_with_key (Some session_key))
           session_server
           (Server.noteHandler (config_with_key (Some session_key)))
           (ret NoteHandler.getTools) NoteHandler.getTools
           (mkTool "get_note" ["id"]) [] (mkContext "myproject")
           (env_with note_remote) initial).
  - reflexivity.
  - left. reflexivity.
  - reflexivity.
  - reflexivity.
  - right. left. reflexivity.
  - discriminate.
Defined.

(** * The end-to-end scenario *)

(** C1: a session started with the credential [employee-myproject-secret123]
    and no explicit project is a session for project [myproject], and
    [get_note] with [{id: 5}], against a remote that answers
    [{"data":{"id":5,"title":"x"}}], gets a reply without [isError] whose
    body contains that note.  The first part holds.  The second does not:
    the one request is made and answered, but [getNote] then calls
    [buildResponse] on a [ResponseBuilder] that has no such method; the
    [TypeError] is caught by [handleTool], and the body of the reply, still
    without [isError], is that error instead of the note. *)
Theorem get_note_reply_lacks_the_note :
  forall (url : string) (wh : WebhookConfig) (ht : HttpConfig) (lg : bool)
         (clk : nat -> string) (ls : string -> list (value -> option error))
         (en : engine),
    let cfg := mkConfig url (Some session_key) None wh ht lg in
    let e := mkEnv note_remote clk ls en in
    exists srv,
      Server.construct cfg = Returned srv
      /\ Server.project srv = "myproject"
      /\ JSON.parse (bodyText note_response)
         = Some (VObject [("data", VObject [("id", JS.int 5);
                                            ("title", VString "x")])])
      /\ Server.CallTool srv "get_note" (VObject [("id", JS.int 5)]) e initial
         = (Returned
              (Server.mkResult
                 [Server.mkItem "text"
                    (JSON.stringify_pretty
                       (VObject [("success", VBool false);
                                 ("error", VString "this.responseBuilder.buildResponse is not a function");
                                 ("tool", VString "get_note");
                                 ("timestamp", VString (clk 0%nat))]))]
                 None),
            mkState 1 1
              [EvFetch (url ++ "/api/projects/myproject/notes/5")
                 (VObject [("method", VString "GET");
                           ("headers",
                            VObject [("Content-Type", VString "application/json");
                                     ("X-API-Key", VString session_key)])])]).
Proof.
  intros url wh ht lg clk ls en cfg e. eexists.
  split; [reflexivity|]. split; [reflexivity|].
  split; [vm_compute; reflexivity|].
  vm_compute. reflexivity.
Qed.

(** At the protocol boundary the refusal of C9 reads as follows: the reply
    carries the provider's error object as its text and has no [isError]
    member, since the provider returned rather than threw. *)
Lemma call_tool_refuses_incomplete_arguments
    (cfg : Config) (srv : Server.t) (tool : Tool)
    (props : list (string * value)) (e : env) (st : state) :
  Server.construct cfg = Returned srv ->
  In tool catalog ->
  filter (BaseHandler.lacks props) (required tool) <> [] ->
  Server.CallTool srv (name tool) (VObject props) e st
  = (Returned
       (Server.mkResult
          [Server.mkItem "text"
             (JSON.stringify_pretty
                (validation_failure (name tool)
                   (filter (BaseHandler.lacks props) (required tool))
                   (clock e (ticks st))))]
          None),
     after_tick st).
Proof.
  intros Hsrv Hin Hmiss.
  destruct (constructed_handlers cfg srv Hsrv) as [_ Hh].
  unfold Server.CallTool. rewrite Hh. unfold catalog in Hin.
  repeat rewrite in_app_iff in Hin.
  assert (Hcall : forall run,
             run e st
             = (Returned (validation_failure (name tool)
                            (filter (BaseHandler.lacks props) (required tool))
                            (clock e (ticks st))), after_tick st) ->
             try_catch
               (result <- run ;;
                ret (Server.mkResult
                       [Server.mkItem "text" (JSON.stringify_pretty result)] None))
               (fun error =>
                  Server.log srv "error"
                    ("Tool execution failed: " ++ name tool ++ " - " ++ err_message error) ;;;
                  timestamp <- now_iso ;;
                  ret (Server.mkResult
                         [Server.mkItem "text"
                            (JSON.stringify_pretty
                               (VObject [("error", VString (err_message error));
                                         ("tool", VString (name tool));
                                         ("timestamp", VString timestamp)]))]
                         (Some true))) e st
             = (Returned
                  (Server.mkResult
                     [Server.mkItem "text"
                        (JSON.stringify_pretty
                           (validation_failure (name tool)
                              (filter (BaseHandler.lacks props) (required tool))
                              (clock e (ticks st))))] None),
                after_tick st)).
  { intros run Hrun. unfold try_catch, bind. rewrite Hrun. reflexivity. }
  destruct Hin as [Hin | [Hin | [Hin | [Hin | Hin]]]].
  - pose proof (note_tools_validate cfg tool props (mkContext (Server.project srv)) e st Hin Hmiss) as Hrun.
    cbn [In NoteHandler.getTools] in Hin.
    repeat (destruct Hin as [<- | Hin]; [exact (Hcall _ Hrun)|]). contradiction.
  - pose proof (search_tools_validate cfg tool props (mkContext (Server.project srv)) e st Hin Hmiss) as Hrun.
    cbn [In SearchHandler.getTools] in Hin.
    repeat (destruct Hin as [<- | Hin]; [exact (Hcall _ Hrun)|]). contradiction.
  - pose proof (project_tools_validate cfg tool props (mkContext (Server.project srv)) e st Hin Hmiss) as Hrun.
    cbn [In ProjectHandler.getTools] in Hin.
    repeat (destruct Hin as [<- | Hin]; [exact (Hcall _ Hrun)|]). contradiction.
  - pose proof (stats_tools_validate cfg tool props (mkContext (Server.project srv)) e st Hin Hmiss) as Hrun.
    cbn [In StatsHandler.getTools] in Hin.
    repeat (destruct Hin as [<- | Hin]; [exact (Hcall _ Hrun)|]). contradiction.
  - pose proof (cross_reference_tools_validate cfg tool props (mkContext (Server.project srv)) e st Hin Hmiss) as Hrun.
    cbn [In CrossReferenceHandler.getTools] in Hin.
    repeat (destruct Hin as [<- | Hin]; [exact (Hcall _ Hrun)|]). contradiction.
Qed.

(** * The nesting of [search] *)

Lemma member_set (k k' : string) (v : value) (l : list (string * value)) :
  JS.member (JS.set k' v l) k
  = if String.eqb k' k then v else JS.member l k.
Proof.
  unfold JS.member. rewrite lookup_set. destruct (String.eqb k' k); reflexivity.
Qed.

(** A call in keyword mode never takes the fallback branch: its result does
    not depend on the nesting it is allowed. *)
Lemma search_keyword_mode (depth : nat) (cfg : Config) (projectId : value)
    (props : list (string * value)) (e : env) (st : state) :
  JS.member props "mode" = VString "keyword" ->
  SearchHandler.search_at depth cfg projectId (VObject props) e st
  = SearchHandler.search_at 0 cfg projectId (VObject props) e st.
Proof.
  intros Hmode. destruct depth as [|depth]; [reflexivity|].
  cbn [SearchHandler.search_at].
  apply bind_ext. intros _ e1 st1.
  cbn [get]. rewrite !bind_ret, Hmode.
  apply bind_ext. intros q e2 st2.
  apply bind_ext. intros endpoint e3 st3.
  apply try_catch_ext. intros err e4 st4.
  cbn [JS.or JS.truthy JS.is_string String.eqb Ascii.eqb Bool.eqb negb].
  reflexivity.
Qed.

(** One level of nesting is all [search] ever uses. *)
Lemma search_nesting_bounded (depth : nat) (cfg : Config) (projectId params : value)
    (e : env) (st : state) :
  SearchHandler.search_at (S depth) cfg projectId params e st
  = SearchHandler.search cfg projectId params e st.
Proof.
  unfold SearchHandler.search. destruct depth as [|depth]; [reflexivity|].
  cbn [SearchHandler.search_at].
  apply bind_ext. intros _ e1 st1.
  apply bind_ext. intros mode_raw e2 st2.
  apply bind_ext. intros q e3 st3.
  apply bind_ext. intros endpoint e6 st6.
  apply try_catch_ext. intros err e4 st4.
  destruct (Str.includes (err_message err) "embedding"
            || Str.includes (err_message err) "ChromaDB"); [|reflexivity].
  destruct (JS.is_string (JS.or mode_raw (VString "keyword")) "semantic");
    [reflexivity|].
  destruct (JS.is_string (JS.or mode_raw (VString "keyword")) "hybrid");
    [|reflexivity].
  apply bind_ext. intros _ e5 st5.
  assert (Hmode : JS.member
                    (JS.spread (JS.props_of params)
                       [("mode", VString "keyword");
                        ("semantic_weight", VUndefined);
                        ("threshold", VUndefined)]) "mode"
                  = VString "keyword")
    by (unfold JS.spread; cbn [fold_left fst snd]; rewrite !member_set; reflexivity).
  exact (search_keyword_mode (S depth) cfg projectId _ e5 st5 Hmode).
Qed.
(** ** Conversions that may throw *)

Lemma text_returns (v : value) (e : env) (st : state) :
  JS.convertible v = true -> text v e st = (Returned (JS.to_string v), st).
Proof. intros H. unfold text. now rewrite H. Qed.

Lemma text_throws (v : value) (e : env) (st : state) :
  JS.convertible v = false ->
  text v e st = (Thrown (TypeError "Cannot convert object to primitive value"), st).
Proof. intros H. unfold text. now rewrite H. Qed.

Lemma encodeURIComponent_returns (v : value) (e : env) (st : state) :
  JS.encodable v = true ->
  encodeURIComponent v e st = (Returned (JS.encodeURIComponent v), st).
Proof.
  intros H. apply andb_prop in H. destruct H as [Hc Hw].
  unfold encodeURIComponent, bind. rewrite (text_returns v e st Hc), Hw.
  reflexivity.
Qed.

Lemma encodeURIComponent_malformed (s : string) (e : env) (st : state) :
  JS.well_formed s = false ->
  encodeURIComponent (VString s) e st = (Thrown (URIError "URI malformed"), st).
Proof.
  intros H. unfold encodeURIComponent, bind, text. cbn [JS.convertible JS.to_string].
  unfold ret at 1. now rewrite H.
Qed.

Lemma projectEndpoint_returns (projectId : value) (path : string) (e : env) (st : state) :
  JS.encodable projectId = true ->
  BaseHandler.projectEndpoint projectId path e st
  = (Returned (BaseHandler.getProjectEndpoint projectId path), st).
Proof.
  intros H. unfold BaseHandler.projectEndpoint, bind.
  now rewrite (encodeURIComponent_returns projectId e st H).
Qed.

Lemma projectEndpoint_malformed (s path : string) (e : env) (st : state) :
  JS.well_formed s = false ->
  BaseHandler.projectEndpoint (VString s) path e st
  = (Thrown (URIError "URI malformed"), st).
Proof.
  intros H. unfold BaseHandler.projectEndpoint, bind.
  now rewrite (encodeURIComponent_malformed s e st H).
Qed.

Lemma query_append_returns (name : string) (v : value) (q : URLSearchParams.t)
    (e : env) (st : state) :
  JS.convertible v = true ->
  query_append name v q e st = (Returned (URLSearchParams.append name v q), st).
Proof.
  intros H. unfold query_append, bind. now rewrite (text_returns v e st H).
Qed.

Lemma append_if_defined_returns (props : list (string * value)) (k : string)
    (q : URLSearchParams.t) (e : env) (st : state) :
  JS.convertible (JS.member props k) = true ->
  NoteHandler.append_if_defined (VObject props) k q e st
  = (Returned (if negb (JS.is_undefined (JS.member props k))
               then URLSearchParams.append k (JS.member props k) q else q), st).
Proof.
  intros H. unfold NoteHandler.append_if_defined. cbn [get]. rewrite bind_ret.
  destruct (negb (JS.is_undefined (JS.member props k))); [|reflexivity].
  now apply query_append_returns.
Qed.

Lemma encodeURIComponent_refuses (v : value) (e : env) (st : state) :
  JS.encodable v = false ->
  encodeURIComponent v e st
  = (Thrown (if JS.convertible v then URIError "URI malformed"
             else TypeError "Cannot convert object to primitive value"), st).
Proof.
  intros H. unfold JS.encodable in H. unfold encodeURIComponent, bind, text.
  destruct (JS.convertible v); cbn [andb] in H.
  - unfold ret at 1. now rewrite H.
  - reflexivity.
Qed.

Lemma projectEndpoint_refuses (projectId : value) (path : string) (e : env) (st : state) :
  JS.encodable projectId = false ->
  BaseHandler.projectEndpoint projectId path e st
  = (Thrown (if JS.convertible projectId then URIError "URI malformed"
             else TypeError "Cannot convert object to primitive value"), st).
Proof.
  intros H. unfold BaseHandler.projectEndpoint, bind.
  now rewrite (encodeURIComponent_refuses projectId e st H).
Qed.

(** ** Further properties of the derivation of the project *)

Lemma lacks_append (c : ascii) (x y : string) :
  Str.lacks c (x ++ y) = Str.lacks c x && Str.lacks c y.
Proof.
  induction x as [|a x IH]; [reflexivity|].
  cbn [append Str.lacks]. now rewrite IH, andb_assoc.
Qed.

Lemma join_two_has_dash (x y : string) (l : list string) :
  Str.lacks dash (Str.join (String dash EmptyString) (x :: y :: l)) = false.
Proof.
  cbn [Str.join]. rewrite lacks_append.
  cbn [append Str.lacks]. rewrite Ascii.eqb_refl.
  cbn [negb andb]. apply andb_false_r.
Qed.

(** X1 ([client.js], [getProjectFromApiKey]).  Writing a key as
    [role-project-secret] and reading the project back is a round trip: when
    neither the role nor the secret contains a dash, the client reads exactly
    [project], whatever dashes the project name itself contains. *)
Theorem client_reads_back_the_project
    (cfg : Config) (role project secret : string) :
  truthy_str (projectId cfg) = false ->
  apiKey cfg = Some (role ++ "-" ++ project ++ "-" ++ secret)%string ->
  Str.lacks dash role = true ->
  Str.lacks dash secret = true ->
  Client.getProjectFromApiKey cfg = Returned project.
Proof.
  intros Hp Hk Hr Hs.
  exact (client_project_framed cfg role project secret Hp Hk Hr Hs).
Qed.

Lemma client_reads_back_the_project_witness :
  Client.getProjectFromApiKey
    (config_with_key (Some "employee-my-team-notes-secret123"))
  = Returned "my-team-notes".
Proof.
  apply (client_reads_back_the_project
           (config_with_key (Some "employee-my-team-notes-secret123"))
           "employee" "my-team-notes" "secret123"); reflexivity.
Defined.

(** X2 ([index.js], [extractProjectFromApiKey]; [client.js],
    [getProjectFromApiKey]).  On a key with at least three dash-separated
    segments, the server and the client derive the same project exactly when
    the key has three segments, that is, when the project name has no dash. *)
Theorem projects_agree_iff_three_segments (cfg : Config) (key : string) :
  truthy_str (projectId cfg) = false ->
  apiKey cfg = Some key ->
  (3 <= List.length (Str.split dash key))%nat ->
  (exists p, Client.getProjectFromApiKey cfg = Returned p
             /\ Server.extractProjectFromApiKey cfg = Some p)
  <-> List.length (Str.split dash key) = 3%nat.
Proof.
  intros Hp Hk Hlen.
  pose proof (client_project_between_dashes cfg key Hp Hk Hlen) as Hc.
  pose proof (server_project_second_segment cfg key Hk Hlen) as Hs.
  split.
  - intros [p [Hcp Hsp]].
    rewrite Hc in Hcp. injection Hcp as <-.
    rewrite Hs in Hsp.
    pose proof (split_pieces_lack dash key) as Hall.
    apply nth_error_In in Hsp.
    rewrite Forall_forall in Hall. specialize (Hall _ Hsp).
    unfold between_dashes in Hall.
    destruct (Str.split dash key) as [|a [|b [|c [|d rest]]]];
      cbn [List.length] in Hlen |- *; try lia.
    exfalso.
    change (removelast (tl (a :: b :: c :: d :: rest)))
      with (b :: removelast (c :: d :: rest)) in Hall.
    change (removelast (c :: d :: rest)) with (c :: removelast (d :: rest)) in Hall.
    rewrite join_two_has_dash in Hall. discriminate.
  - intros H3. exists (between_dashes key). split; [exact Hc|].
    exact (server_project_three_segments cfg key Hk H3).
Qed.

Lemma projects_agree_iff_three_segments_witness :
  (exists p, Client.getProjectFromApiKey (config_with_key (Some session_key))
             = Returned p
             /\ Server.extractProjectFromApiKey (config_with_key (Some session_key))
                = Some p)
  <-> List.length (Str.split dash session_key) = 3%nat.
Proof.
  apply (projects_agree_iff_three_segments
           (config_with_key (Some session_key)) session_key);
    [reflexivity | reflexivity | vm_compute; lia].
Defined.

(** The keys on which the server finds a project: [role-project-rest], the
    role and the project free of dashes. *)
Lemma second_segment_shape (key project : string) :
  ((3 <= List.length (Str.split dash key))%nat
   /\ nth_error (Str.split dash key) 1 = Some project)
  <-> exists role rest,
        key = (role ++ "-" ++ project ++ "-" ++ rest)%string
        /\ Str.lacks dash role = true /\ Str.lacks dash project = true.
Proof.
  split.
  - intros [Hlen Hnth].
    pose proof (join_split dash key) as Hjoin.
    pose proof (split_pieces_lack dash key) as Hlack.
    destruct (Str.split dash key) as [|a [|b [|c rest]]];
      cbn [List.length] in Hlen; try lia.
    cbn [nth_error] in Hnth. injection Hnth as ->.
    exists a, (Str.join (String dash EmptyString) (c :: rest)).
    pose proof (Forall_inv Hlack) as Ha.
    pose proof (Forall_inv (Forall_inv_tail Hlack)) as Hb.
    split; [|split; assumption].
    rewrite <- Hjoin. reflexivity.
  - intros (role & rest & -> & Hrole & Hproject).
    change (role ++ "-" ++ project ++ "-" ++ rest)%string
      with (role ++ String dash (project ++ String dash rest))%string.
    rewrite !split_append, (split_lacks dash role Hrole),
      (split_lacks dash project Hproject).
    pose proof (split_nonempty dash rest) as Hne.
    destruct (Str.split dash rest) as [|r rs]; [now elim Hne|].
    split; [cbn [List.length app]; lia | reflexivity].
Qed.

Lemma extractProjectFromApiKey_shape (cfg : Config) (project : string) :
  Server.extractProjectFromApiKey cfg = Some project
  <-> exists role rest,
        apiKey cfg = Some (role ++ "-" ++ project ++ "-" ++ rest)%string
        /\ Str.lacks dash role = true /\ Str.lacks dash project = true.
Proof.
  unfold Server.extractProjectFromApiKey.
  destruct (apiKey cfg) as [key|].
  2:{ split; [discriminate | intros (role & rest & H & _); discriminate]. }
  split.
  - intros H.
    destruct (negb (truthy_str (Some key))); [discriminate|].
    cbv zeta in H.
    destruct (3 <=? Z.of_nat (List.length (Str.split dash key))) eqn:Hlen;
      [|discriminate].
    apply Z.leb_le in Hlen.
    destruct (proj1 (second_segment_shape key project)) as (role & rest & -> & Hr & Hp).
    { split; [lia | exact H]. }
    exists role, rest. repeat split; assumption.
  - intros (role & rest & [= ->] & Hr & Hp).
    destruct (proj2 (second_segment_shape _ project)
                (ex_intro _ role (ex_intro _ rest (conj eq_refl (conj Hr Hp)))))
      as [Hlen Hnth].
    unfold truthy_str.
    change (role ++ "-" ++ project ++ "-" ++ rest)%string
      with (role ++ String dash (project ++ String dash rest))%string in *.
    rewrite append_dash_nonempty. cbn [negb]. cbv zeta.
    match goal with
    | |- (if ?c then _ else _) = _ => destruct c eqn:Hle
    end; [exact Hnth | apply Z.leb_gt in Hle; unfold dash in *; lia].
Qed.

(** X3 ([index.js], constructor, [extractProjectFromApiKey]).  With a
    non-empty configured project the constructor succeeds, and the server
    has that project, whatever the key.  Without one, the constructor
    succeeds with project [p] exactly when the key reads [role-p-rest] with
    [p] not empty and no dash in [role] nor in [p] ([rest] may have dashes):
    a key of fewer than three segments, such as [ab-cd], makes it throw
    although its second segment is not empty.  The server built keeps the
    configuration, and the only error the constructor throws is the one
    about the missing project. *)
Theorem server_construction (cfg : Config) :
  (forall p, projectId cfg = Some p -> p <> EmptyString ->
     exists srv, Server.construct cfg = Returned srv
                 /\ Server.project srv = p /\ Server.config srv = cfg)
  /\ (truthy_str (projectId cfg) = false ->
      forall p,
        (exists srv, Server.construct cfg = Returned srv
                     /\ Server.project srv = p /\ Server.config srv = cfg)
        <-> (p <> EmptyString
             /\ exists role rest,
                  apiKey cfg = Some (role ++ "-" ++ p ++ "-" ++ rest)%string
                  /\ Str.lacks dash role = true /\ Str.lacks dash p = true))
  /\ (truthy_str (projectId cfg) = false ->
      forall a b, apiKey cfg = Some (a ++ "-" ++ b)%string ->
                  Str.lacks dash a = true -> Str.lacks dash b = true ->
                  Server.construct cfg
                  = Thrown (Error "No valid project found. Set PROJECT_ID or use API key format: role-project-secret"))
  /\ (forall err, Server.construct cfg = Thrown err ->
        err = Error "No valid project found. Set PROJECT_ID or use API key format: role-project-secret").
Proof.
  assert (Hnonempty : forall p, truthy_str (Some p) = true <-> p <> EmptyString).
  { intros p. unfold truthy_str. destruct (String.eqb_spec p EmptyString) as [->|Hne].
    - split; [discriminate | intros H; now elim H].
    - split; [intros _; exact Hne | reflexivity]. }
  split; [|split; [|split]].
  - intros p Hp Hne. unfold Server.construct. rewrite Hp.
    rewrite (proj2 (Hnonempty p) Hne). cbv beta iota zeta.
    rewrite (proj2 (Hnonempty p) Hne). cbn [negb].
    eexists. split; [reflexivity|]. split; reflexivity.
  - intros Hnone p. unfold Server.construct. rewrite Hnone.
    split.
    + intros (srv & Hrun & Hproject & _).
      destruct (Server.extractProjectFromApiKey cfg) as [q|] eqn:Hq; [|discriminate].
      destruct (truthy_str (Some q)) eqn:Ht; cbn [negb] in Hrun; [|discriminate].
      injection Hrun as <-. cbn [Server.project] in Hproject. subst q.
      split; [now apply Hnonempty|].
      now apply extractProjectFromApiKey_shape.
    + intros (Hne & Hshape).
      apply extractProjectFromApiKey_shape in Hshape. rewrite Hshape.
      cbv beta iota zeta.
      rewrite (proj2 (Hnonempty p) Hne). cbn [negb].
      eexists. split; [reflexivity|]. split; reflexivity.
  - intros Hnone a b Hkey Ha Hb. unfold Server.construct. rewrite Hnone.
    unfold Server.extractProjectFromApiKey. rewrite Hkey.
    change (a ++ "-" ++ b)%string with (a ++ String dash b)%string.
    unfold truthy_str at 1. rewrite append_dash_nonempty. cbn [negb]. cbv zeta.
    rewrite split_append, (split_lacks dash a Ha), (split_lacks dash b Hb).
    reflexivity.
  - intros err. unfold Server.construct.
    destruct (if truthy_str (projectId cfg) then projectId cfg
              else Server.extractProjectFromApiKey cfg) as [p|].
    + destruct (negb (truthy_str (Some p))); [|discriminate].
      now intros [= <-].
    + now intros [= <-].
Qed.

(** X4 ([client.js], [getProjectFromApiKey]; [index.js], constructor).  A
    key whose middle segment is empty, [role--secret], is read by the client
    as the empty project name, while the server refuses to start on it. *)
Theorem empty_project_segment (cfg : Config) (role secret : string) :
  truthy_str (projectId cfg) = false ->
  apiKey cfg = Some (role ++ "--" ++ secret)%string ->
  Str.lacks dash role = true ->
  Str.lacks dash secret = true ->
  Client.getProjectFromApiKey cfg = Returned EmptyString
  /\ Server.construct cfg
     = Thrown (Error "No valid project found. Set PROJECT_ID or use API key format: role-project-secret").
Proof.
  intros Hp Hk Hr Hs.
  assert (Hkey : apiKey cfg
                 = Some (role ++ String dash (EmptyString ++ String dash secret))%string)
    by exact Hk.
  split.
  - exact (client_project_framed cfg role EmptyString secret Hp Hkey Hr Hs).
  - unfold Server.construct. rewrite Hp.
    unfold Server.extractProjectFromApiKey. rewrite Hkey.
    unfold truthy_str at 1. rewrite append_dash_nonempty. cbn [negb].
    rewrite (split_framed role EmptyString secret Hr Hs).
    reflexivity.
Qed.

Lemma empty_project_segment_witness :
  Client.getProjectFromApiKey (config_with_key (Some "employee--secret123"))
  = Returned EmptyString
  /\ Server.construct (config_with_key (Some "employee--secret123"))
     = Thrown (Error "No valid project found. Set PROJECT_ID or use API key format: role-project-secret").
Proof.
  apply (empty_project_segment (config_with_key (Some "employee--secret123"))
           "employee" "secret123"); reflexivity.
Defined.

(** ** Further properties of the client's retry loop *)

(** The loop returns the first answer that is [ok], after pausing once for
    each failure before it. *)
Lemma retry_loop_succeeds (cfg : Config) (url : string) (fo : value) (e : env)
    (r : response) :
  forall (k passes : nat) (attempt : Z) (st : state),
    0 <= attempt ->
    attempt + Z.of_nat k <= retries (http cfg) ->
    (k < passes)%nat ->
    (forall i, (i < k)%nat ->
       exists err, Client.failure_of (remote e (fetched st + i) url fo) = Some err) ->
    remote e (fetched st + k) url fo = Resolves r ->
    ok r = true ->
    exists st',
      Client.retry_loop passes cfg url fo attempt e st = (Returned (Some r), st')
      /\ requests (trace st') = (requests (trace st) + S k)%nat
      /\ sleeps (trace st')
         = (sleeps (trace st)
            ++ map (fun i => retryDelay (http cfg) * (attempt + Z.of_nat i))
                 (seq 1 k))%list.
Proof.
  induction k as [|k IH]; intros passes attempt st Hpos Hroom Hpasses Hfail Hr Hok.
  - destruct passes as [|p]; [lia|].
    rewrite Nat.add_0_r in Hr.
    rewrite (retry_loop_returns cfg url fo e p attempt st r) by (assumption || lia).
    exists (after_fetch url fo st). cbn [after_fetch trace].
    rewrite requests_app, sleeps_app. cbn [requests sleeps seq map].
    rewrite !app_nil_r. split; [reflexivity|]. split; [lia | reflexivity].
  - destruct passes as [|p]; [lia|].
    destruct (Hfail 0%nat) as [err Herr]; [lia|]. rewrite Nat.add_0_r in Herr.
    rewrite (retry_loop_again cfg url fo e p attempt st err) by (assumption || lia).
    destruct (IH p (attempt + 1)
                (after_sleep (retryDelay (http cfg) * (attempt + 1))
                   (after_fetch url fo st)))
      as (st' & Hrun & Hreq & Hsl).
    + lia.
    + lia.
    + lia.
    + intros i Hi. destruct (Hfail (S i)) as [err' Herr']; [lia|].
      exists err'. cbn [after_sleep after_fetch fetched].
      now rewrite Nat.add_succ_l, <- Nat.add_succ_r.
    + cbn [after_sleep after_fetch fetched].
      now rewrite Nat.add_succ_l, <- Nat.add_succ_r.
    + assumption.
    + exists st'. cbn [after_sleep after_fetch trace] in Hreq, Hsl.
      split; [exact Hrun|]. split.
      * rewrite Hreq, !requests_app. simpl. lia.
      * rewrite Hsl, !sleeps_app.
        cbn [sleeps seq map app].
        rewrite app_nil_r, <- app_assoc. apply f_equal.
        cbn [app].
        replace (attempt + Z.of_nat 1) with (attempt + 1) by lia.
        apply f_equal.
        rewrite <- (seq_shift k 1), map_map. apply map_ext.
        intros i. apply f_equal. lia.
Qed.

(** What a run of the loop can end with, when it starts with the passes its
    condition allows. *)
Lemma retry_loop_result (cfg : Config) (url : string) (fo : value) (e : env) :
  forall (passes : nat) (attempt : Z) (st : state) (out : outcome (option response))
         (st' : state),
    0 <= attempt ->
    passes = Z.to_nat (retries (http cfg) + 1 - attempt) ->
    Client.retry_loop passes cfg url fo attempt e st = (out, st') ->
    (requests (trace st') <= requests (trace st) + passes)%nat
    /\ match out with
       | Returned (Some r) => ok r = true
       | Returned None => passes = 0%nat /\ st' = st
       | Thrown _ => (0 < passes)%nat
       end.
Proof.
  induction passes as [|p IH]; intros attempt st out st' Hpos Hp Hrun.
  - cbn in Hrun. injection Hrun as <- <-. split; [lia | split; reflexivity].
  - cbn [Client.retry_loop] in Hrun.
    replace (attempt <=? retries (http cfg)) with true in Hrun
      by (symmetry; apply Z.leb_le; lia).
    unfold try_catch in Hrun.
    unfold bind at 1 in Hrun.
    unfold Client.attempt_once in Hrun. unfold bind at 1 in Hrun.
    unfold fetch in Hrun.
    destruct (remote e (fetched st) url fo) as [r|err].
    + destruct (ok r) eqn:Hok; cbn [negb] in Hrun.
      * cbn in Hrun. injection Hrun as <- <-.
        cbn [trace]. rewrite requests_app. cbn. split; [lia | exact Hok].
      * cbn [throw] in Hrun.
        destruct (attempt + 1 >? retries (http cfg)) eqn:Hlast.
        -- cbn in Hrun. injection Hrun as <- <-.
           cbn [trace]. rewrite requests_app. cbn. split; lia.
        -- rewrite Z.gtb_ltb in Hlast. apply Z.ltb_ge in Hlast.
           unfold bind at 1, sleep, record in Hrun.
           apply IH in Hrun; [|lia | cbn; lia].
           destruct Hrun as [Hreq Hout]. cbn [trace] in Hreq.
           rewrite !requests_app in Hreq. cbn in Hreq.
           split; [lia|].
           destruct out as [[r'|]|err']; [exact Hout | | lia].
           destruct Hout as [Hp0 _]. lia.
    + destruct (attempt + 1 >? retries (http cfg)) eqn:Hlast.
      * cbn in Hrun. injection Hrun as <- <-.
        cbn [trace]. rewrite requests_app. cbn. split; lia.
      * rewrite Z.gtb_ltb in Hlast. apply Z.ltb_ge in Hlast.
        unfold bind at 1, sleep, record in Hrun.
        apply IH in Hrun; [|lia | cbn; lia].
        destruct Hrun as [Hreq Hout]. cbn [trace] in Hreq.
        rewrite !requests_app in Hreq. cbn in Hreq.
        split; [lia|].
        destruct out as [[r'|]|err']; [exact Hout | | lia].
        destruct Hout as [Hp0 _]. lia.
Qed.

(** X5 ([client.js], [apiRequest]).  Whatever the retry limit [n >= 0], a
    request whose every attempt fails is sent [n + 1] times, waits
    [retryDelay * 1], ..., [retryDelay * n] between the attempts, and fails
    with the error of the last attempt. *)
Theorem request_gives_up_after_all_retries
    (cfg : Config) (endpoint : string) (options : value) (e : env) (st : state) :
  0 <= retries (http cfg) ->
  let url := (apiUrl cfg ++ endpoint)%string in
  let fo := Client.fetchOptions cfg
              (if JS.is_undefined options then VObject [] else options) in
  let n := Z.to_nat (retries (http cfg)) in
  (forall k, exists err,
      Client.failure_of (remote e (fetched st + k) url fo) = Some err) ->
  exists err st',
    Client.apiRequest cfg endpoint options e st = (Thrown err, st')
    /\ Client.failure_of (remote e (fetched st + n) url fo) = Some err
    /\ requests (trace st') = (requests (trace st) + S n)%nat
    /\ sleeps (trace st')
       = (sleeps (trace st)
          ++ map (fun i => retryDelay (http cfg) * Z.of_nat i) (seq 1 n))%list.
Proof.
  intros Hpos url fo n Hfail.
  destruct (retry_loop_exhausts cfg url fo e (S n) 0 st) as (st' & Hrun & _ & Hreq & Hsl).
  - lia.
  - unfold n. lia.
  - exact Hfail.
  - replace (fetched st + S n - 1)%nat with (fetched st + n)%nat in Hrun by lia.
    destruct (Hfail n) as [err Herr]. rewrite Herr in Hrun.
    exists err, st'.
    split.
    + unfold Client.apiRequest. fold url fo.
      replace (Z.to_nat (retries (http cfg) + 1)) with (S n) by (unfold n; lia).
      exact Hrun.
    + split; [exact Herr|]. split; [exact Hreq|].
      rewrite Hsl. replace (S n - 1)%nat with n by lia.
      apply f_equal. apply map_ext. intros i. apply f_equal. lia.
Qed.

Lemma request_gives_up_after_all_retries_witness :
  exists err st',
    Client.apiRequest (config_with_key (Some session_key)) "/health" VUndefined
      (env_with always_failing) initial
    = (Thrown err, st')
    /\ Client.failure_of
         (always_failing 3%nat "http://localhost:3000/health"
            (Client.fetchOptions (config_with_key (Some session_key)) (VObject [])))
       = Some err
    /\ requests (trace st') = 4%nat
    /\ sleeps (trace st') = [1000; 2000; 3000].
Proof.
  apply (request_gives_up_after_all_retries
           (config_with_key (Some session_key)) "/health" VUndefined
           (env_with always_failing) initial).
  - cbn. lia.
  - intros k. eexists. reflexivity.
Defined.

(** X6 ([client.js], [apiRequest]).  If the first [k] attempts fail and the
    next answer is [ok], with [k] within the retry limit, the request
    returns that answer after [k + 1] attempts and the pauses
    [retryDelay * 1], ..., [retryDelay * k]; in particular an answer that is
    [ok] at once costs one attempt and no pause. *)
Theorem request_returns_first_ok_answer
    (cfg : Config) (endpoint : string) (options : value) (e : env) (st : state)
    (k : nat) (r : response) :
  Z.of_nat k <= retries (http cfg) ->
  let url := (apiUrl cfg ++ endpoint)%string in
  let fo := Client.fetchOptions cfg
              (if JS.is_undefined options then VObject [] else options) in
  (forall i, (i < k)%nat ->
     exists err, Client.failure_of (remote e (fetched st + i) url fo) = Some err) ->
  remote e (fetched st + k) url fo = Resolves r ->
  ok r = true ->
  exists st',
    Client.apiRequest cfg endpoint options e st = (Returned (Some r), st')
    /\ requests (trace st') = (requests (trace st) + S k)%nat
    /\ sleeps (trace st')
       = (sleeps (trace st)
          ++ map (fun i => retryDelay (http cfg) * Z.of_nat i) (seq 1 k))%list.
Proof.
  intros Hk url fo Hfail Hr Hok.
  destruct (retry_loop_succeeds cfg url fo e r k
              (Z.to_nat (retries (http cfg) + 1)) 0 st)
    as (st' & Hrun & Hreq & Hsl); try assumption; try lia.
  exists st'. split; [exact Hrun|]. split; [exact Hreq|].
  rewrite Hsl. apply f_equal. apply map_ext. intros i. apply f_equal. lia.
Qed.

Lemma request_returns_first_ok_answer_witness :
  exists st',
    Client.apiRequest (config_with_key (Some session_key)) "/health" VUndefined
      (env_with failing_twice) initial
    = (Returned (Some (mkResponse 200 "OK" None "fine")), st')
    /\ requests (trace st') = 3%nat
    /\ sleeps (trace st') = [1000; 2000].
Proof.
  apply (request_returns_first_ok_answer
           (config_with_key (Some session_key)) "/health" VUndefined
           (env_with failing_twice) initial 2 (mkResponse 200 "OK" None "fine")).
  - cbn. lia.
  - intros i Hi. destruct i as [|[|i]]; [eexists; reflexivity | eexists; reflexivity | lia].
  - reflexivity.
  - reflexivity.
Defined.

(** X7 ([client.js], [apiRequest]).  Whatever the remote does, a response
    returned by [apiRequest] is [ok]; the request is sent at most
    [retries + 1] times; and the call returns [undefined] only when the
    retry limit is negative, in which case nothing was sent. *)
Theorem request_returns_only_ok_responses
    (cfg : Config) (endpoint : string) (options : value) (e : env) (st : state)
    (out : outcome (option response)) (st' : state) :
  Client.apiRequest cfg endpoint options e st = (out, st') ->
  (requests (trace st')
   <= requests (trace st) + Z.to_nat (retries (http cfg) + 1))%nat
  /\ match out with
     | Returned (Some r) => ok r = true
     | Returned None => retries (http cfg) < 0 /\ st' = st
     | Thrown _ => 0 <= retries (http cfg)
     end.
Proof.
  unfold Client.apiRequest. intros Hrun.
  apply retry_loop_result in Hrun; [|lia | f_equal; lia].
  destruct Hrun as [Hreq Hout]. split; [exact Hreq|].
  destruct out as [[r|]|err].
  - exact Hout.
  - destruct Hout as [H0 Hst]. split; [lia | exact Hst].
  - lia.
Qed.

Lemma request_returns_only_ok_responses_witness :
  let run := Client.apiRequest (config_with_key (Some session_key)) "/health"
               VUndefined (env_with failing_twice) initial in
  (requests (trace (snd run)) <= 0 + 4)%nat
  /\ match fst run with
     | Returned (Some r) => ok r = true
     | Returned None => 3 < 0 /\ snd run = initial
     | Thrown _ => 0 <= 3
     end.
Proof.
  intros run.
  apply (request_returns_only_ok_responses
           (config_with_key (Some session_key)) "/health" VUndefined
           (env_with failing_twice) initial (fst run) (snd run)).
  apply surjective_pairing.
Defined.



(** ** Further properties of the webhook receiver *)

Lemma run_listeners_throws (before after : list (value -> option error))
    (l : value -> option error) (payload : value) (err : error)
    (e : env) (st : state) :
  Forall (fun listener => listener payload = None) before ->
  l payload = Some err ->
  run_listeners (before ++ l :: after) payload e st = (Thrown err, st).
Proof.
  intros Hquiet Hl. induction Hquiet as [|f before Hf _ IH]; cbn.
  - now rewrite Hl.
  - now rewrite Hf.
Qed.

(** X9 ([client.js], [handleWebhook]).  The listeners run inside the [try]
    block: when a listener of the event of the notification throws, the
    webhook is answered 400 although its body was well formed, the error is
    written to the console, and [webhookReceived] is not emitted. *)
Theorem throwing_listener_rejects_webhook
    (body kind name : string) (props : list (string * value))
    (before after : list (value -> option error)) (l : value -> option error)
    (err : error) (e : env) (st : state) :
  In (kind, name) [("created", "noteCreated"); ("updated", "noteUpdated");
                   ("deleted", "noteDeleted")] ->
  JSON.parse body = Some (VObject props) ->
  JS.member props "event" = VString kind ->
  listeners e name = (before ++ l :: after)%list ->
  Forall (fun listener => listener (JS.member props "data") = None) before ->
  l (JS.member props "data") = Some err ->
  let st' := after_console "error"
               ("Webhook parsing error: " ++ err_name err ++ ": " ++ err_message err)
               (after_emit name (JS.member props "data") st) in
  Client.handleWebhook body e st = (Returned (Client.mkReply 400 [] EmptyString), st')
  /\ emitted (trace st')
     = (emitted (trace st) ++ [(name, JS.member props "data")])%list.
Proof.
  intros Hkind Hparse Hevent Hls Hquiet Hl st'.
  split.
  - unfold Client.handleWebhook, try_catch.
    rewrite Hparse. rewrite bind_ret.
    unfold get. rewrite bind_ret. rewrite Hevent.
    assert (Hemit : emit name (JS.member props "data") e st
                    = (Thrown err, after_emit name (JS.member props "data") st)).
    { unfold emit, bind, record, ask. cbn [fst snd]. rewrite Hls.
      apply run_listeners_throws; assumption. }
    cbn [In] in Hkind.
    destruct Hkind as [H|[H|[H|[]]]]; injection H as <- <-;
      cbn [JS.is_string String.eqb Ascii.eqb Bool.eqb];
      unfold bind at 1; rewrite bind_ret; rewrite Hemit;
      reflexivity.
  - unfold st', after_console, after_emit. cbn [trace].
    rewrite !emitted_app. cbn [emitted]. now rewrite app_nil_r.
Qed.

Lemma throwing_listener_rejects_webhook_witness :
  let e := mkEnv always_failing (fun _ => "2024-01-01T00:00:00.000Z")
             (fun name => if String.eqb name "noteCreated"
                          then [fun _ => Some (Error "listener failed")]
                          else [])
             plain_engine in
  let st' := after_console "error" "Webhook parsing error: Error: listener failed"
               (after_emit "noteCreated" (VObject [("id", JS.int 1)]) initial) in
  Client.handleWebhook created_body e initial
  = (Returned (Client.mkReply 400 [] EmptyString), st')
  /\ emitted (trace st') = [("noteCreated", VObject [("id", JS.int 1)])].
Proof.
  intros e st'.
  apply (throwing_listener_rejects_webhook created_body "created" "noteCreated"
           [("event", VString "created"); ("data", VObject [("id", JS.int 1)])]
           [] [] (fun _ => Some (Error "listener failed"))
           (Error "listener failed") e initial).
  - left. reflexivity.
  - exact created_body_parses.
  - reflexivity.
  - reflexivity.
  - constructor.
  - reflexivity.
Defined.

(** ** Further properties of the handlers' HTTP path *)

Lemma lookup_spread_absent (k : string) (a b : list (string * value)) :
  JS.lookup k b = None -> JS.lookup k (JS.spread a b) = JS.lookup k a.
Proof.
  unfold JS.spread. revert a.
  induction b as [|[k0 v0] b IH]; intros a Hb; simpl; [reflexivity|].
  simpl in Hb. destruct (String.eqb_spec k0 k) as [->|Hne]; [discriminate|].
  rewrite IH by assumption. rewrite lookup_set.
  destruct (String.eqb_spec k0 k); [congruence | reflexivity].
Qed.

Lemma lookup_not_in (k : string) (l : list (string * value)) :
  ~ In k (map fst l) -> JS.lookup k l = None.
Proof.
  induction l as [|[k0 v0] l IH]; simpl; intros H; [reflexivity|].
  destruct (String.eqb_spec k0 k) as [->|Hne]; [tauto|].
  apply IH. tauto.
Qed.

Lemma lookup_spread_present (k : string) (v : value) (a b : list (string * value)) :
  NoDup (map fst b) -> JS.lookup k b = Some v ->
  JS.lookup k (JS.spread a b) = Some v.
Proof.
  unfold JS.spread. revert a.
  induction b as [|[k0 v0] b IH]; intros a Hnd Hb; simpl in *; [discriminate|].
  inversion Hnd as [|x l Hnotin Hnd']; subst.
  destruct (String.eqb_spec k0 k) as [->|Hne].
  - injection Hb as ->.
    change (fold_left (fun acc kv => JS.set (fst kv) (snd kv) acc) b (JS.set k v a))
      with (JS.spread (JS.set k v a) b).
    rewrite lookup_spread_absent by (apply lookup_not_in; assumption).
    rewrite lookup_set, String.eqb_refl. reflexivity.
  - apply IH; assumption.
Qed.

Lemma lookup_fetchOptions_headers (cfg : Config) (options : value)
    (headers : list (string * value)) (body : value) :
  JS.lookup "headers" (BaseHandler.fetchOptions cfg options headers body)
  = JS.lookup "headers"
      (JS.spread [("method", VString "GET"); ("headers", VObject headers)]
         (JS.props_of options)).
Proof.
  unfold BaseHandler.fetchOptions.
  destruct (JS.truthy body && BaseHandler.is_object body); [|reflexivity].
  rewrite lookup_set. reflexivity.
Qed.

Lemma default_headers_built (cfg : Config) :
  BaseHandler.requestHeaders cfg VUndefined = default_headers cfg.
Proof.
  unfold BaseHandler.requestHeaders, default_headers, truthy_str.
  destruct (apiKey cfg) as [key|]; [|reflexivity].
  destruct (String.eqb key EmptyString); reflexivity.
Qed.

Lemma handler_request_sent (cfg : Config) (endpoint : string)
    (props : list (string * value)) (e : env) (st : state) :
  exists out,
    BaseHandler.apiRequest cfg endpoint (VObject props) e st
    = (out, after_fetch (apiUrl cfg ++ endpoint) (handler_request cfg props) st).
Proof.
  rewrite handler_request_run. fold (handler_request cfg props).
  destruct (remote e (fetched st) (apiUrl cfg ++ endpoint) (handler_request cfg props))
    as [r|err].
  - unfold try_catch.
    pose proof (readResponse_keeps_state r e
                  (after_fetch (apiUrl cfg ++ endpoint) (handler_request cfg props) st))
      as Hst.
    destruct (BaseHandler.readResponse r e
                (after_fetch (apiUrl cfg ++ endpoint) (handler_request cfg props) st))
      as [[v|err] st1]; cbn [snd] in Hst; subst st1.
    + eexists. reflexivity.
    + destruct (onFailure_throws cfg err e
                  (after_fetch (apiUrl cfg ++ endpoint) (handler_request cfg props) st))
        as [err' ->].
      eexists. reflexivity.
  - destruct (onFailure_throws cfg err e
                (after_fetch (apiUrl cfg ++ endpoint) (handler_request cfg props) st))
      as [err' ->].
    eexists. reflexivity.
Qed.

(** X10 ([handlers/BaseHandler.js], [apiRequest]).  A request made without
    [headers] in its options carries the JSON content type and, when a key
    is configured, the key, and nothing else.  The options are spread over
    the object that holds these headers: a caller that passes [headers] of
    its own replaces them all, so that neither the content type nor the key
    is sent unless the caller's headers have them. *)
Theorem handler_request_headers
    (cfg : Config) (endpoint : string) (props : list (string * value))
    (e : env) (st : state) :
  (exists out,
     BaseHandler.apiRequest cfg endpoint (VObject props) e st
     = (out, after_fetch (apiUrl cfg ++ endpoint) (handler_request cfg props) st))
  /\ (JS.lookup "headers" props = None ->
      JS.member (JS.props_of (handler_request cfg props)) "headers"
      = VObject (default_headers cfg))
  /\ (forall h, NoDup (map fst props) -> JS.lookup "headers" props = Some h ->
      JS.member (JS.props_of (handler_request cfg props)) "headers" = h).
Proof.
  split; [apply handler_request_sent|].
  assert (Hm : JS.member (JS.props_of (handler_request cfg props)) "headers"
               = match JS.lookup "headers"
                         (JS.spread [("method", VString "GET");
                                     ("headers",
                                      VObject (BaseHandler.requestHeaders cfg
                                                 (JS.member props "headers")))]
                            props) with
                 | Some x => x
                 | None => VUndefined
                 end).
  { unfold handler_request. cbn [JS.props_of]. unfold JS.member at 1.
    now rewrite lookup_fetchOptions_headers. }
  rewrite Hm. clear Hm.
  split.
  - intros Hnone.
    rewrite lookup_spread_absent by exact Hnone.
    cbn [JS.lookup String.eqb Ascii.eqb Bool.eqb].
    unfold JS.member. rewrite Hnone. now rewrite default_headers_built.
  - intros h Hnd Hsome.
    now rewrite (lookup_spread_present "headers" h _ _ Hnd Hsome).
Qed.

(** X11 ([handlers/BaseHandler.js], [apiRequest]).  What the caller of
    [apiRequest] gets, for each answer to the one request it sends.  A
    rejected [fetch] is reported as a failed connection exactly when it is a
    [TypeError] whose message mentions [fetch], and passed on unchanged
    otherwise.  A status that is not [ok] gives the error with the status
    and the body.  The body of an [ok] response is parsed only when its
    content type mentions [application/json], and then invalid JSON makes
    the request fail with the parser's error; with any other content type,
    or none, the caller gets the text itself, even when it is valid JSON. *)
Theorem handler_request_outcome
    (cfg : Config) (endpoint : string) (props : list (string * value))
    (e : env) (st : state) :
  BaseHandler.apiRequest cfg endpoint (VObject props) e st
  = (match remote e (fetched st) (apiUrl cfg ++ endpoint) (handler_request cfg props) with
     | Rejects err =>
         Thrown (if String.eqb (err_name err) "TypeError"
                    && Str.includes (err_message err) "fetch"
                 then connection_failure cfg else err)
     | Resolves r =>
         if ok r then
           match contentType r with
           | Some ct =>
               if Str.includes ct "application/json" then
                 match JSON.parse (bodyText r) with
                 | Some v => Returned v
                 | None =>
                     Thrown (SyntaxError (syntax_error_message (eng e) (bodyText r)))
                 end
               else Returned (VString (bodyText r))
           | None => Returned (VString (bodyText r))
           end
         else Thrown (Error ("API request failed ("
                             ++ JS.num_to_string (mkNum (status r) 0) ++ "): "
                             ++ bodyText r))
     end,
     after_fetch (apiUrl cfg ++ endpoint) (handler_request cfg props) st).
Proof.
  rewrite handler_request_run. fold (handler_request cfg props).
  destruct (remote e (fetched st) (apiUrl cfg ++ endpoint) (handler_request cfg props))
    as [r|err].
  - unfold try_catch, BaseHandler.readResponse.
    destruct (ok r); cbn [negb]; [|reflexivity].
    destruct (contentType r) as [ct|]; [|reflexivity].
    destruct (String.eqb_spec ct EmptyString) as [->|Hne]; [reflexivity|].
    cbn [negb andb].
    destruct (Str.includes ct "application/json"); [|reflexivity].
    unfold response_json.
    destruct (JSON.parse (bodyText r)); reflexivity.
  - unfold BaseHandler.onFailure, connection_failure.
    destruct (String.eqb (err_name err) "TypeError"
              && Str.includes (err_message err) "fetch"); reflexivity.
Qed.
(** A key passes the test when it is a property of the object itself with a
    value other than [undefined], or, not being one, a member that every
    object inherits. *)
Lemma lacks_false (props : list (string * value)) (key : string) :
  BaseHandler.lacks props key = false
  <-> (exists v, JS.lookup key props = Some v /\ v <> VUndefined)
      \/ (JS.lookup key props = None /\ JS.inherited key = true).
Proof.
  unfold BaseHandler.lacks. destruct (JS.lookup key props) as [v|].
  - split.
    + intros H. left. exists v. split; [reflexivity|]. intros ->. discriminate.
    + intros [[v' [[= <-] Hv]] | [Hnone _]]; [|discriminate].
      destruct v; try reflexivity. congruence.
  - split.
    + intros H. right. split; [reflexivity|].
      destruct (JS.inherited key); [reflexivity | discriminate].
    + intros [[v [H _]] | [_ ->]]; [discriminate | reflexivity].
Qed.

Lemma filter_nil_iff {A : Type} (f : A -> bool) (l : list A) :
  filter f l = [] <-> Forall (fun x => f x = false) l.
Proof.
  induction l as [|x l IH]; simpl.
  - split; [constructor | reflexivity].
  - destruct (f x) eqn:Hx.
    + split; [discriminate | intros H; inversion H; congruence].
    + rewrite IH. split; [intros H; constructor; assumption | intros H; now inversion H].
Qed.

(** X13 ([handlers/BaseHandler.js], [validateParams]).  On an arguments
    object the validation passes exactly when every required key is either a
    property of the object whose value is not [undefined], or, when the
    object has no such property, the name of a member inherited from
    [Object.prototype], which the [in] operator finds.  So a key given as
    [null] is accepted, [toString] is accepted on the empty object, and a
    property set to [undefined] is reported missing even under an inherited
    name.  On arguments that are [undefined] a [TypeError] is thrown as soon
    as one key is required. *)
Theorem validation_accepts_defined_keys
    (props : list (string * value)) (required : list string) (e : env) (st : state) :
  (BaseHandler.validateParams (VObject props) required e st = (Returned tt, st)
   <-> Forall (fun key =>
                 (exists v, JS.lookup key props = Some v /\ v <> VUndefined)
                 \/ (JS.lookup key props = None /\ JS.inherited key = true))
         required)
  /\ (forall key, BaseHandler.validateParams (VObject [(key, VNull)]) [key] e st
                  = (Returned tt, st))
  /\ BaseHandler.validateParams (VObject []) ["toString"] e st = (Returned tt, st)
  /\ BaseHandler.validateParams (VObject [("toString", VUndefined)]) ["toString"] e st
     = (Thrown (Error "Missing required parameters: toString"), st)
  /\ BaseHandler.validateParams (VObject []) ["id"] e st
     = (Thrown (Error "Missing required parameters: id"), st)
  /\ (forall key rest,
        BaseHandler.validateParams VUndefined (key :: rest) e st
        = (Thrown (TypeError ("Cannot use 'in' operator to search for '" ++ key
                              ++ "' in undefined")), st)).
Proof.
  assert (Hiff : forall ps req,
            BaseHandler.validateParams (VObject ps) req e st = (Returned tt, st)
            <-> Forall (fun key =>
                          (exists v, JS.lookup key ps = Some v /\ v <> VUndefined)
                          \/ (JS.lookup key ps = None /\ JS.inherited key = true))
                  req).
  { intros ps req. split.
    - intros Hrun.
      destruct (filter (BaseHandler.lacks ps) req) as [|k ks] eqn:Hf.
      + apply filter_nil_iff in Hf.
        eapply Forall_impl; [|exact Hf]. intros key. apply lacks_false.
      + rewrite validateParams_missing in Hrun by (rewrite Hf; discriminate).
        discriminate.
    - intros Hall. apply validateParams_complete. apply filter_nil_iff.
      eapply Forall_impl; [|exact Hall]. intros key. apply lacks_false. }
  split; [apply Hiff|]. split; [|split; [|split; [|split]]].
  - intros key. apply Hiff. constructor; [|constructor].
    left. exists VNull. cbn [JS.lookup]. rewrite String.eqb_refl.
    split; [reflexivity | discriminate].
  - reflexivity.
  - reflexivity.
  - reflexivity.
  - intros key rest. reflexivity.
Qed.

(** ** Paths built by the handlers *)

Lemma byte_range (c : ascii) : 0 <= Z.of_nat (nat_of_ascii c) < 256.
Proof. pose proof (nat_ascii_bounded c). lia. Qed.

Lemma hex_digit_alnum (n : Z) : 0 <= n < 16 -> JS.is_alnum (JS.hex_digit n) = true.
Proof.
  intros H. assert (Hk : (Z.to_nat n < 16)%nat) by lia.
  rewrite <- (Z2Nat.id n) by lia.
  set (k := Z.to_nat n) in *. clearbody k. clear H.
  do 16 (destruct k as [|k]; [reflexivity|]).
  lia.
Qed.

Lemma hex_digit_inj (n m : Z) :
  0 <= n < 16 -> 0 <= m < 16 -> JS.hex_digit n = JS.hex_digit m -> n = m.
Proof.
  intros Hn Hm H. unfold JS.hex_digit in H.
  apply (f_equal nat_of_ascii) in H.
  rewrite !nat_ascii_embedding in H
    by (destruct (n <? 10), (m <? 10); lia).
  destruct (n <? 10) eqn:En, (m <? 10) eqn:Em;
    rewrite ?Z.ltb_lt, ?Z.ltb_ge in En, Em; lia.
Qed.

Lemma percent_byte_inj (a b : ascii) (x y : string) :
  (JS.percent_byte a ++ x)%string = (JS.percent_byte b ++ y)%string ->
  a = b /\ x = y.
Proof.
  unfold JS.percent_byte. cbn [append]. intros H.
  injection H as Hhi Hlo Hrest.
  pose proof (byte_range a) as Ha. pose proof (byte_range b) as Hb.
  apply hex_digit_inj in Hhi;
    [|split; [apply Z.div_pos; lia | apply Z.div_lt_upper_bound; lia]
     |split; [apply Z.div_pos; lia | apply Z.div_lt_upper_bound; lia]].
  apply hex_digit_inj in Hlo; [|apply Z.mod_pos_bound; lia | apply Z.mod_pos_bound; lia].
  split; [|exact Hrest].
  assert (Heq : Z.of_nat (nat_of_ascii a) = Z.of_nat (nat_of_ascii b)).
  { rewrite (Z.div_mod (Z.of_nat (nat_of_ascii a)) 16) by lia.
    rewrite (Z.div_mod (Z.of_nat (nat_of_ascii b)) 16) by lia.
    now rewrite Hhi, Hlo. }
  apply Nat2Z.inj in Heq.
  rewrite <- (ascii_nat_embedding a), <- (ascii_nat_embedding b).
  now rewrite Heq.
Qed.

Lemma percent_not_unreserved :
  JS.is_alnum "%" || JS.one_of "-_.!~*'()" "%" = false.
Proof. reflexivity. Qed.

Lemma encodeURIComponent_str_inj (s1 : string) :
  forall s2, JS.encodeURIComponent_str s1 = JS.encodeURIComponent_str s2 -> s1 = s2.
Proof.
  induction s1 as [|a1 s1 IH]; intros [|a2 s2] H.
  - reflexivity.
  - cbn [JS.encodeURIComponent_str] in H.
    destruct (JS.is_alnum a2 || JS.one_of "-_.!~*'()" a2); discriminate.
  - cbn [JS.encodeURIComponent_str] in H.
    destruct (JS.is_alnum a1 || JS.one_of "-_.!~*'()" a1); discriminate.
  - cbn [JS.encodeURIComponent_str] in H.
    destruct (JS.is_alnum a1 || JS.one_of "-_.!~*'()" a1) eqn:E1;
      destruct (JS.is_alnum a2 || JS.one_of "-_.!~*'()" a2) eqn:E2.
    + cbn [append] in H. injection H as -> H. now rewrite (IH s2 H).
    + exfalso. unfold JS.percent_byte in H. cbn [append] in H.
      injection H as -> _. rewrite percent_not_unreserved in E1. discriminate.
    + exfalso. unfold JS.percent_byte in H. cbn [append] in H.
      injection H as <- _. rewrite percent_not_unreserved in E2. discriminate.
    + apply percent_byte_inj in H. destruct H as [-> H]. now rewrite (IH s2 H).
Qed.

Lemma append_inv_tail (z : string) :
  forall x y : string, (x ++ z)%string = (y ++ z)%string -> x = y.
Proof.
  induction x as [|a x IH]; intros [|b y] H.
  - reflexivity.
  - exfalso. apply (f_equal String.length) in H.
    cbn [append String.length] in H. rewrite length_append in H. lia.
  - exfalso. apply (f_equal String.length) in H.
    cbn [append String.length] in H. rewrite length_append in H. lia.
  - cbn [append] in H. injection H as -> H. now rewrite (IH y H).
Qed.

Lemma one_of_percent_false (c : ascii) :
  JS.one_of "-_.!~*'()%" c = false ->
  JS.one_of "-_.!~*'()" c = false /\ Ascii.eqb c "%" = false.
Proof.
  unfold JS.one_of. cbn [list_ascii_of_string existsb].
  intros H.
  repeat (apply orb_false_elim in H; destruct H as [? H]).
  split; [|assumption].
  repeat (apply orb_false_intro; [assumption|]). reflexivity.
Qed.

Lemma encoded_lacks (c : ascii) (s : string) :
  JS.is_alnum c = false ->
  JS.one_of "-_.!~*'()%" c = false ->
  Str.lacks c (JS.encodeURIComponent_str s) = true.
Proof.
  intros Halnum Hone.
  destruct (one_of_percent_false c Hone) as [Hmark Hpercent].
  induction s as [|a s IH]; [reflexivity|].
  cbn [JS.encodeURIComponent_str]. rewrite lacks_append, IH, andb_true_r.
  destruct (JS.is_alnum a || JS.one_of "-_.!~*'()" a) eqn:Ea.
  - cbn [Str.lacks]. rewrite andb_true_r.
    destruct (Ascii.eqb_spec a c) as [->|Hne]; [|reflexivity].
    rewrite Halnum, Hmark in Ea. discriminate.
  - unfold JS.percent_byte. cbn [Str.lacks].
    pose proof (byte_range a) as Ha.
    assert (Hhex : forall n, 0 <= n < 16 -> Ascii.eqb (JS.hex_digit n) c = false).
    { intros n Hn. destruct (Ascii.eqb_spec (JS.hex_digit n) c) as [<-|]; [|reflexivity].
      rewrite hex_digit_alnum in Halnum by assumption. discriminate. }
    rewrite !Hhex
      by (first [apply Z.mod_pos_bound; lia
                | split; [apply Z.div_pos; lia | apply Z.div_lt_upper_bound; lia]]).
    rewrite Ascii.eqb_sym, Hpercent. reflexivity.
Qed.

(** X14 ([handlers/BaseHandler.js], [getProjectEndpoint]).  The project
    identifier occupies one segment of the path: whatever it is, none of the
    characters that delimit the parts of a URL occurs in the text put
    between [/api/projects/] and the rest of the path. *)
Theorem project_endpoint_is_one_segment
    (projectId : value) (path : string) (c : ascii) :
  In c ["/"; "?"; "#"; "&"; "="; "+"; ":"; "@"; " "]%char ->
  exists segment,
    BaseHandler.getProjectEndpoint projectId path
    = ("/api/projects/" ++ segment ++ path)%string
    /\ Str.lacks c segment = true.
Proof.
  intros Hc. exists (JS.encodeURIComponent projectId).
  split; [reflexivity|].
  unfold JS.encodeURIComponent.
  cbn [In] in Hc.
  repeat (destruct Hc as [<-|Hc]; [apply encoded_lacks; reflexivity|]).
  destruct Hc.
Qed.

Lemma project_endpoint_is_one_segment_witness :
  exists segment,
    BaseHandler.getProjectEndpoint (VString "a/b?c") "/notes"
    = ("/api/projects/" ++ segment ++ "/notes")%string
    /\ Str.lacks "/" segment = true.
Proof.
  apply (project_endpoint_is_one_segment (VString "a/b?c") "/notes" "/"%char).
  left. reflexivity.
Defined.

(** X15 ([handlers/BaseHandler.js], [getProjectEndpoint]).  Two different
    project names never give the same endpoint: the encoding of the name can
    be read back. *)
Theorem project_endpoint_separates_projects (p1 p2 path : string) :
  p1 <> p2 ->
  BaseHandler.getProjectEndpoint (VString p1) path
  <> BaseHandler.getProjectEndpoint (VString p2) path.
Proof.
  intros Hne H. apply Hne. revert H.
  unfold BaseHandler.getProjectEndpoint, JS.encodeURIComponent.
  cbn [JS.to_string]. intros H.
  cbn [append] in H. injection H as H.
  apply append_inv_tail in H.
  now apply encodeURIComponent_str_inj.
Qed.

Lemma project_endpoint_separates_projects_witness :
  BaseHandler.getProjectEndpoint (VString "team a") "/notes"
  <> BaseHandler.getProjectEndpoint (VString "team%20a") "/notes".
Proof.
  apply (project_endpoint_separates_projects "team a" "team%20a" "/notes").
  discriminate.
Defined.

(** ** What the tools return *)

Section Outcomes.

Context {A B : Type}.

Lemma returns_only_ret (P : A -> Prop) (a : A) : P a -> returns_only P (ret a).
Proof. intros H e st. exact H. Qed.

Lemma returns_only_throw (P : A -> Prop) (err : error) : returns_only P (throw err).
Proof. intros e st. exact I. Qed.

Lemma returns_only_bind (P : B -> Prop) (m : M A) (k : A -> M B) :
  (forall a, returns_only P (k a)) -> returns_only P (bind m k).
Proof.
  intros H e st. unfold bind.
  destruct (m e st) as [[a|err] st1]; [apply H | exact I].
Qed.

Lemma returns_only_try_catch (P : A -> Prop) (m : M A) (h : error -> M A) :
  returns_only P m -> (forall err, returns_only P (h err)) ->
  returns_only P (try_catch m h).
Proof.
  intros Hm Hh e st. unfold try_catch. specialize (Hm e st).
  destruct (m e st) as [[a|err] st1]; [exact Hm | apply Hh].
Qed.

Lemma always_returns_try_catch (P : A -> Prop) (m : M A) (h : error -> M A) :
  returns_only P m -> (forall err, always_returns P (h err)) ->
  always_returns P (try_catch m h).
Proof.
  intros Hm Hh e st. unfold try_catch. specialize (Hm e st).
  destruct (m e st) as [[a|err] st1]; [|apply Hh].
  exists a, st1. split; [reflexivity | exact Hm].
Qed.

Lemma always_returns_weaken (P : A -> Prop) (m : M A) :
  always_returns P m -> returns_only P m.
Proof.
  intros H e st. destruct (H e st) as (a & st' & -> & Ha). exact Ha.
Qed.

End Outcomes.

Lemma formatSuccess_envelope (data message : value) :
  always_returns (fun v => is_envelope v = true) (BaseHandler.formatSuccess data message).
Proof. intros e st. eexists. eexists. split; reflexivity. Qed.

Lemma formatError_envelope (err : error) (tool : value) :
  always_returns (fun v => is_envelope v = true) (BaseHandler.formatError err tool).
Proof. intros e st. eexists. eexists. split; reflexivity. Qed.

Lemma returns_only_formatSuccess (data message : value) :
  returns_only (fun v => is_envelope v = true) (BaseHandler.formatSuccess data message).
Proof. apply always_returns_weaken, formatSuccess_envelope. Qed.

(** One step of the analysis of a tool's code: through a sequence, a [try],
    a branch, down to the envelope it ends with. *)
Ltac envelope_step :=
  first
    [ apply returns_only_formatSuccess
    | apply returns_only_throw
    | apply returns_only_ret; reflexivity
    | apply returns_only_bind; intros
    | apply returns_only_try_catch; [|intros]
    | match goal with
      | |- returns_only _ (if ?c then _ else _) => destruct c
      | |- returns_only _ (match ?x with _ => _ end) => destruct x
      end ].

Ltac envelope := repeat envelope_step.

Lemma note_results (cfg : Config) (toolName : string) (props : list (string * value))
    (ctx : Context) :
  always_returns (fun v => is_envelope v = true)
    (NoteHandler.handleTool cfg toolName (VObject props) ctx).
Proof.
  unfold NoteHandler.handleTool. cbn [get]. intros e st. rewrite bind_ret. revert e st.
  apply always_returns_try_catch; [|intros err; apply formatError_envelope].
  unfold NoteHandler.listNotes, NoteHandler.getNote, NoteHandler.createNote,
    NoteHandler.updateNote, NoteHandler.deleteNote, NoteHandler.generateContexts,
    NoteHandler.getContextStats, NoteHandler.inspectContent,
    NoteHandler.previewUpdate, NoteHandler.validateUpdate,
    NoteHandler.suggestPatterns.
  envelope.
Qed.

Lemma cross_reference_results (cfg : Config) (toolName : string)
    (props : list (string * value)) (ctx : Context) :
  always_returns (fun v => is_envelope v = true)
    (CrossReferenceHandler.handleTool cfg toolName (VObject props) ctx).
Proof.
  unfold CrossReferenceHandler.handleTool. cbn [get]. intros e st.
  rewrite bind_ret. revert e st.
  apply always_returns_try_catch; [|intros err; apply formatError_envelope].
  unfold CrossReferenceHandler.addWikilink, CrossReferenceHandler.removeWikilink,
    CrossReferenceHandler.getNoteConnections, CrossReferenceHandler.suggestConnections,
    CrossReferenceHandler.validateNoteLinks, CrossReferenceHandler.getKnowledgeBaseHealth.
  envelope.
Qed.

Lemma project_info_results (cfg : Config) (params : value) (ctx : Context) :
  returns_only (fun v => is_envelope v = true)
    (ProjectHandler.getProjectInfo cfg params ctx).
Proof. unfold ProjectHandler.getProjectInfo. envelope. Qed.

Lemma project_results (cfg : Config) (toolName : string) (params : value)
    (ctx : Context) :
  always_returns (fun v => is_envelope v = true)
    (ProjectHandler.handleTool cfg toolName params ctx).
Proof.
  unfold ProjectHandler.handleTool.
  apply always_returns_try_catch; [|intros err; apply formatError_envelope].
  unfold ProjectHandler.listProjects, ProjectHandler.getCurrentContext.
  pose proof project_info_results.
  envelope; auto.
Qed.

Lemma stats_results (cfg : Config) (toolName : string) (params : value)
    (ctx : Context) :
  always_returns (fun v => is_envelope v = true)
    (StatsHandler.handleTool cfg toolName params ctx).
Proof.
  unfold StatsHandler.handleTool.
  apply always_returns_try_catch; [|intros err; apply formatError_envelope].
  unfold StatsHandler.getProjectStats, StatsHandler.getSystemStats,
    StatsHandler.getUsageStats, StatsHandler.getFolderStats,
    StatsHandler.buildBasicSystemStats.
  envelope.
Qed.

Lemma search_at_results (cfg : Config) (projectId : value) :
  forall (depth : nat) (params : value),
    returns_only (fun v => is_envelope v = true)
      (SearchHandler.search_at depth cfg projectId params).
Proof.
  induction depth as [|depth IH]; intros params; cbn [SearchHandler.search_at].
  - envelope.
  - envelope; apply IH.
Qed.

Lemma search_results (cfg : Config) (toolName : string)
    (props : list (string * value)) (ctx : Context) :
  always_returns (fun v => is_envelope v = true)
    (SearchHandler.handleTool cfg toolName (VObject props) ctx).
Proof.
  unfold SearchHandler.handleTool. cbn [get]. intros e st.
  rewrite bind_ret. revert e st.
  apply always_returns_try_catch; [|intros err; apply formatError_envelope].
  unfold SearchHandler.graphSearch, SearchHandler.search.
  pose proof (search_at_results cfg) as Hsearch.
  envelope; apply Hsearch.
Qed.

(** ** Further properties of the MCP server *)

(** The shape of every reply the loop of [CallTool] produces. *)
Lemma findAndCall_shape (srv : Server.t) (name : string) (args : value) :
  forall hs : list Server.Handler,
    returns_only
      (fun reply => exists text, reply = Server.mkResult [Server.mkItem "text" text] None)
      (Server.findAndCall srv hs name args).
Proof.
  induction hs as [|h hs IH]; cbn [Server.findAndCall].
  - apply returns_only_throw.
  - apply returns_only_bind. intros [|].
    + apply returns_only_bind. intros result.
      apply returns_only_ret. eexists. reflexivity.
    + exact IH.
Qed.

(** X16 ([index.js], [CallTool] handler).  A tool call is always answered:
    whatever the registered handlers, the tool name and the arguments, the
    request handler returns a reply made of one text item, with an [isError]
    member that is either absent or [true]; it never throws. *)
Theorem call_tool_always_answers
    (srv : Server.t) (name : string) (args : value) (e : env) (st : state) :
  exists (text : option string) (flag : option bool) (st' : state),
    Server.CallTool srv name args e st
    = (Returned (Server.mkResult [Server.mkItem "text" text] flag), st')
    /\ (flag = None \/ flag = Some true).
Proof.
  unfold Server.CallTool, try_catch.
  pose proof (findAndCall_shape srv name args (Server.handlers srv) e st) as Hshape.
  destruct (Server.findAndCall srv (Server.handlers srv) name args e st)
    as [[reply|err] st1]; cbn [fst] in Hshape.
  - destruct Hshape as [text ->]. exists text, None, st1.
    split; [reflexivity | left; reflexivity].
  - unfold bind at 1. rewrite log_run.
    unfold bind, now_iso, ret.
    eexists. exists (Some true). eexists.
    split; [reflexivity | right; reflexivity].
Qed.

Lemma findAndCall_listed (cfg : Config) (srv : Server.t) (toolName : string)
    (props : list (string * value)) (e : env) (st : state) :
  Server.construct cfg = Returned srv ->
  existsb (String.eqb toolName) (map name catalog) = true ->
  exists (v : value) (st' : state),
    Server.findAndCall srv (Server.handlers srv) toolName (VObject props) e st
    = (Returned (Server.mkResult
                   [Server.mkItem "text" (JSON.stringify_pretty v)] None), st')
    /\ is_envelope v = true.
Proof.
  intros Hsrv Hin.
  destruct (constructed_handlers cfg srv Hsrv) as [_ ->].
  rewrite catalog_names, !existsb_app in Hin.
  assert (Hcall : forall run rest,
            always_returns (fun v => is_envelope v = true) run ->
            exists v st',
              bind (ret true)
                (fun can : bool =>
                   if can then
                     result <- run ;;
                     ret (Server.mkResult
                            [Server.mkItem "text" (JSON.stringify_pretty result)] None)
                   else rest) e st
              = (Returned (Server.mkResult
                             [Server.mkItem "text" (JSON.stringify_pretty v)] None), st')
              /\ is_envelope v = true).
  { intros run rest Hrun. destruct (Hrun e st) as (v & st' & Hv & Henv).
    exists v, st'. rewrite bind_ret. unfold bind. rewrite Hv.
    split; [reflexivity | exact Henv]. }
  cbn [Server.findAndCall Server.canHandleTool Server.handleTool
       Server.noteHandler Server.searchHandler Server.projectHandler
       Server.statsHandler Server.crossReferenceHandler].
  unfold NoteHandler.canHandleTool, SearchHandler.canHandleTool,
    ProjectHandler.canHandleTool, StatsHandler.canHandleTool,
    CrossReferenceHandler.canHandleTool.
  destruct (existsb (String.eqb toolName) NoteHandler.tools);
    [apply Hcall, note_results|].
  rewrite bind_ret.
  destruct (existsb (String.eqb toolName) SearchHandler.tools);
    [apply Hcall, search_results|].
  rewrite bind_ret.
  destruct (existsb (String.eqb toolName) ProjectHandler.tools);
    [apply Hcall, project_results|].
  rewrite bind_ret.
  destruct (existsb (String.eqb toolName) StatsHandler.tools);
    [apply Hcall, stats_results|].
  rewrite bind_ret.
  destruct (existsb (String.eqb toolName) CrossReferenceHandler.tools);
    [apply Hcall, cross_reference_results|].
  discriminate.
Qed.

(** X17 ([index.js], [CallTool] handler; the [handleTool] methods of the five
    handlers).  For every tool the server lists, a call with an arguments
    object is routed to a handler and answered without the [isError] flag,
    whatever the API does: the text of the reply is an envelope with a
    boolean [success] member, in which the handlers also report their
    failures. *)
Theorem listed_tool_reply_is_an_envelope
    (cfg : Config) (srv : Server.t) (tool : Tool) (props : list (string * value))
    (e : env) (st : state) :
  Server.construct cfg = Returned srv ->
  In tool catalog ->
  exists (v : value) (st' : state),
    Server.CallTool srv (name tool) (VObject props) e st
    = (Returned (Server.mkResult
                   [Server.mkItem "text" (JSON.stringify_pretty v)] None), st')
    /\ is_envelope v = true.
Proof.
  intros Hsrv Hin.
  destruct (findAndCall_listed cfg srv (name tool) props e st Hsrv)
    as (v & st' & Hrun & Henv).
  - apply existsb_exists. exists (name tool).
    split; [apply in_map; exact Hin | apply String.eqb_refl].
  - exists v, st'. split; [|exact Henv].
    unfold Server.CallTool, try_catch. now rewrite Hrun.
Qed.

Lemma listed_tool_reply_is_an_envelope_witness :
  exists (v : value) (st' : state),
    Server.CallTool session_server "get_note" (VObject [("id", JS.int 5)])
      (env_with always_failing) initial
    = (Returned (Server.mkResult
                   [Server.mkItem "text" (JSON.stringify_pretty v)] None), st')
    /\ is_envelope v = true.
Proof.
  apply (listed_tool_reply_is_an_envelope (config_with_key (Some session_key))
           session_server (mkTool "get_note" ["id"]) [("id", JS.int 5)]
           (env_with always_failing) initial).
  - reflexivity.
  - right. left. reflexivity.
Defined.

Lemma findAndCall_without_arguments (cfg : Config) (srv : Server.t) (tool : Tool)
    (e : env) (st : state) :
  Server.construct cfg = Returned srv ->
  In tool (NoteHandler.getTools ++ SearchHandler.getTools
           ++ CrossReferenceHandler.getTools)%list ->
  Server.findAndCall srv (Server.handlers srv) (name tool) VUndefined e st
  = (Thrown (TypeError "Cannot read properties of undefined (reading 'projectId')"),
     st).
Proof.
  intros Hsrv Hin.
  destruct (constructed_handlers cfg srv Hsrv) as [_ ->].
  cbn [NoteHandler.getTools SearchHandler.getTools CrossReferenceHandler.getTools
       app In] in Hin.
  repeat (destruct Hin as [<- | Hin]; [reflexivity|]).
  contradiction.
Qed.

(** X18 ([index.js], [CallTool] handler; [handleTool] of the note, search
    and cross-reference handlers).  These handlers read [params.projectId]
    before their [try] block.  A call of one of their tools that carries no
    arguments, also of a tool that requires none, such as [list_notes], is
    therefore answered with the [isError] reply about reading [projectId] of
    [undefined], and no request is sent. *)
Theorem call_without_arguments
    (cfg : Config) (srv : Server.t) (tool : Tool) (e : env) (st : state) :
  Server.construct cfg = Returned srv ->
  In tool (NoteHandler.getTools ++ SearchHandler.getTools
           ++ CrossReferenceHandler.getTools)%list ->
  let message := "Cannot read properties of undefined (reading 'projectId')" in
  let st' := after_log srv e
               ("Tool execution failed: " ++ name tool ++ " - " ++ message) st in
  Server.CallTool srv (name tool) VUndefined e st
  = (Returned
       (Server.mkResult
          [Server.mkItem "text"
             (Some (error_text message (name tool) (clock e (ticks st'))))]
          (Some true)),
     after_tick st')
  /\ requests (trace (after_tick st')) = requests (trace st).
Proof.
  intros Hsrv Hin message st'. split.
  - unfold Server.CallTool, try_catch.
    rewrite (findAndCall_without_arguments cfg srv tool e st Hsrv Hin).
    unfold bind at 1. rewrite log_run.
    cbn [err_message TypeError Server.toUpperCase Server.upper].
    unfold bind, now_iso, ret. rewrite error_body_text.
    subst st' message. unfold after_log.
    destruct (logging_enabled (Server.config srv)); reflexivity.
  - subst st'. unfold after_log, after_tick, after_console.
    destruct (logging_enabled (Server.config srv)); cbn [trace];
      rewrite ?requests_app; cbn [requests]; lia.
Qed.

Lemma call_without_arguments_witness :
  exists timestamp st',
    Server.CallTool session_server "list_notes" VUndefined
      (env_with note_remote) initial
    = (Returned
         (Server.mkResult
            [Server.mkItem "text"
               (Some (error_text
                        "Cannot read properties of undefined (reading 'projectId')"
                        "list_notes" timestamp))]
            (Some true)), st')
    /\ requests (trace st') = 0%nat.
Proof.
  eexists. eexists.
  apply (call_without_arguments (config_with_key (Some session_key))
           session_server (mkTool "list_notes" [])
           (env_with note_remote) initial).
  - reflexivity.
  - left. reflexivity.
Defined.

(** The probe of [getSystemHealth]: its address and its options. *)
Lemma getSystemHealth_run (srv : Server.t) (e : env) (st : state) :
  let url := (apiUrl (Server.config srv) ++ "/health")%string in
  let options := VObject [("headers", Server.healthHeaders srv)] in
  exists (rest : list (string * value)) (status : string),
    Server.getSystemHealth srv e st
    = (Returned (VObject (("status", VString status) :: rest)),
       after_tick (after_fetch url options st))
    /\ (status = "healthy"
        /\ (exists r, remote e (fetched st) url options = Resolves r /\ ok r = true)
        \/ status = "degraded"
           /\ ~ (exists r, remote e (fetched st) url options = Resolves r /\ ok r = true)).
Proof.
  intros url options. unfold Server.getSystemHealth, try_catch.
  fold url options. unfold bind at 1, fetch.
  destruct (remote e (fetched st) url options) as [r|err] eqn:Hremote.
  - destruct (ok r) eqn:Hok; cbn [negb].
    + eexists. exists "healthy". split; [reflexivity|].
      left. split; [reflexivity|]. exists r. split; [reflexivity | exact Hok].
    + eexists. exists "degraded". split; [reflexivity|].
      right. split; [reflexivity|]. intros [r' [[= <-] Hok']]. congruence.
  - eexists. exists "degraded". split; [reflexivity|].
    right. split; [reflexivity|]. intros [r' [Hr _]]. discriminate.
Qed.

(** X19 ([index.js], [getSystemHealth]).  The health report never fails: it
    sends exactly one request to [/health], reads the clock once, and
    returns a report whose [status] is [healthy] when the request was
    answered with an [ok] status and [degraded] in every other case, a
    rejected request included. *)
Theorem system_health_never_throws (srv : Server.t) (e : env) (st : state) :
  let url := (apiUrl (Server.config srv) ++ "/health")%string in
  let options := VObject [("headers", Server.healthHeaders srv)] in
  exists (report : value) (st' : state),
    Server.getSystemHealth srv e st = (Returned report, st')
    /\ requests (trace st') = S (requests (trace st))
    /\ (JS.member (JS.props_of report) "status" = VString "healthy"
        \/ JS.member (JS.props_of report) "status" = VString "degraded")
    /\ (JS.member (JS.props_of report) "status" = VString "healthy"
        <-> exists r, remote e (fetched st) url options = Resolves r /\ ok r = true).
Proof.
  intros url options.
  destruct (getSystemHealth_run srv e st) as (rest & status & Hrun & Hstatus).
  fold url options in Hrun, Hstatus.
  eexists. eexists. split; [exact Hrun|].
  split.
  { unfold after_tick, after_fetch. cbn [trace]. rewrite requests_app.
    cbn [requests]. lia. }
  cbn [JS.props_of]. unfold JS.member. cbn [JS.lookup String.eqb Ascii.eqb Bool.eqb].
  destruct Hstatus as [[-> Hok] | [-> Hbad]].
  - split; [left; reflexivity|]. split; [intros _; exact Hok | reflexivity].
  - split; [right; reflexivity|]. split; [discriminate | intros H; contradiction].
Qed.

(** X20 ([index.js], [ListResources] and [ReadResource] handlers).  Each of
    the three resources the server lists can be read, whatever the API
    does: the reply has one item, with the address asked for and the listed
    type.  Any other address makes the handler throw, and the message names
    the address twice, since the error of the [default] branch is caught and
    wrapped by the handler's own [catch]. *)
Theorem listed_resources_are_readable
    (version : value) (srv : Server.t) (address : string) (e : env) (st : state) :
  (forall resource, In resource Server.ListResources ->
     exists (text : option string) (st' : state),
       Server.ReadResource version srv (Server.uri resource) e st
       = (Returned [Server.mkContents (Server.uri resource)
                      (Server.mimeType resource) text], st'))
  /\ (~ In address (map Server.uri Server.ListResources) ->
      Server.ReadResource version srv address e st
      = (Thrown (Error ("Failed to read resource " ++ address
                        ++ ": Unknown resource: " ++ address)), st)).
Proof.
  split.
  - intros resource Hin. cbn [Server.ListResources In] in Hin.
    destruct Hin as [<- | [<- | [<- | []]]]; cbn [Server.uri Server.mimeType].
    + eexists. eexists. reflexivity.
    + unfold Server.ReadResource, try_catch.
      cbn [String.eqb Ascii.eqb Bool.eqb].
      destruct (getSystemHealth_run srv e st) as (rest & status & Hrun & _).
      unfold bind. rewrite Hrun. eexists. eexists. reflexivity.
    + eexists. eexists. reflexivity.
  - intros Hout. cbn [Server.ListResources map Server.uri In] in Hout.
    unfold Server.ReadResource, try_catch.
    destruct (String.eqb_spec address "knowledge://project/current") as [->|_];
      [exfalso; apply Hout; auto|].
    destruct (String.eqb_spec address "knowledge://system/health") as [->|_];
      [exfalso; apply Hout; auto|].
    destruct (String.eqb_spec address "knowledge://portable/info") as [->|_];
      [exfalso; apply Hout; auto|].
    reflexivity.
Qed.

(** ** Further properties of the note tools *)

Lemma returns_only_bind_never {A B : Type} (P : B -> Prop) (m : M A) (k : A -> M B) :
  returns_only (fun _ => False) m -> returns_only P (bind m k).
Proof.
  intros H e st. unfold bind. specialize (H e st).
  destruct (m e st) as [[a|err] st1]; [destruct H | exact I].
Qed.

Lemma buildResponse_never (receiver : string) (args : list value) :
  returns_only (fun _ => False) (ResponseBuilder.buildResponse receiver args).
Proof. intros e st. exact I. Qed.

(** A step of the analysis of a method that ends in a call of
    [buildResponse]. *)
Ltac never_step :=
  first
    [ apply returns_only_throw
    | apply returns_only_bind_never; apply buildResponse_never
    | apply returns_only_bind; intros
    | match goal with
      | |- returns_only _ (if ?c then _ else _) => destruct c eqn:?
      end ].

Lemma failure_envelope (toolName : string) (m : M value) (e : env) (st : state) :
  returns_only (fun _ => False) m ->
  exists v st',
    try_catch m (fun error => BaseHandler.formatError error (VString toolName)) e st
    = (Returned v, st')
    /\ success_of v = VBool false.
Proof.
  intros H. unfold try_catch. specialize (H e st).
  destruct (m e st) as [[a|err] st1]; [destruct H|].
  eexists. eexists. split; reflexivity.
Qed.

Lemma getNote_never (cfg : Config) (projectId params : value) :
  returns_only (fun _ => False) (NoteHandler.getNote cfg projectId params).
Proof. unfold NoteHandler.getNote. repeat never_step. Qed.

Lemma createNote_never (cfg : Config) (projectId params : value) :
  returns_only (fun _ => False) (NoteHandler.createNote cfg projectId params).
Proof. unfold NoteHandler.createNote. repeat never_step. Qed.

Lemma returns_only_bind_ret {A B : Type} (P : B -> Prop) (a : A) (k : A -> M B) :
  returns_only P (k a) -> returns_only P (bind (ret a) k).
Proof. intros H e st. rewrite bind_ret. apply H. Qed.

Lemma updateNote_preview_only (cfg : Config) (projectId : value)
    (props : list (string * value)) :
  JS.truthy (JS.member props "preview") = false ->
  returns_only (fun _ => False) (NoteHandler.updateNote cfg projectId (VObject props)).
Proof.
  intros Hpreview. unfold NoteHandler.updateNote.
  repeat first
    [ match goal with
      | |- returns_only _ (bind (get (VObject props) "preview") _) =>
          cbn [get]; apply returns_only_bind_ret; cbn beta; rewrite Hpreview
      end
    | never_step ].
Qed.

Lemma listNotes_succeeds_without_a_list (cfg : Config) (projectId params : value) :
  returns_only
    (fun v => success_of v = VBool true
              -> is_array (JS.member (JS.props_of v) "data") = false)
    (NoteHandler.listNotes cfg projectId params).
Proof.
  unfold NoteHandler.listNotes.
  do 7 (apply returns_only_bind; intros).
  apply returns_only_bind; intros data.
  apply returns_only_bind; intros data_notes.
  match goal with
  | |- returns_only _ (if ?c then _ else _) => destruct c eqn:Hlist
  end.
  - repeat never_step.
  - intros e st. cbn. intros _.
    apply orb_false_elim in Hlist. destruct Hlist as [_ Hdata].
    destruct data; try reflexivity. discriminate.
Qed.

(** X21 ([handlers/NoteHandler.js], [getNote], [createNote], [updateNote],
    [listNotes]; [utils/ResponseBuilder.js]).  The methods that call
    [buildResponse] cannot complete, whatever the arguments and whatever the
    API answers: [get_note] and [create_note] never report success,
    [update_note] reports it only for a preview, and [list_notes] only when
    the data of the API's answer is not a list. *)
Theorem note_tools_cannot_report_success
    (cfg : Config) (props : list (string * value)) (ctx : Context)
    (e : env) (st : state) :
  (forall toolName, In toolName ["get_note"; "create_note"] ->
     exists v st',
       NoteHandler.handleTool cfg toolName (VObject props) ctx e st = (Returned v, st')
       /\ success_of v = VBool false)
  /\ (JS.truthy (JS.member props "preview") = false ->
      exists v st',
        NoteHandler.handleTool cfg "update_note" (VObject props) ctx e st
        = (Returned v, st')
        /\ success_of v = VBool false)
  /\ (forall v st',
        NoteHandler.handleTool cfg "list_notes" (VObject props) ctx e st
        = (Returned v, st') ->
        success_of v = VBool true ->
        is_array (JS.member (JS.props_of v) "data") = false).
Proof.
  unfold NoteHandler.handleTool. cbn [get]. rewrite !bind_ret.
  split; [|split].
  - intros toolName Hin. cbn [In] in Hin.
    destruct Hin as [<- | [<- | []]]; cbn [String.eqb Ascii.eqb Bool.eqb];
      apply failure_envelope; [apply getNote_never | apply createNote_never].
  - intros Hpreview. cbn [String.eqb Ascii.eqb Bool.eqb].
    apply failure_envelope, updateNote_preview_only, Hpreview.
  - intros v st'. cbn [String.eqb Ascii.eqb Bool.eqb].
    unfold try_catch.
    pose proof (listNotes_succeeds_without_a_list cfg
                  (JS.or (JS.member props "projectId") (VString (currentProject ctx)))
                  (VObject props) e st) as Hlist.
    destruct (NoteHandler.listNotes cfg _ (VObject props) e st) as [[a|err] st1];
      cbn [fst] in Hlist.
    + intros [= <- <-]. exact Hlist.
    + intros [= <- <-]. discriminate.
Qed.

Lemma get_defined (v : value) (k : string) :
  v <> VNull -> v <> VUndefined -> exists x, get v k = ret x.
Proof.
  intros Hn Hu. destruct v; try congruence; cbn [get]; eexists; reflexivity.
Qed.

Lemma readResponse_json (r : response) (result : value) (e : env) (st : state) :
  ok r = true ->
  contentType r = Some "application/json" ->
  JSON.parse (bodyText r) = Some result ->
  BaseHandler.readResponse r e st = (Returned result, st).
Proof.
  intros Hok Hct Hparse. unfold BaseHandler.readResponse, response_json.
  rewrite Hok, Hct, Hparse. reflexivity.
Qed.

Lemma handler_request_json (cfg : Config) (endpoint : string)
    (props : list (string * value)) (r : response) (result : value)
    (e : env) (st : state) :
  remote e (fetched st) (apiUrl cfg ++ endpoint) (handler_request cfg props)
  = Resolves r ->
  ok r = true ->
  contentType r = Some "application/json" ->
  JSON.parse (bodyText r) = Some result ->
  BaseHandler.apiRequest cfg endpoint (VObject props) e st
  = (Returned result,
     after_fetch (apiUrl cfg ++ endpoint) (handler_request cfg props) st).
Proof.
  intros Hres Hok Hct Hparse.
  rewrite handler_request_run. fold (handler_request cfg props). rewrite Hres.
  unfold try_catch. now rewrite (readResponse_json r result e _ Hok Hct Hparse).
Qed.

Lemma handler_request_method (cfg : Config) (props : list (string * value))
    (m : value) :
  NoDup (map fst props) ->
  JS.lookup "method" props = Some m ->
  JS.member (JS.props_of (handler_request cfg props)) "method" = m.
Proof.
  intros Hnd Hm. unfold handler_request. cbn [JS.props_of]. unfold JS.member at 1.
  unfold BaseHandler.fetchOptions.
  destruct (JS.truthy (JS.member props "body")
            && BaseHandler.is_object (JS.member props "body")).
  - rewrite lookup_set. cbn [String.eqb Ascii.eqb Bool.eqb].
    now rewrite (lookup_spread_present "method" m _ _ Hnd Hm).
  - now rewrite (lookup_spread_present "method" m _ _ Hnd Hm).
Qed.

(** X22 ([handlers/NoteHandler.js], [createNote], [handleTool]).  Take
    arguments that have a title and a content, whose project (the one of
    the arguments, else the one of the session) can be encoded into the path
    and whose [generate_embedding], if given, converts to a string.  When
    the API answers the request with an [ok] status and a JSON body other
    than [null], [create_note] has sent one POST request, and yet what it
    returns is the failure envelope about [buildResponse]: the note may
    exist although the tool reports a failure. *)
Theorem create_note_posts_then_reports_failure
    (cfg : Config) (props : list (string * value)) (ctx : Context)
    (r : response) (result : value) (e : env) (st : state) :
  Forall (fun key => BaseHandler.lacks props key = false) ["title"; "content"] ->
  JS.encodable (JS.or (JS.member props "projectId") (VString (currentProject ctx)))
  = true ->
  JS.convertible (JS.member props "generate_embedding") = true ->
  (forall n url options, remote e n url options = Resolves r) ->
  ok r = true ->
  contentType r = Some "application/json" ->
  JSON.parse (bodyText r) = Some result ->
  result <> VNull ->
  exists (url : string) (sent : value),
    NoteHandler.handleTool cfg "create_note" (VObject props) ctx e st
    = (Returned (VObject [("success", VBool false);
                          ("error", VString missing_builder);
                          ("tool", VString "create_note");
                          ("timestamp", VString (clock e (ticks st)))]),
       after_tick (after_fetch url sent st))
    /\ JS.member (JS.props_of sent) "method" = VString "POST".
Proof.
  intros Hargs Hproject Hflag Hremote Hok Hct Hparse Hnull.
  pose proof (parse_defined _ _ Hparse) as Hundef.
  unfold NoteHandler.handleTool. cbn [get]. rewrite bind_ret.
  cbn [String.eqb Ascii.eqb Bool.eqb].
  unfold NoteHandler.createNote, try_catch.
  unfold bind at 1.
  rewrite validateParams_complete.
  2:{ apply filter_nil_iff. exact Hargs. }
  cbn [get]. rewrite !bind_ret.
  unfold bind at 1. rewrite (append_if_defined_returns _ _ _ _ _ Hflag).
  unfold bind at 1. rewrite (projectEndpoint_returns _ _ _ _ Hproject).
  unfold bind at 1.
  erewrite handler_request_json; [|apply Hremote | exact Hok | exact Hct | exact Hparse].
  destruct (get_defined result "data" Hnull Hundef) as [data Hdata].
  rewrite Hdata, bind_ret.
  eexists. eexists. split; [reflexivity|].
  apply handler_request_method; [|reflexivity].
  cbn [map fst]. repeat constructor; cbn [In]; intuition discriminate.
Qed.

Lemma create_note_posts_then_reports_failure_witness :
  exists (url : string) (sent : value),
    NoteHandler.handleTool (config_with_key (Some session_key)) "create_note"
      (VObject [("title", VString "t"); ("content", VString "c")])
      (mkContext "myproject") (env_with note_remote) initial
    = (Returned (VObject [("success", VBool false);
                          ("error", VString missing_builder);
                          ("tool", VString "create_note");
                          ("timestamp", VString "2024-01-01T00:00:00.000Z")]),
       after_tick (after_fetch url sent initial))
    /\ JS.member (JS.props_of sent) "method" = VString "POST".
Proof.
  apply (create_note_posts_then_reports_failure (config_with_key (Some session_key))
           [("title", VString "t"); ("content", VString "c")]
           (mkContext "myproject") note_response
           (VObject [("data", VObject [("id", JS.int 5); ("title", VString "x")])])
           (env_with note_remote) initial).
  - repeat constructor.
  - reflexivity.
  - reflexivity.
  - intros n url options. reflexivity.
  - reflexivity.
  - reflexivity.
  - vm_compute. reflexivity.
  - discriminate.
Defined.

(** X23 ([handlers/NoteHandler.js], [updateNote]).  An [update_note] call
    that names a note but nothing to change, that is, neither both of
    [old_str] and [new_str] nor any of [title], [tags] and [virtual_folder],
    is refused without any request being sent; [old_str] given without
    [new_str] counts as nothing. *)
Theorem update_note_without_changes
    (cfg : Config) (props : list (string * value)) (ctx : Context)
    (e : env) (st : state) :
  BaseHandler.lacks props "id" = false ->
  JS.is_undefined (JS.member props "old_str")
  || JS.is_undefined (JS.member props "new_str") = true ->
  JS.is_undefined (JS.member props "title") = true ->
  JS.is_undefined (JS.member props "tags") = true ->
  JS.is_undefined (JS.member props "virtual_folder") = true ->
  NoteHandler.handleTool cfg "update_note" (VObject props) ctx e st
  = (Returned (VObject [("success", VBool false);
                        ("error", VString no_updates);
                        ("tool", VString "update_note");
                        ("timestamp", VString (clock e (ticks st)))]),
     after_tick st).
Proof.
  intros Hid Hcontent Htitle Htags Hfolder.
  unfold NoteHandler.handleTool. cbn [get]. rewrite bind_ret.
  cbn [String.eqb Ascii.eqb Bool.eqb].
  unfold NoteHandler.updateNote, try_catch.
  unfold bind at 1.
  rewrite validateParams_complete.
  2:{ apply filter_nil_iff. constructor; [exact Hid | constructor]. }
  cbn [get]. rewrite !bind_ret.
  replace (negb (JS.is_undefined (JS.member props "old_str"))
           && negb (JS.is_undefined (JS.member props "new_str"))) with false
    by (destruct (JS.is_undefined (JS.member props "old_str")),
                 (JS.is_undefined (JS.member props "new_str"));
        cbn in *; congruence).
  unfold NoteHandler.copy_if_defined. cbn [get].
  unfold bind at 1. rewrite bind_ret. rewrite Htitle. cbn [negb]. unfold ret at 1.
  cbv iota beta.
  unfold bind at 1. rewrite bind_ret. rewrite Htags. cbn [negb]. unfold ret at 1.
  cbv iota beta.
  unfold bind at 1. rewrite bind_ret. rewrite Hfolder. cbn [negb]. unfold ret at 1.
  cbv iota beta.
  reflexivity.
Qed.

Lemma update_note_without_changes_witness :
  NoteHandler.handleTool (config_with_key (Some session_key)) "update_note"
    (VObject [("id", JS.int 5); ("old_str", VString "a")])
    (mkContext "myproject") (env_with note_remote) initial
  = (Returned (VObject [("success", VBool false);
                        ("error", VString no_updates);
                        ("tool", VString "update_note");
                        ("timestamp", VString "2024-01-01T00:00:00.000Z")]),
     after_tick initial).
Proof.
  apply (update_note_without_changes (config_with_key (Some session_key))
           [("id", JS.int 5); ("old_str", VString "a")]
           (mkContext "myproject") (env_with note_remote) initial);
    reflexivity.
Defined.
(** ** Further properties of the project and statistics tools *)

Lemma handler_request_sent_default (cfg : Config) (endpoint : string)
    (e : env) (st : state) :
  exists out,
    BaseHandler.apiRequest cfg endpoint VUndefined e st
    = (out, after_fetch (apiUrl cfg ++ endpoint) (handler_request cfg []) st).
Proof.
  rewrite handler_request_default_options. apply handler_request_sent.
Qed.

Lemma or_same (v : value) : JS.or v v = v.
Proof. unfold JS.or. destruct (JS.truthy v); reflexivity. Qed.

(** X24 ([handlers/ProjectHandler.js], [getCurrentContext],
    [getProjectInfo]).  [get_current_context] reports success whatever its
    arguments and whatever the API does, and its data names the project of
    the session.  It sends exactly one request when the name of that
    project is well formed; when the name holds a lone surrogate the path
    cannot be built, no request is sent, and the data carries the warning
    that the project information could not be retrieved. *)
Theorem current_context_always_succeeds
    (cfg : Config) (params : value) (ctx : Context) (e : env) (st : state) :
  exists (v : value) (st' : state),
    ProjectHandler.handleTool cfg "get_current_context" params ctx e st
    = (Returned v, st')
    /\ success_of v = VBool true
    /\ JS.member (JS.props_of (JS.member (JS.props_of v) "data")) "currentProject"
       = VString (currentProject ctx)
    /\ requests (trace st')
       = (if JS.well_formed (currentProject ctx) then S (requests (trace st))
          else requests (trace st))
    /\ (JS.well_formed (currentProject ctx) = false ->
        JS.member (JS.props_of (JS.member (JS.props_of v) "data")) "warning"
        = VString "Could not retrieve project info: URI malformed").
Proof.
  unfold ProjectHandler.handleTool. cbn [String.eqb Ascii.eqb Bool.eqb].
  unfold ProjectHandler.getCurrentContext, ProjectHandler.getProjectInfo.
  cbn [get JS.member JS.lookup String.eqb Ascii.eqb Bool.eqb].
  unfold try_catch at 1 2. unfold bind at 1. rewrite bind_ret.
  rewrite !or_same.
  unfold try_catch at 1. unfold bind at 1.
  destruct (JS.well_formed (currentProject ctx)) eqn:Hwf.
  - rewrite projectEndpoint_returns by (unfold JS.encodable; cbn; exact Hwf).
    unfold bind at 1.
    destruct (handler_request_sent_default cfg
                (BaseHandler.getProjectEndpoint (VString (currentProject ctx)) "/stats")
                e st) as [out Hout].
    rewrite Hout.
    assert (Hfetch : requests (trace (after_fetch
                        (apiUrl cfg ++ BaseHandler.getProjectEndpoint
                                         (VString (currentProject ctx)) "/stats")
                        (handler_request cfg []) st))
                     = S (requests (trace st))).
    { unfold after_fetch. cbn [trace]. rewrite requests_app. cbn [requests]. lia. }
    destruct out as [result|err].
    + eexists. eexists. split; [reflexivity|].
      split; [reflexivity|]. split; [reflexivity|].
      split; [cbn [trace after_tick]; exact Hfetch | discriminate].
    + destruct (Str.includes (err_message err) "404").
      * eexists. eexists. split; [reflexivity|].
        split; [reflexivity|]. split; [reflexivity|].
        split; [cbn [trace after_tick]; exact Hfetch | discriminate].
      * eexists. eexists. split; [reflexivity|].
        split; [reflexivity|]. split; [reflexivity|].
        split; [cbn [trace after_tick]; exact Hfetch | discriminate].
  - rewrite projectEndpoint_malformed by exact Hwf.
    eexists. eexists. split; [reflexivity|].
    split; [reflexivity|]. split; [reflexivity|].
    split; [reflexivity | intros _; reflexivity].
Qed.
Lemma not_found_message (body : string) :
  Str.includes ("API request failed (404): " ++ body) "404" = true.
Proof. reflexivity. Qed.

Lemma handler_request_not_found (cfg : Config) (endpoint : string) (r : response)
    (e : env) (st : state) :
  remote e (fetched st) (apiUrl cfg ++ endpoint) (handler_request cfg []) = Resolves r ->
  status r = 404 ->
  BaseHandler.apiRequest cfg endpoint VUndefined e st
  = (Thrown (Error ("API request failed (404): " ++ bodyText r)),
     after_fetch (apiUrl cfg ++ endpoint) (handler_request cfg []) st).
Proof.
  intros Hres Hstatus.
  rewrite handler_request_default_options, handler_request_run.
  fold (handler_request cfg []). rewrite Hres.
  unfold try_catch, BaseHandler.readResponse, ok. rewrite Hstatus.
  reflexivity.
Qed.

(** X25 ([handlers/StatsHandler.js], [getUsageStats], [getSystemStats],
    [buildBasicSystemStats]).  A 404 answer of the API is not reported as a
    failure.  [get_usage_stats], when its project (the one of the arguments,
    else the one of the session) can be encoded into the path, sends one
    request and returns a success envelope whose data say the statistics are
    not available; when the project cannot be encoded it sends nothing and
    returns the failure envelope with the engine's message, the path being
    built outside the [try] that looks for a 404.  [get_system_stats], whose
    path has no project, sends one request and returns a success envelope
    that describes the API as accessible. *)
Theorem not_found_is_reported_as_success
    (cfg : Config) (props : list (string * value)) (ctx : Context)
    (r : response) (e : env) (st : state) :
  (forall n url options, remote e n url options = Resolves r) ->
  status r = 404 ->
  let projectId := JS.or (JS.member props "projectId") (VString (currentProject ctx)) in
  (JS.encodable projectId = true ->
   exists st',
     StatsHandler.handleTool cfg "get_usage_stats" (VObject props) ctx e st
     = (Returned
          (VObject
             [("success", VBool true);
              ("data",
               VObject [("available", VBool false);
                        ("projectId", projectId);
                        ("message", VString "Usage statistics not available")]);
              ("message", VString "Usage statistics unavailable");
              ("timestamp", VString (clock e (ticks st)))]), st')
     /\ requests (trace st') = S (requests (trace st)))
  /\ (JS.encodable projectId = false ->
      StatsHandler.handleTool cfg "get_usage_stats" (VObject props) ctx e st
      = (Returned
           (VObject
              [("success", VBool false);
               ("error",
                VString (if JS.convertible projectId then "URI malformed"
                         else "Cannot convert object to primitive value"));
               ("tool", VString "get_usage_stats");
               ("timestamp", VString (clock e (ticks st)))]),
         after_tick st))
  /\ (exists st',
        StatsHandler.handleTool cfg "get_system_stats" (VObject props) ctx e st
        = (Returned
             (VObject
                [("success", VBool true);
                 ("data",
                  VObject [("api", VObject [("url", VString (apiUrl cfg));
                                            ("accessible", VBool true)]);
                           ("message", VString "System statistics not available - no system-wide stats endpoint");
                           ("timestamp", VString (clock e (ticks st)))]);
                 ("message", VString "Basic system information");
                 ("timestamp", VString (clock e (S (ticks st))))]), st')
        /\ requests (trace st') = S (requests (trace st))).
Proof.
  intros Hremote Hstatus projectId.
  assert (Hfetch : forall url sent,
            requests (trace (after_fetch url sent st)) = S (requests (trace st))).
  { intros url sent. unfold after_fetch. cbn [trace]. rewrite requests_app.
    cbn [requests]. lia. }
  split; [|split].
  - intros Hproject.
    unfold StatsHandler.handleTool. cbn [String.eqb Ascii.eqb Bool.eqb].
    unfold StatsHandler.getUsageStats. cbn [get].
    unfold try_catch at 1. rewrite bind_ret.
    unfold bind at 1. fold projectId.
    rewrite (projectEndpoint_returns projectId _ e st Hproject).
    unfold try_catch at 1. unfold bind at 1.
    rewrite (handler_request_not_found cfg _ r e st (Hremote _ _ _) Hstatus).
    cbn [err_message Error]. rewrite not_found_message.
    eexists. split; [reflexivity|].
    cbn [trace after_tick]. apply Hfetch.
  - intros Hproject.
    unfold StatsHandler.handleTool. cbn [String.eqb Ascii.eqb Bool.eqb].
    unfold StatsHandler.getUsageStats. cbn [get].
    unfold try_catch at 1. rewrite bind_ret.
    unfold bind at 1. fold projectId.
    rewrite (projectEndpoint_refuses projectId _ e st Hproject).
    destruct (JS.convertible projectId); reflexivity.
  - unfold StatsHandler.handleTool. cbn [String.eqb Ascii.eqb Bool.eqb].
    unfold StatsHandler.getSystemStats. cbn [get].
    unfold try_catch at 1. rewrite bind_ret.
    unfold try_catch at 1. unfold bind at 1.
    rewrite (handler_request_not_found cfg _ r e st (Hremote _ _ _) Hstatus).
    cbn [err_message Error]. rewrite not_found_message.
    eexists. split; [reflexivity|].
    cbn [trace after_tick]. apply Hfetch.
Qed.

Lemma not_found_is_reported_as_success_witness :
  let e := env_with (fun _ _ _ =>
                       Resolves (mkResponse 404 "Not Found" None "no such route")) in
  exists st',
    StatsHandler.handleTool (config_with_key (Some session_key)) "get_usage_stats"
      (VObject []) (mkContext "myproject") e initial
    = (Returned
         (VObject
            [("success", VBool true);
             ("data",
              VObject [("available", VBool false);
                       ("projectId", VString "myproject");
                       ("message", VString "Usage statistics not available")]);
             ("message", VString "Usage statistics unavailable");
             ("timestamp", VString "2024-01-01T00:00:00.000Z")]), st')
    /\ requests (trace st') = 1%nat.
Proof.
  intros e.
  refine (proj1 (not_found_is_reported_as_success (config_with_key (Some session_key))
                   [] (mkContext "myproject")
                   (mkResponse 404 "Not Found" None "no such route") e initial _ _) _).
  - intros n url options. reflexivity.
  - reflexivity.
  - reflexivity.
Defined.

(** ** The number of requests a tool call sends *)

Section Budget.

Context {A B : Type}.

Lemma sends_ret (n : nat) (a : A) : sends_at_most n (ret a).
Proof. intros e st. cbn. lia. Qed.

Lemma sends_throw (n : nat) (err : error) : sends_at_most n (@throw A err).
Proof. intros e st. cbn. lia. Qed.

Lemma sends_more (n : nat) (m : M A) : sends_at_most 0 m -> sends_at_most n m.
Proof. intros H e st. specialize (H e st). lia. Qed.

Lemma sends_bind (a b : nat) (m : M A) (k : A -> M B) :
  sends_at_most a m -> (forall x, sends_at_most b (k x)) ->
  sends_at_most (a + b) (bind m k).
Proof.
  intros Hm Hk e st. unfold bind. specialize (Hm e st).
  destruct (m e st) as [[x|err] st1]; cbn [snd] in *.
  - specialize (Hk x e st1). lia.
  - lia.
Qed.

Lemma sends_bind_free (n : nat) (m : M A) (k : A -> M B) :
  sends_at_most 0 m -> (forall x, sends_at_most n (k x)) ->
  sends_at_most n (bind m k).
Proof. intros Hm Hk. exact (sends_bind 0 n m k Hm Hk). Qed.

Lemma sends_bind_one (n : nat) (m : M A) (k : A -> M B) :
  sends_at_most 1 m -> (forall x, sends_at_most n (k x)) ->
  sends_at_most (S n) (bind m k).
Proof. intros Hm Hk. exact (sends_bind 1 n m k Hm Hk). Qed.

Lemma sends_try_catch (a b : nat) (m : M A) (h : error -> M A) :
  sends_at_most a m -> (forall err, sends_at_most b (h err)) ->
  sends_at_most (a + b) (try_catch m h).
Proof.
  intros Hm Hh e st. unfold try_catch. specialize (Hm e st).
  destruct (m e st) as [[x|err] st1]; cbn [snd] in *.
  - lia.
  - specialize (Hh err e st1). lia.
Qed.

Lemma sends_try_catch_free (n : nat) (m : M A) (h : error -> M A) :
  sends_at_most n m -> (forall err, sends_at_most 0 (h err)) ->
  sends_at_most n (try_catch m h).
Proof.
  intros Hm Hh. pose proof (sends_try_catch n 0 m h Hm Hh) as H.
  now rewrite Nat.add_0_r in H.
Qed.

End Budget.

Lemma sends_get (n : nat) (v : value) (k : string) : sends_at_most n (get v k).
Proof. destruct v; cbn [get]; first [apply sends_ret | apply sends_throw]. Qed.

Lemma sends_get_opt (n : nat) (v : value) (k : string) : sends_at_most n (get_opt v k).
Proof. destruct v; cbn [get_opt]; first [apply sends_ret | apply sends_get]. Qed.

Lemma sends_destructure (n : nat) (v : value) (what k : string) :
  sends_at_most n (destructure v what k).
Proof. destruct v; cbn [destructure]; first [apply sends_throw | apply sends_get]. Qed.

Lemma sends_now_iso (n : nat) : sends_at_most n now_iso.
Proof. intros e st. cbn. lia. Qed.

Lemma sends_console (n : nat) (stream text : string) :
  sends_at_most n (console stream text).
Proof.
  intros e st. unfold console, record. cbn [snd trace].
  rewrite requests_app. cbn [requests]. lia.
Qed.

Lemma sends_ask (n : nat) : sends_at_most n ask.
Proof. intros e st. cbn. lia. Qed.

Lemma sends_fetch (url : string) (options : value) : sends_at_most 1 (fetch url options).
Proof.
  intros e st. unfold fetch.
  destruct (remote e (fetched st) url options); cbn [snd trace];
    rewrite requests_app; cbn [requests]; lia.
Qed.

Lemma sends_buildResponse (n : nat) (receiver : string) (args : list value) :
  sends_at_most n (ResponseBuilder.buildResponse receiver args).
Proof. apply sends_throw. Qed.

Lemma sends_text (n : nat) (v : value) : sends_at_most n (text v).
Proof.
  unfold text. destruct (JS.convertible v); [apply sends_ret | apply sends_throw].
Qed.

(** One step of the count: a sequence whose first part sends nothing, a
    branch, a part that sends nothing. *)
Ltac free_step :=
  first
    [ apply sends_ret | apply sends_throw | apply sends_get | apply sends_get_opt
    | apply sends_destructure | apply sends_now_iso | apply sends_console
    | apply sends_ask | apply sends_buildResponse | apply sends_text
    | apply sends_bind_free; [|intros]
    | apply sends_try_catch_free; [|intros]
    | match goal with
      | |- sends_at_most _ (if ?c then _ else _) => destruct c
      | |- sends_at_most _ (match ?x with _ => _ end) => destruct x
      end ].

Ltac free := repeat free_step.

Lemma sends_greater_than_zero (n : nat) (v : value) :
  sends_at_most n (greater_than_zero v).
Proof. unfold greater_than_zero. free. Qed.

Lemma sends_encodeURIComponent (n : nat) (v : value) :
  sends_at_most n (encodeURIComponent v).
Proof. unfold encodeURIComponent. free. Qed.

Lemma sends_projectEndpoint (n : nat) (projectId : value) (path : string) :
  sends_at_most n (BaseHandler.projectEndpoint projectId path).
Proof.
  unfold BaseHandler.projectEndpoint.
  apply sends_bind_free; [apply sends_encodeURIComponent | intros; apply sends_ret].
Qed.

Lemma sends_query_append (n : nat) (name : string) (v : value) (q : URLSearchParams.t) :
  sends_at_most n (query_append name v q).
Proof. unfold query_append. free. Qed.

Lemma sends_all_text (n : nat) (vs : list value) : sends_at_most n (all_text vs).
Proof.
  induction vs as [|v vs IH]; cbn [all_text]; [apply sends_ret|].
  apply sends_bind_free; [apply sends_text | intros _; exact IH].
Qed.

Lemma sends_query_of_object (n : nat) (props : list (string * value)) :
  sends_at_most n (query_of_object props).
Proof.
  unfold query_of_object.
  apply sends_bind_free; [apply sends_all_text | intros; apply sends_ret].
Qed.

Lemma sends_addition (n : nat) (a b : value) : sends_at_most n (addition a b).
Proof. unfold addition. free. Qed.

Lemma sends_validateParams (n : nat) (params : value) (required : list string) :
  sends_at_most n (BaseHandler.validateParams params required).
Proof. unfold BaseHandler.validateParams, BaseHandler.missing. free. Qed.

Lemma sends_formatSuccess (n : nat) (data message : value) :
  sends_at_most n (BaseHandler.formatSuccess data message).
Proof. unfold BaseHandler.formatSuccess. free. Qed.

Lemma sends_formatError (n : nat) (err : error) (tool : value) :
  sends_at_most n (BaseHandler.formatError err tool).
Proof. unfold BaseHandler.formatError. free. Qed.

Lemma sends_response_json (n : nat) (r : response) : sends_at_most n (response_json r).
Proof. unfold response_json. free. Qed.

Lemma sends_apiRequest (cfg : Config) (endpoint : string) (options : value) :
  sends_at_most 1 (BaseHandler.apiRequest cfg endpoint options).
Proof.
  unfold BaseHandler.apiRequest.
  apply sends_bind_free; [apply sends_get | intros option_headers].
  apply sends_bind_free; [apply sends_get | intros body].
  apply sends_try_catch_free.
  - change 1%nat with (1 + 0)%nat. apply sends_bind; [apply sends_fetch | intros r].
    unfold BaseHandler.readResponse. pose proof sends_response_json. free; auto.
  - intros err. unfold BaseHandler.onFailure. free.
Qed.

Create HintDb sends.

#[global] Hint Resolve sends_ret sends_throw sends_get sends_get_opt sends_destructure
  sends_now_iso sends_console sends_ask sends_buildResponse sends_greater_than_zero
  sends_validateParams sends_formatSuccess sends_formatError sends_text
  sends_encodeURIComponent sends_projectEndpoint sends_query_append
  sends_query_of_object sends_addition : sends.

(** One step of the count for a method that may send a request. *)
Ltac count_step :=
  first
    [ solve [auto with sends]
    | apply sends_bind_free; [solve [auto with sends] | intros]
    | apply sends_bind_one; [solve [auto with sends] | intros]
    | apply sends_bind_free;
      [ match goal with
        | |- sends_at_most _ (if ?c then _ else _) =>
            destruct c; solve [free; auto with sends]
        end
      | intros ]
    | apply sends_try_catch_free; [|intros]
    | match goal with
      | |- sends_at_most _ (if ?c then _ else _) => destruct c
      | |- sends_at_most _ (match ?x with _ => _ end) => destruct x
      end ].

Ltac count := repeat count_step.

#[global] Hint Resolve sends_apiRequest : sends.

Lemma sends_append_if_truthy (n : nat) (params : value) (k : string)
    (q : URLSearchParams.t) :
  sends_at_most n (NoteHandler.append_if_truthy params k q).
Proof. unfold NoteHandler.append_if_truthy. count. Qed.

Lemma sends_append_if_defined (n : nat) (params : value) (k : string)
    (q : URLSearchParams.t) :
  sends_at_most n (NoteHandler.append_if_defined params k q).
Proof. unfold NoteHandler.append_if_defined. count. Qed.

Lemma sends_append_each (n : nat) (name : string) (items : list value) :
  forall q, sends_at_most n (NoteHandler.append_each name items q).
Proof.
  induction items as [|item items IH]; intros q; cbn [NoteHandler.append_each];
    [apply sends_ret|].
  apply sends_bind_free; [apply sends_query_append | intros q'; apply IH].
Qed.

#[global] Hint Resolve sends_append_each : sends.

Lemma sends_append_tags (n : nat) (params : value) (q : URLSearchParams.t) :
  sends_at_most n (NoteHandler.append_tags params q).
Proof. unfold NoteHandler.append_tags. count. Qed.

Lemma sends_copy_if_defined (n : nat) (params : value) (k : string)
    (updateData : list (string * value)) :
  sends_at_most n (NoteHandler.copy_if_defined params k updateData).
Proof. unfold NoteHandler.copy_if_defined. count. Qed.

Lemma sends_append_unless_false (n : nat) (params : value) (k : string)
    (q : URLSearchParams.t) :
  sends_at_most n (StatsHandler.append_unless_false params k q).
Proof. unfold StatsHandler.append_unless_false. count. Qed.

Lemma sends_append_if_truthy_not (n : nat) (params : value) (k lit : string)
    (q : URLSearchParams.t) :
  sends_at_most n (SearchHandler.append_if_truthy_not params k lit q).
Proof. unfold SearchHandler.append_if_truthy_not. count. Qed.

Lemma sends_append_if_defined_not (n : nat) (params : value) (k : string) (b : bool)
    (q : URLSearchParams.t) :
  sends_at_most n (SearchHandler.append_if_defined_not params k b q).
Proof. unfold SearchHandler.append_if_defined_not. count. Qed.

Lemma sends_length_or_zero (n : nat) (x : value) :
  sends_at_most n (CrossReferenceHandler.length_or_zero x).
Proof. unfold CrossReferenceHandler.length_or_zero. count. Qed.

#[global] Hint Resolve sends_append_if_truthy sends_append_if_defined sends_append_tags
  sends_copy_if_defined sends_append_unless_false sends_append_if_truthy_not
  sends_append_if_defined_not sends_length_or_zero : sends.

Lemma sends_buildSearchParams (n : nat) (params : value) :
  sends_at_most n (SearchHandler.buildSearchParams params).
Proof. unfold SearchHandler.buildSearchParams. count. Qed.

Lemma sends_quoted (n : nat) (query : value) : sends_at_most n (SearchHandler.quoted query).
Proof. unfold SearchHandler.quoted. count. Qed.

#[global] Hint Resolve sends_quoted : sends.

Lemma sends_formatSearchMessage (n : nat) (params resultCount : value) :
  sends_at_most n (SearchHandler.formatSearchMessage params resultCount).
Proof. unfold SearchHandler.formatSearchMessage. count. Qed.

Lemma sends_buildBasicSystemStats (n : nat) (cfg : Config) :
  sends_at_most n (StatsHandler.buildBasicSystemStats cfg).
Proof. unfold StatsHandler.buildBasicSystemStats. count. Qed.

Lemma sends_listProjects (n : nat) (params : value) :
  sends_at_most n (ProjectHandler.listProjects params).
Proof. unfold ProjectHandler.listProjects. count. Qed.

#[global] Hint Resolve sends_buildSearchParams sends_formatSearchMessage
  sends_buildBasicSystemStats sends_listProjects : sends.

Lemma sends_post_old_new (cfg : Config) (projectId params : value) (leaf : string) :
  sends_at_most 1 (NoteHandler.post_old_new cfg projectId params leaf).
Proof. unfold NoteHandler.post_old_new. count. Qed.

Lemma sends_getProjectInfo (cfg : Config) (params : value) (ctx : Context) :
  sends_at_most 1 (ProjectHandler.getProjectInfo cfg params ctx).
Proof. unfold ProjectHandler.getProjectInfo. count. Qed.

#[global] Hint Resolve sends_post_old_new sends_getProjectInfo : sends.

Lemma note_tool_sends_one (cfg : Config) (toolName : string) (params : value)
    (ctx : Context) :
  sends_at_most 1 (NoteHandler.handleTool cfg toolName params ctx).
Proof.
  unfold NoteHandler.handleTool.
  unfold NoteHandler.listNotes, NoteHandler.getNote, NoteHandler.createNote,
    NoteHandler.updateNote, NoteHandler.deleteNote, NoteHandler.generateContexts,
    NoteHandler.getContextStats, NoteHandler.inspectContent,
    NoteHandler.previewUpdate, NoteHandler.validateUpdate,
    NoteHandler.suggestPatterns.
  count.
Qed.

Lemma cross_reference_tool_sends_one (cfg : Config) (toolName : string)
    (params : value) (ctx : Context) :
  sends_at_most 1 (CrossReferenceHandler.handleTool cfg toolName params ctx).
Proof.
  unfold CrossReferenceHandler.handleTool.
  unfold CrossReferenceHandler.addWikilink, CrossReferenceHandler.removeWikilink,
    CrossReferenceHandler.getNoteConnections, CrossReferenceHandler.suggestConnections,
    CrossReferenceHandler.validateNoteLinks, CrossReferenceHandler.getKnowledgeBaseHealth.
  count.
Qed.

Lemma project_tool_sends_one (cfg : Config) (toolName : string) (params : value)
    (ctx : Context) :
  sends_at_most 1 (ProjectHandler.handleTool cfg toolName params ctx).
Proof.
  unfold ProjectHandler.handleTool, ProjectHandler.getCurrentContext.
  count.
Qed.

Lemma stats_tool_sends_one (cfg : Config) (toolName : string) (params : value)
    (ctx : Context) :
  sends_at_most 1 (StatsHandler.handleTool cfg toolName params ctx).
Proof.
  unfold StatsHandler.handleTool.
  unfold StatsHandler.getProjectStats, StatsHandler.getSystemStats,
    StatsHandler.getUsageStats, StatsHandler.getFolderStats.
  count.
Qed.

#[global] Hint Resolve note_tool_sends_one cross_reference_tool_sends_one
  project_tool_sends_one stats_tool_sends_one : sends.

Lemma sends_le {A : Type} (a b : nat) (m : M A) :
  (a <= b)%nat -> sends_at_most a m -> sends_at_most b m.
Proof. intros Hle H e st. specialize (H e st). lia. Qed.

Lemma sends_search_at_0 (cfg : Config) (projectId params : value) :
  sends_at_most 1 (SearchHandler.search_at 0 cfg projectId params).
Proof. cbn [SearchHandler.search_at]. count. Qed.

Lemma sends_search_keyword (depth : nat) (cfg : Config) (projectId : value)
    (props : list (string * value)) :
  JS.member props "mode" = VString "keyword" ->
  sends_at_most 1 (SearchHandler.search_at depth cfg projectId (VObject props)).
Proof.
  intros Hmode e st. rewrite (search_keyword_mode depth cfg projectId props e st Hmode).
  apply sends_search_at_0.
Qed.

Lemma fallback_mode (props rest : list (string * value)) :
  ~ In "mode" (map fst rest) -> NoDup (map fst rest) ->
  JS.member (JS.spread props (("mode", VString "keyword") :: rest)) "mode"
  = VString "keyword".
Proof.
  intros Hnot Hnd. unfold JS.member.
  rewrite (lookup_spread_present "mode" (VString "keyword")); [reflexivity | |].
  - cbn [map fst]. constructor; assumption.
  - cbn [JS.lookup]. now rewrite String.eqb_refl.
Qed.

Lemma sends_search_at (cfg : Config) (projectId : value) (depth : nat) (params : value) :
  sends_at_most 2 (SearchHandler.search_at depth cfg projectId params).
Proof.
  destruct depth as [|depth].
  - apply (sends_le 1 2); [lia | apply sends_search_at_0].
  - cbn [SearchHandler.search_at].
    apply sends_bind_free; [solve [auto with sends] | intros _].
    apply sends_bind_free; [solve [auto with sends] | intros mode_raw].
    apply sends_bind_free; [solve [auto with sends] | intros queryParams].
    apply sends_bind_free; [solve [auto with sends] | intros endpoint].
    apply (sends_try_catch 1 1).
    + count.
    + intros err.
      destruct (Str.includes (err_message err) "embedding"
                || Str.includes (err_message err) "ChromaDB"); [|apply sends_throw].
      destruct (JS.is_string (JS.or mode_raw (VString "keyword")) "semantic");
        [apply sends_formatSuccess|].
      destruct (JS.is_string (JS.or mode_raw (VString "keyword")) "hybrid");
        [|apply sends_throw].
      apply sends_bind_free; [apply sends_console | intros _].
      apply sends_search_keyword, fallback_mode.
      * cbn [map fst In]. intuition discriminate.
      * cbn [map fst]. repeat constructor; cbn [In]; intuition discriminate.
Qed.

Lemma sends_graphSearch (cfg : Config) (projectId params : value) :
  sends_at_most 2 (SearchHandler.graphSearch cfg projectId params).
Proof.
  unfold SearchHandler.graphSearch.
  do 9 (apply sends_bind_free; [solve [auto with sends] | intros]).
  apply (sends_try_catch 1 1).
  - count.
  - intros err.
    destruct (Str.includes (err_message err) "graph"
              || Str.includes (err_message err) "relationship"); [|apply sends_throw].
    apply sends_bind_free; [apply sends_console | intros _].
    apply sends_search_keyword, fallback_mode.
    + cbn [map fst In]. intuition discriminate.
    + cbn [map fst]. repeat constructor; cbn [In]; intuition discriminate.
Qed.

Lemma search_tool_sends_two (cfg : Config) (toolName : string) (params : value)
    (ctx : Context) :
  sends_at_most 2 (SearchHandler.handleTool cfg toolName params ctx).
Proof.
  unfold SearchHandler.handleTool, SearchHandler.search.
  apply sends_bind_free; [solve [auto with sends] | intros].
  apply sends_try_catch_free; [|intros; auto with sends].
  destruct (String.eqb toolName "search"); [apply sends_search_at|].
  destruct (String.eqb toolName "graph_search"); [apply sends_graphSearch|].
  apply sends_throw.
Qed.

Lemma sends_log (n : nat) (srv : Server.t) (level message : string) :
  sends_at_most n (Server.log srv level message).
Proof. unfold Server.log. count. Qed.

#[global] Hint Resolve sends_log : sends.

Lemma findAndCall_budget (cfg : Config) (srv : Server.t) (toolName : string)
    (args : value) :
  Server.construct cfg = Returned srv ->
  sends_at_most 2 (Server.findAndCall srv (Server.handlers srv) toolName args)
  /\ (SearchHandler.canHandleTool toolName = false ->
      sends_at_most 1 (Server.findAndCall srv (Server.handlers srv) toolName args)).
Proof.
  intros Hsrv. destruct (constructed_handlers cfg srv Hsrv) as [_ ->].
  cbn [Server.findAndCall Server.canHandleTool Server.handleTool
       Server.noteHandler Server.searchHandler Server.projectHandler
       Server.statsHandler Server.crossReferenceHandler].
  split.
  - apply sends_bind_free; [solve [auto with sends] | intros [|]].
    { apply sends_bind_one; [solve [auto with sends] | intros; auto with sends]. }
    apply sends_bind_free; [solve [auto with sends] | intros [|]].
    { change 2%nat with (2 + 0)%nat.
      apply sends_bind; [apply search_tool_sends_two | intros; auto with sends]. }
    count.
  - intros Hsearch. rewrite Hsearch.
    apply sends_bind_free; [solve [auto with sends] | intros [|]].
    { apply sends_bind_one; [solve [auto with sends] | intros; auto with sends]. }
    intros e st. rewrite bind_ret. revert e st.
    count.
Qed.

(** X26 ([index.js], [CallTool] handler; the handlers' tool methods).  A
    tool call sends at most two requests to the API, whatever the tool, the
    arguments and the answers; only [search] and [graph_search], which fall
    back to a keyword search, can send a second one, every other tool sends
    at most one. *)
Theorem tool_call_sends_at_most_two_requests
    (cfg : Config) (srv : Server.t) (toolName : string) (args : value)
    (e : env) (st : state) :
  Server.construct cfg = Returned srv ->
  (requests (trace (snd (Server.CallTool srv toolName args e st)))
   <= requests (trace st) + 2)%nat
  /\ (SearchHandler.canHandleTool toolName = false ->
      (requests (trace (snd (Server.CallTool srv toolName args e st)))
       <= requests (trace st) + 1)%nat).
Proof.
  intros Hsrv. destruct (findAndCall_budget cfg srv toolName args Hsrv) as [H2 H1].
  assert (Hcall : forall n,
            sends_at_most n (Server.findAndCall srv (Server.handlers srv) toolName args) ->
            sends_at_most n (Server.CallTool srv toolName args)).
  { intros n Hn. unfold Server.CallTool.
    apply sends_try_catch_free; [exact Hn | intros err; count]. }
  split.
  - apply (Hcall 2%nat H2).
  - intros Hsearch. apply (Hcall 1%nat (H1 Hsearch)).
Qed.

Lemma tool_call_sends_at_most_two_requests_witness :
  (requests (trace (snd (Server.CallTool session_server "search"
                           (VObject [("query", VString "x"); ("mode", VString "hybrid")])
                           (env_with always_failing) initial)))
   <= 0 + 2)%nat
  /\ (SearchHandler.canHandleTool "search" = false ->
      (requests (trace (snd (Server.CallTool session_server "search"
                               (VObject [("query", VString "x");
                                         ("mode", VString "hybrid")])
                               (env_with always_failing) initial)))
       <= 0 + 1)%nat).
Proof.
  apply (tool_call_sends_at_most_two_requests (config_with_key (Some session_key))
           session_server "search"
           (VObject [("query", VString "x"); ("mode", VString "hybrid")])
           (env_with always_failing) initial).
  reflexivity.
Defined.

(** ** The client's methods *)




(** X28 ([client.js], [testConnection], [apiRequest]).  The connection test
    fails exactly when the request fails, and with the same error: since
    [apiRequest] returns only responses that are [ok], the branch that
    throws [Knowledge AI API not accessible] is never taken.  With a
    negative retry limit, where the request returns [undefined], the test
    fails on reading [ok]. *)
Theorem test_connection_follows_the_request (cfg : Config) (e : env) (st : state) :
  Client.testConnection cfg e st
  = match Client.apiRequest cfg "/health" VUndefined e st with
    | (Returned (Some _), st') => (Returned tt, st')
    | (Returned None, st') =>
        (Thrown (TypeError "Cannot read properties of undefined (reading 'ok')"), st')
    | (Thrown err, st') => (Thrown err, st')
    end.
Proof.
  unfold Client.testConnection, bind.
  destruct (Client.apiRequest cfg "/health" VUndefined e st) as [out st'] eqn:Hrun.
  unfold Client.apiRequest in Hrun.
  apply retry_loop_result in Hrun; [|lia | f_equal; lia].
  destruct Hrun as [_ Hout].
  destruct out as [[r|]|err]; [|reflexivity|reflexivity].
  rewrite Hout. reflexivity.
Qed.

(** X29 ([client.js], [registerWebhook], [unregisterWebhook]).  Registering
    and unregistering the webhook never fail: an error of the request is
    written to the console and dropped.  Without a webhook address neither
    method does anything. *)
Theorem webhook_registration_never_throws (client : Client.t) (e : env) (st : state) :
  (exists st', Client.registerWebhook client e st = (Returned tt, st'))
  /\ (exists st', Client.unregisterWebhook client e st = (Returned tt, st'))
  /\ (truthy_str (Client.webhookUrl client) = false ->
      Client.registerWebhook client e st = (Returned tt, st)
      /\ Client.unregisterWebhook client e st = (Returned tt, st)).
Proof.
  unfold Client.registerWebhook, Client.unregisterWebhook.
  destruct (truthy_str (Client.webhookUrl client)); cbn [negb].
  - split; [|split; [|discriminate]].
    + unfold try_catch.
      match goal with |- context [?m e st] =>
        match m with bind _ _ => destruct (m e st) as [[[]|err] st1] end end.
      * eexists. reflexivity.
      * eexists. reflexivity.
    + unfold try_catch.
      match goal with |- context [?m e st] =>
        match m with bind _ _ => destruct (m e st) as [[[]|err] st1] end end.
      * eexists. reflexivity.
      * eexists. reflexivity.
  - split; [eexists; reflexivity|]. split; [eexists; reflexivity|].
    intros _. split; reflexivity.
Qed.
(** ** The settings read from the environment, and the safe parser *)

(** White space is not removed in front of a character of the ASCII range
    that is no white space. *)
Lemma trimStart_keeps (c : ascii) (rest : string) :
  JS.is_space1 (JS.byte c) = false -> JS.byte c < 128 ->
  JS.trimStart (String c rest) = String c rest.
Proof.
  intros Hspace Hascii. cbn [JS.trimStart]. rewrite Hspace.
  destruct rest as [|c2 [|c3 rest]]; [reflexivity| |].
  - replace (JS.byte c =? 194) with false by (symmetry; apply Z.eqb_neq; lia).
    reflexivity.
  - replace (JS.byte c =? 194) with false by (symmetry; apply Z.eqb_neq; lia).
    cbn [andb]. unfold JS.is_space3.
    replace (JS.byte c =? 225) with false by (symmetry; apply Z.eqb_neq; lia).
    replace (JS.byte c =? 226) with false by (symmetry; apply Z.eqb_neq; lia).
    replace (JS.byte c =? 227) with false by (symmetry; apply Z.eqb_neq; lia).
    replace (JS.byte c =? 239) with false by (symmetry; apply Z.eqb_neq; lia).
    reflexivity.
Qed.

(** Reading the digits of a decimal numeral, with more text behind it. *)
Local Ltac read_digit IH :=
  cbn [JS.leading_digits];
  match goal with
  | |- context [JS.digit_value ?c] =>
      let v := eval cbv in (JS.digit_value c) in
      change (JS.digit_value c) with v
  end;
  cbv beta iota;
  match goal with
  | |- context [?k <? 10] => change (k <? 10) with true
  end;
  cbv iota.

Lemma leading_digits_acc (d : Decimal.uint) (tail : string) :
  forall (acc : positive) (n : nat),
    JS.leading_digits 10 (NilEmpty.string_of_uint d ++ tail) (Z.pos acc) n
    = JS.leading_digits 10 tail (Z.pos (Pos.of_uint_acc d acc))
        (n + Decimal.nb_digits d).
Proof.
  induction d as [|d IH|d IH|d IH|d IH|d IH|d IH|d IH|d IH|d IH|d IH];
    intros acc n;
    cbn [NilEmpty.string_of_uint append Decimal.nb_digits Pos.of_uint_acc];
    [now rewrite Nat.add_0_r| ..];
    read_digit IH;
    match goal with
    | |- JS.leading_digits _ _ ?a _
         = JS.leading_digits _ _ (Z.pos (Pos.of_uint_acc _ ?b)) _ =>
        replace a with (Z.pos b) by lia
    end;
    rewrite IH; f_equal; lia.
Qed.

Lemma leading_digits_decimal (d : Decimal.uint) (tail : string) :
  forall n : nat,
    JS.leading_digits 10 (NilEmpty.string_of_uint d ++ tail) 0 n
    = JS.leading_digits 10 tail (Z.of_N (Pos.of_uint d)) (n + Decimal.nb_digits d).
Proof.
  induction d as [|d IH|d IH|d IH|d IH|d IH|d IH|d IH|d IH|d IH|d IH];
    intros n;
    cbn [NilEmpty.string_of_uint append Decimal.nb_digits Pos.of_uint];
    [now rewrite Nat.add_0_r| ..];
    read_digit IH.
  1: { change (0 * 10 + 0) with 0. rewrite IH. f_equal. lia. }
  all: match goal with
       | |- context [0 * 10 + Z.pos ?k] =>
           change (0 * 10 + Z.pos k) with (Z.pos k)
       end; rewrite leading_digits_acc; f_equal; lia.
Qed.

Lemma not_hex_mark (x : ascii) :
  JS.digit_value x = None \/ (exists k, JS.digit_value x = Some k /\ k < 10) ->
  Ascii.eqb x "x" || Ascii.eqb x "X" = false.
Proof.
  intros H.
  destruct (Ascii.eqb_spec x "x") as [->|_];
    [destruct H as [H | [k [H Hk]]]; cbv in H; [discriminate | injection H as <-; lia]|].
  destruct (Ascii.eqb_spec x "X") as [->|_];
    [destruct H as [H | [k [H Hk]]]; cbv in H; [discriminate | injection H as <-; lia]|].
  reflexivity.
Qed.

Lemma decimal_not_hex (l : Decimal.uint) (tail : string) :
  (forall c rest, tail = String c rest -> JS.digit_value c = None) ->
  match NilEmpty.string_of_uint l ++ tail with
  | EmptyString => false
  | String x _ => Ascii.eqb x "x" || Ascii.eqb x "X"
  end = false.
Proof.
  intros Htail.
  destruct l; cbn [NilEmpty.string_of_uint append]; try reflexivity.
  destruct tail as [|c rest]; [reflexivity|].
  apply not_hex_mark. left. now apply (Htail c rest).
Qed.

Local Ltac read_number Hread :=
  unfold JS.parseInt; cbn [NilEmpty.string_of_uint append] in *;
  rewrite trimStart_keeps by (cbv; (reflexivity || congruence));
  change (0 =? 0) with true; cbn [negb andb orb]; cbv iota;
  rewrite ?decimal_not_hex by assumption; cbv iota;
  rewrite Hread; reflexivity.

Lemma parseInt_decimal (d : Decimal.uint) (tail : string) :
  d <> Decimal.Nil ->
  (forall c rest, tail = String c rest -> JS.digit_value c = None) ->
  JS.parseInt (NilEmpty.string_of_uint d ++ tail) 0 = Some (Z.of_N (Pos.of_uint d))
  /\ JS.parseInt (String "-" (NilEmpty.string_of_uint d ++ tail)) 0
     = Some (- Z.of_N (Pos.of_uint d)).
Proof.
  intros Hd Htail.
  assert (Hread : JS.leading_digits 10 (NilEmpty.string_of_uint d ++ tail) 0 0
                  = (Z.of_N (Pos.of_uint d), Decimal.nb_digits d)).
  { rewrite leading_digits_decimal. cbn [Nat.add].
    destruct tail as [|c rest]; [reflexivity|].
    cbn [JS.leading_digits]. now rewrite (Htail c rest eq_refl). }
  destruct d as [|l|l|l|l|l|l|l|l|l|l]; [now elim Hd| ..];
    (split; [read_number Hread | read_number Hread]).
Qed.

(** The text of an integer is a decimal numeral. *)
Lemma parseInt_integer (n : Z) (tail : string) :
  (forall c rest, tail = String c rest -> JS.digit_value c = None) ->
  JS.parseInt (JS.to_string (JS.int n) ++ tail) 0 = Some n.
Proof.
  intros Htail.
  change (JS.to_string (JS.int n)) with (NilZero.string_of_int (Z.to_int n)).
  destruct n as [|p|p]; cbn [Z.to_int NilZero.string_of_int].
  - exact (proj1 (parseInt_decimal (Decimal.D0 Decimal.Nil) tail
                    ltac:(discriminate) Htail)).
  - pose proof (DecimalPos.Unsigned.to_uint_nonnil p) as Hnil.
    pose proof (DecimalPos.Unsigned.of_to p) as Hback.
    destruct (parseInt_decimal (Pos.to_uint p) tail Hnil Htail) as [Hplus _].
    rewrite Hback in Hplus.
    destruct (Pos.to_uint p); [now elim Hnil| ..]; exact Hplus.
  - pose proof (DecimalPos.Unsigned.to_uint_nonnil p) as Hnil.
    pose proof (DecimalPos.Unsigned.of_to p) as Hback.
    destruct (parseInt_decimal (Pos.to_uint p) tail Hnil Htail) as [_ Hminus].
    rewrite Hback in Hminus.
    destruct (Pos.to_uint p); [now elim Hnil| ..]; exact Hminus.
Qed.

(** A text that begins with a letter is not a number. *)
Lemma parseInt_letter (c : ascii) (rest : string) :
  65 <= JS.byte c <= 90 \/ 97 <= JS.byte c <= 122 ->
  JS.parseInt (String c rest) 0 = None.
Proof.
  intros Hletter. unfold JS.parseInt.
  rewrite trimStart_keeps.
  2:{ unfold JS.is_space1.
      replace (JS.byte c <=? 13) with false by (symmetry; apply Z.leb_gt; lia).
      replace (JS.byte c =? 32) with false by (symmetry; apply Z.eqb_neq; lia).
      now rewrite andb_false_r. }
  2:{ lia. }
  destruct c as [[|] [|] [|] [|] [|] [|] [|] [|]];
    unfold JS.byte in Hletter; cbn in Hletter; try lia; reflexivity.
Qed.

Lemma int_setting_reads (getenv : string -> option string) (name : string)
    (fallback : Z) :
  fallback <> 0 ->
  ConfigFile.int_setting getenv name fallback <> 0
  /\ (getenv name = None -> ConfigFile.int_setting getenv name fallback = fallback)
  /\ (forall n tail,
        Z.abs n <= 2 ^ 53 ->
        (forall c rest, tail = String c rest -> JS.digit_value c = None) ->
        getenv name = Some (JS.to_string (JS.int n) ++ tail)%string ->
        ConfigFile.int_setting getenv name fallback = if n =? 0 then fallback else n)
  /\ (forall c rest,
        65 <= JS.byte c <= 90 \/ 97 <= JS.byte c <= 122 ->
        getenv name = Some (String c rest) ->
        ConfigFile.int_setting getenv name fallback = fallback).
Proof.
  intros Hf. unfold ConfigFile.int_setting. split; [|split; [|split]].
  - destruct (JS.parseInt _ 0) as [n|]; [|exact Hf].
    destruct (Z.eqb_spec n 0); assumption.
  - intros ->. reflexivity.
  - intros n tail _ Htail ->. now rewrite (parseInt_integer n tail Htail).
  - intros c rest Hletter ->. now rewrite (parseInt_letter c rest Hletter).
Qed.

(** X12 ([config.js], the [http] block).  Each of the three numeric settings
    is read from its own variable: [timeout] from [TIMEOUT] with the default
    5000, [retries] from [RETRIES] with the default 3, [retryDelay] from
    [RETRY_DELAY] with the default 1000.  The setting is the default when
    the variable is not set, when its text begins with a letter, and when it
    is the text of zero; it is the integer [n] when the variable holds the
    decimal text of [n], negative ones included, whether or not other text
    follows the digits.  So no setting is ever [0]: [RETRIES=0] gives three
    retries, and [RETRIES=-1] gives [-1]. *)
Theorem environment_settings (getenv : string -> option string)
    (name : string) (fallback value : Z) :
  In (name, fallback, value)
     [("TIMEOUT", 5000, timeout (ConfigFile.http getenv));
      ("RETRIES", 3, retries (ConfigFile.http getenv));
      ("RETRY_DELAY", 1000, retryDelay (ConfigFile.http getenv))] ->
  value <> 0
  /\ (getenv name = None -> value = fallback)
  /\ (forall n tail,
        Z.abs n <= 2 ^ 53 ->
        (forall c rest, tail = String c rest -> JS.digit_value c = None) ->
        getenv name = Some (JS.to_string (JS.int n) ++ tail)%string ->
        value = if n =? 0 then fallback else n)
  /\ (forall c rest,
        65 <= JS.byte c <= 90 \/ 97 <= JS.byte c <= 122 ->
        getenv name = Some (String c rest) -> value = fallback).
Proof.
  intros Hin. cbn [In] in Hin.
  destruct Hin as [H | [H | [H | []]]]; injection H as <- <- <-;
    cbn [ConfigFile.http timeout retries retryDelay];
    apply int_setting_reads; discriminate.
Qed.

Lemma environment_settings_witness :
  let getenv := fun name : string =>
                  if String.eqb name "RETRIES" then Some "-1 " else None in
  retries (ConfigFile.http getenv) = -1
  /\ timeout (ConfigFile.http getenv) = 5000.
Proof.
  intros getenv. split.
  - refine (proj1 (proj2 (proj2 (environment_settings getenv "RETRIES" 3
                                   (retries (ConfigFile.http getenv)) _)))
              (-1) " " _ _ _).
    + right. left. reflexivity.
    + cbn. lia.
    + intros c rest [= <- _]. reflexivity.
    + reflexivity.
  - refine (proj1 (proj2 (environment_settings getenv "TIMEOUT" 5000
                            (timeout (ConfigFile.http getenv)) _)) _).
    + left. reflexivity.
    + reflexivity.
Defined.

Lemma lower_is (c x : ascii) :
  JS.is_alnum x = true -> (97 <=? JS.byte x) = true ->
  JS.lower c = x ->
  c = x \/ c = ascii_of_nat (Z.to_nat (JS.byte x - 32)).
Proof.
  intros _ Hx. unfold JS.lower.
  destruct ((65 <=? JS.byte c) && (JS.byte c <=? 90)) eqn:Hupper.
  - intros H. right.
    apply andb_prop in Hupper. destruct Hupper as [H1 H2].
    apply Z.leb_le in H1, H2.
    assert (Hb : JS.byte x = JS.byte c + 32).
    { rewrite <- H. unfold JS.byte. rewrite nat_ascii_embedding; unfold JS.byte in *; lia. }
    rewrite Hb. replace (JS.byte c + 32 - 32) with (JS.byte c) by lia.
    unfold JS.byte. rewrite Nat2Z.id. now rewrite ascii_nat_embedding.
  - intros H. left. exact H.
Qed.

(** X30 ([handlers/BaseHandler.js], [safeParseBool]).  The safe parser of
    booleans returns a boolean whenever its default is one or is omitted.
    A string counts as [true] exactly when it is the word [true] in any
    mix of upper and lower case; a number is never read as a boolean, so
    that [1] gives the default. *)
Theorem safe_boolean_parsing (val defaultValue : value) :
  ((defaultValue = VUndefined \/ exists b, defaultValue = VBool b) ->
   exists b, BaseHandler.safeParseBool val defaultValue = VBool b)
  /\ (forall s,
        BaseHandler.safeParseBool (VString s) defaultValue = VBool true
        <-> exists c1 c2 c3 c4,
              s = String c1 (String c2 (String c3 (String c4 EmptyString)))
              /\ (c1 = "t" \/ c1 = "T") /\ (c2 = "r" \/ c2 = "R")
              /\ (c3 = "u" \/ c3 = "U") /\ (c4 = "e" \/ c4 = "E"))%char
  /\ (forall n, BaseHandler.safeParseBool (VNumber n) defaultValue
                = if JS.is_undefined defaultValue then VBool false else defaultValue).
Proof.
  split; [|split].
  - intros Hd. unfold BaseHandler.safeParseBool.
    assert (Hdef : exists b, (if JS.is_undefined defaultValue then VBool false
                              else defaultValue) = VBool b).
    { destruct Hd as [-> | [b ->]]; eexists; reflexivity. }
    destruct val; try exact Hdef; eexists; reflexivity.
  - intros s. cbn [BaseHandler.safeParseBool]. split.
    + intros H. injection H as H. apply String.eqb_eq in H.
      destruct s as [|c1 [|c2 [|c3 [|c4 [|c5 s]]]]]; try discriminate.
      cbn [JS.toLowerCase] in H. injection H as H1 H2 H3 H4.
      exists c1, c2, c3, c4. split; [reflexivity|].
      apply lower_is in H1; [|reflexivity|reflexivity].
      apply lower_is in H2; [|reflexivity|reflexivity].
      apply lower_is in H3; [|reflexivity|reflexivity].
      apply lower_is in H4; [|reflexivity|reflexivity].
      repeat split; assumption.
    + intros (c1 & c2 & c3 & c4 & -> & H1 & H2 & H3 & H4).
      destruct H1 as [-> | ->], H2 as [-> | ->], H3 as [-> | ->], H4 as [-> | ->];
        reflexivity.
  - intros n. reflexivity.
Qed.
